(** * Transport-order generator and validator: a shallow embedding

    The Python sources under [src/tools] are embedded as Rocq functions:
    strings are [string] (code points below 256), the dictionaries coming
    from [json.loads] are insertion-ordered association lists of dynamically
    typed values, [xml.etree.ElementTree] elements are finite trees, and the
    result dictionaries threaded through the validators are records passed
    explicitly from one check to the next. *)

From Stdlib Require Import Bool Arith ZArith List Ascii String Permutation Lia.
From Stdlib Require Import Sorting.Sorted.
From Stdlib Require Import Numbers.DecimalString.
Import ListNotations.
Open Scope string_scope.
Open Scope list_scope.

Set Implicit Arguments.

Infix "+++" := String.append (right associativity, at level 60).

(** ** Characters and strings *)

Definition newline : ascii := "010"%char.

Definition ascii_between (lo hi c : ascii) : bool :=
  ((nat_of_ascii lo <=? nat_of_ascii c) && (nat_of_ascii c <=? nat_of_ascii hi))%nat.

(** [A-Z] *)
Definition is_upper (c : ascii) : bool := ascii_between "A" "Z" c.

(** [0-9]; also what [\d] matches among the code points below 256. *)
Definition is_decimal (c : ascii) : bool := ascii_between "0" "9" c.

(** [[A-Z0-9]] *)
Definition is_upper_or_decimal (c : ascii) : bool := is_upper c || is_decimal c.

(** [\s] of a [str] pattern, restricted to the code points below 256:
    TAB..CR, FS..US, space, NEL and NBSP. *)
Definition is_space (c : ascii) : bool :=
  let n := nat_of_ascii c in
  (((9 <=? n) && (n <=? 13)) || ((28 <=? n) && (n <=? 32)) || (n =? 133) || (n =? 160))%nat.

(** One character of [str.isdigit()]: the decimal digits and the
    superscript digits of Latin-1. *)
Definition is_digit_char (c : ascii) : bool :=
  let n := nat_of_ascii c in
  is_decimal c || (n =? 178)%nat || (n =? 179)%nat || (n =? 185)%nat.

Definition is_not (x c : ascii) : bool := negb (Ascii.eqb c x).

Fixpoint string_forallb (p : ascii -> bool) (s : string) : bool :=
  match s with
  | EmptyString => true
  | String c s' => p c && string_forallb p s'
  end.

Fixpoint string_existsb (p : ascii -> bool) (s : string) : bool :=
  match s with
  | EmptyString => false
  | String c s' => p c || string_existsb p s'
  end.

(** [s.isdigit()]: at least one character, all of them digits. *)
Definition isdigit (s : string) : bool :=
  negb (String.eqb s "") && string_forallb is_digit_char s.

Fixpoint skipn_string (n : nat) (s : string) : string :=
  match n, s with
  | O, _ => s
  | S _, EmptyString => EmptyString
  | S k, String _ s' => skipn_string k s'
  end.

Fixpoint last_char (s : string) (d : option ascii) : option ascii :=
  match s with
  | EmptyString => d
  | String c s' => last_char s' (Some c)
  end.

(** [str(n)] for a natural number. *)
Definition nat_to_string (n : nat) : string :=
  NilEmpty.string_of_uint (Nat.to_uint n).

(** ** Regular expressions

    The patterns of the sources are sequences of literals, character
    classes, greedy repetitions of a class, one capturing group with its
    back-reference, and line anchors.  [match_here] is the backtracking
    matcher of [re] on such a sequence: it tries the longest repetition
    first and gives characters back when the rest of the pattern fails.  It
    returns the number of characters the match consumes. *)

Module Re.

Inductive atom : Type :=
| Lit (c : ascii)                (* one literal character *)
| Cls (p : ascii -> bool)        (* one character of a class *)
| Star (p : ascii -> bool)       (* class*, greedy *)
| Group1 (p : ascii -> bool)     (* (class+), greedy, captured as group 1 *)
| Backref1                       (* \1 *)
| Bol                            (* ^ under re.MULTILINE *)
| Eol                            (* $ under re.MULTILINE *)
| EolZ.                          (* $ without re.MULTILINE *)

Definition pattern := list atom.

Definition lift_S (o : option nat) : option nat := option_map S o.

Definition at_bol (prev : option ascii) : bool :=
  match prev with
  | None => true
  | Some c => Ascii.eqb c newline
  end.

Definition at_eol (s : string) : bool :=
  match s with
  | EmptyString => true
  | String c _ => Ascii.eqb c newline
  end.

Definition at_eolz (s : string) : bool :=
  match s with
  | EmptyString => true
  | String c EmptyString => Ascii.eqb c newline
  | _ => false
  end.

(** [class*] followed by the rest of the pattern [k]: the longest run
    first, then one character less at a time. *)
Fixpoint star_loop (p : ascii -> bool) (k : option ascii -> string -> string -> option nat)
    (prev : option ascii) (cap s : string) {struct s} : option nat :=
  match s with
  | String a s' =>
      if p a then
        match star_loop p k (Some a) cap s' with
        | Some n => Some (S n)
        | None => k prev cap s
        end
      else k prev cap s
  | EmptyString => k prev cap s
  end.

(** The same inside the capturing group, after its first character; [acc]
    is the text captured so far. *)
Fixpoint group_loop (p : ascii -> bool) (k : option ascii -> string -> string -> option nat)
    (acc : string) (prev : option ascii) (s : string) {struct s} : option nat :=
  match s with
  | String a s' =>
      if p a then
        match group_loop p k (acc +++ String a "") (Some a) s' with
        | Some n => Some (S n)
        | None => k prev acc s
        end
      else k prev acc s
  | EmptyString => k prev acc s
  end.

(** [match_here r prev cap s]: match [r] at the front of [s], where [prev]
    is the character before [s] in the subject (if any) and [cap] the text
    captured by group 1 so far. *)
Fixpoint match_here (r : pattern) : option ascii -> string -> string -> option nat :=
  match r with
  | [] => fun _ _ _ => Some 0
  | Lit c :: r' =>
      let k := match_here r' in
      fun _ cap s =>
        match s with
        | String a s' => if Ascii.eqb a c then lift_S (k (Some a) cap s') else None
        | EmptyString => None
        end
  | Cls p :: r' =>
      let k := match_here r' in
      fun _ cap s =>
        match s with
        | String a s' => if p a then lift_S (k (Some a) cap s') else None
        | EmptyString => None
        end
  | Star p :: r' => star_loop p (match_here r')
  | Group1 p :: r' =>
      let k := match_here r' in
      fun _ _ s =>
        match s with
        | String a s' =>
            if p a then lift_S (group_loop p k (String a "") (Some a) s') else None
        | EmptyString => None
        end
  | Backref1 :: r' =>
      let k := match_here r' in
      fun prev cap s =>
        if String.prefix cap s
        then option_map (Nat.add (String.length cap))
               (k (last_char cap prev) cap (skipn_string (String.length cap) s))
        else None
  | Bol :: r' =>
      let k := match_here r' in
      fun prev cap s => if at_bol prev then k prev cap s else None
  | Eol :: r' =>
      let k := match_here r' in
      fun prev cap s => if at_eol s then k prev cap s else None
  | EolZ :: r' =>
      let k := match_here r' in
      fun prev cap s => if at_eolz s then k prev cap s else None
  end.

Definition is_some {A} (o : option A) : bool :=
  match o with Some _ => true | None => false end.

(** [re.match(r, s) is not None] *)
Definition re_match (r : pattern) (s : string) : bool :=
  is_some (match_here r None "" s).

(** [re.search(r, s) is not None], scanning from a position whose
    preceding character is [prev]. *)
Fixpoint search_from (r : pattern) (prev : option ascii) (s : string) : bool :=
  match match_here r prev "" s with
  | Some _ => true
  | None =>
      match s with
      | EmptyString => false
      | String a s' => search_from r (Some a) s'
      end
  end.

Definition re_search (r : pattern) (s : string) : bool := search_from r None s.

(** [re.sub(r, '', s)]: the leftmost match at each position is deleted and
    scanning resumes after it.  [skip] counts the characters of the current
    match still to delete.  An empty match deletes nothing. *)
Fixpoint sub_from (r : pattern) (prev : option ascii) (s : string) (skip : nat) : string :=
  match s with
  | EmptyString => EmptyString
  | String a s' =>
      match skip with
      | S k => sub_from r (Some a) s' k
      | O =>
          match match_here r prev "" s with
          | Some (S n) => sub_from r (Some a) s' n
          | _ => String a (sub_from r (Some a) s' 0)
          end
      end
  end.

Definition re_sub_empty (r : pattern) (s : string) : string := sub_from r None s 0.

(** [s] contains the character [c] followed, later, by [d]. *)
Definition has_pair (c d : ascii) (s : string) : Prop :=
  exists u v w, s = u +++ String c (v +++ String d w).

(** A pattern that asks for [c] and later for [d]. *)
Definition asks_pair (c d : ascii) (r : pattern) : Prop :=
  exists r1 r2 r3, r = r1 ++ Lit c :: r2 ++ Lit d :: r3.

(** The first character after a run. *)
Definition stops_run (p : ascii -> bool) (v : string) : bool :=
  match v with
  | EmptyString => true
  | String b _ => negb (p b)
  end.

End Re.

(** ** [utils/xml_builder.py]: placeholder cleanup *)

Module XMLDOMBuilder.
Import Re.

Definition open_brace : ascii := "{"%char.
Definition close_brace : ascii := "}"%char.

(** [\{[^}]*\}] *)
Definition placeholder_token : pattern :=
  [Lit "{"; Star (is_not "}"); Lit "}"].

(** [^\s*\{[^}]*\}\s*$] with [re.MULTILINE] *)
Definition standalone_line : pattern :=
  [Bol; Star is_space] ++ placeholder_token ++ [Star is_space; Eol].

(** [<([^>]+)>\s*\{[^}]*\}\s*</\1>] *)
Definition placeholder_only_element : pattern :=
  [Lit "<"; Group1 (is_not ">"); Lit ">"; Star is_space] ++ placeholder_token
    ++ [Star is_space; Lit "<"; Lit "/"; Backref1; Lit ">"].

(** [<[^>]*\{[^}]*\}[^>]*/>\s*] *)
Definition self_closing_with_placeholder : pattern :=
  [Lit "<"; Star (is_not ">")] ++ placeholder_token
    ++ [Star (is_not ">"); Lit "/"; Lit ">"; Star is_space].

Definition remove_empty_placeholders (xml_string : string) : string :=
  let xml_string := re_sub_empty standalone_line xml_string in
  let xml_string := re_sub_empty placeholder_only_element xml_string in
  let xml_string := re_sub_empty self_closing_with_placeholder xml_string in
  let xml_string := re_sub_empty placeholder_token xml_string in
  xml_string.

(** A text contains a placeholder when the token pattern matches somewhere. *)
Definition has_placeholder (s : string) : bool := re_search placeholder_token s.

End XMLDOMBuilder.

Definition nl : string := String newline "".

(** A white-space character other than the line feed. *)
Definition blank (c : ascii) : bool := is_space c && negb (Ascii.eqb c newline).

(** [before] is empty, or ends with the line feed of a line that is not
    blank: [c] is the last character of that line that is not white space. *)
Definition closes_line (before : string) : Prop :=
  before = ""
  \/ exists pre c a,
       before = pre +++ String c (a +++ nl)
       /\ is_space c = false /\ string_forallb blank a = true.

(** [after] is empty, or starts with a line feed that is followed by a
    line that is not blank: [d] is the first character of that line that
    is not white space. *)
Definition opens_line (after : string) : Prop :=
  after = ""
  \/ exists f d post,
       after = nl +++ f +++ String d post
       /\ string_forallb blank f = true /\ is_space d = false.

(** ** [xml.etree.ElementTree] elements *)

Module ET.

(** An element as [ET.fromstring] builds it: the tag (written
    [{namespace}local] when the element is in a namespace), the attributes,
    the text before the first child ([None] when there is none) and the
    children in document order. *)
#[warnings="-register-all"] Inductive Element : Type :=
| Elem (tag : string) (attrib : list (string * string)) (text : option string)
       (children : list Element).

Definition tag (e : Element) : string := let (t, _, _, _) := e in t.
Definition attrib (e : Element) : list (string * string) := let (_, a, _, _) := e in a.
Definition text (e : Element) : option string := let (_, _, t, _) := e in t.
Definition children (e : Element) : list Element := let (_, _, _, c) := e in c.

(** [e.findall(name)]: the children with that tag. *)
Definition findall (name : string) (e : Element) : list Element :=
  filter (fun c => String.eqb (tag c) name) (children e).

(** [e.find(name)]: the first child with that tag. *)
Definition find (name : string) (e : Element) : option Element :=
  List.find (fun c => String.eqb (tag c) name) (children e).

(** [e.find(".//" + name)]: the first proper descendant with that tag, in
    document order. *)
Fixpoint find_descendant (name : string) (e : Element) : option Element :=
  match e with
  | Elem _ _ _ cs =>
      (fix scan (l : list Element) : option Element :=
         match l with
         | [] => None
         | c :: l' =>
             if String.eqb (tag c) name then Some c
             else match find_descendant name c with
                  | Some d => Some d
                  | None => scan l'
                  end
         end) cs
  end.

(** [e.get(key)] *)
Fixpoint assoc_get {A} (key : string) (l : list (string * A)) : option A :=
  match l with
  | [] => None
  | (k, v) :: l' => if String.eqb k key then Some v else assoc_get key l'
  end.

Definition get (key : string) (e : Element) : option string := assoc_get key (attrib e).

(** The truth value of an element is that of [len(e)]: an element without
    children is false. *)
Definition truthy (e : Element) : bool :=
  match children e with [] => false | _ :: _ => true end.

(** [a or b] on the results of [find]. *)
Definition or_find (a b : option Element) : option Element :=
  match a with
  | Some e => if truthy e then Some e else b
  | None => b
  end.

(** [a or b] on the results of [findall]. *)
Definition or_findall (a b : list Element) : list Element :=
  match a with [] => b | _ :: _ => a end.

(** [not e.text] *)
Definition text_empty (e : Element) : bool :=
  match text e with
  | None => true
  | Some t => String.eqb t ""
  end.

(** An element that only carries text. *)
Definition leaf (name txt : string) : Element := Elem name [] (Some txt) [].

(** The result of [ET.fromstring]: a tree, or a [ParseError] with its
    message. *)
Inductive parsed : Type :=
| ParseError (msg : string)
| Parsed (root : Element).

End ET.

(** ** Validation results

    Every validator builds a dictionary [{"is_valid", "errors", "warnings"}]
    and updates it in place; the three updates the sources perform are
    [append_error], [set_invalid] and [append_warning]. *)

Record ValidationResult : Type := mkResult {
  is_valid : bool;
  errors : list string;
  warnings : list string
}.

Definition new_result : ValidationResult := mkResult true [] [].

(** [result["errors"].append(msg)] *)
Definition append_error (msg : string) (r : ValidationResult) : ValidationResult :=
  mkResult (is_valid r) (errors r ++ [msg]) (warnings r).

(** [result["is_valid"] = False] *)
Definition set_invalid (r : ValidationResult) : ValidationResult :=
  mkResult false (errors r) (warnings r).

(** [result["warnings"].append(msg)] *)
Definition append_warning (msg : string) (r : ValidationResult) : ValidationResult :=
  mkResult (is_valid r) (errors r) (warnings r ++ [msg]).

(** The flag is set exactly when there is no error. *)
Definition consistent (r : ValidationResult) : Prop :=
  is_valid r = true <-> errors r = [].

(** One step of a validator: it leaves the flag and the errors alone, or
    it ends invalid with at least one error. *)
Definition advances (r r' : ValidationResult) : Prop :=
  (is_valid r' = is_valid r /\ errors r' = errors r)
  \/ (is_valid r' = false /\ errors r' <> []).

Definition namespace : string := "http://xch.transporeon.com/soap/".
Definition ns : string := "{" +++ namespace +++ "}".

Definition mem_string (x : string) (l : list string) : bool :=
  existsb (String.eqb x) l.

(** [str(t)] for an element text. *)
Definition text_str (t : option string) : string :=
  match t with None => "None" | Some s => s end.

(** Equality of an element text with a string. *)
Definition text_is (t : option string) (s : string) : bool :=
  match t with None => false | Some x => String.eqb x s end.

(** ** Patterns shared by the validators and the collector *)

Module Patterns.
Import Re.

(** [^[A-Z0-9]{4}$] *)
Definition scac : pattern :=
  [Cls is_upper_or_decimal; Cls is_upper_or_decimal;
   Cls is_upper_or_decimal; Cls is_upper_or_decimal; EolZ].

(** [^[A-Z]{2}$] *)
Definition country : pattern := [Cls is_upper; Cls is_upper; EolZ].

Definition is_sign (c : ascii) : bool := Ascii.eqb c "+" || Ascii.eqb c "-".

(** [\d{4}-\d{2}-\d{2}T\d{2}:\d{2}:\d{2}], the part of the date-time
    pattern before the zone. *)
Definition iso_local : pattern :=
  [Cls is_decimal; Cls is_decimal; Cls is_decimal; Cls is_decimal; Lit "-";
   Cls is_decimal; Cls is_decimal; Lit "-"; Cls is_decimal; Cls is_decimal; Lit "T";
   Cls is_decimal; Cls is_decimal; Lit ":"; Cls is_decimal; Cls is_decimal; Lit ":";
   Cls is_decimal; Cls is_decimal].

(** The first alternative of the zone, [[+-]\d{2}:\d{2}], then [$]. *)
Definition iso_offset : pattern :=
  iso_local ++ [Cls is_sign; Cls is_decimal; Cls is_decimal; Lit ":";
                Cls is_decimal; Cls is_decimal; EolZ].

(** The second alternative of the zone, [Z], then [$]. *)
Definition iso_zulu : pattern := iso_local ++ [Lit "Z"; EolZ].

(** [re.match(r'^\d{4}-\d{2}-\d{2}T\d{2}:\d{2}:\d{2}([+-]\d{2}:\d{2}|Z)$', s)] *)
Definition iso_datetime_match (s : string) : bool :=
  re_match iso_offset s || re_match iso_zulu s.

End Patterns.

(** ** [validation/structural_validator.py] *)

Module StructuralValidator.
Import ET.

(** One entry of the field rules loaded by
    [template_loader.load_validation_rules("field")].  [pattern] stands for
    a non-empty regular expression of the configuration, given by the
    predicate [re.match(pattern, .) is not None]. *)
Record FieldRule : Type := mkFieldRule {
  required : bool;
  field_type : option string;
  min_length : option nat;
  max_length : option nat;
  pattern : option (string -> bool);
  error_message : option string;
  allowed_values : list string
}.

Section Validator.

(** [field_validation_rules.transport_order] of the configuration, in file
    order. *)
Variable transport_order_rules : list (string * FieldRule).
(** Whether [float(value)] succeeds. *)
Variable float_accepts : string -> bool.
(** [str] of a list of strings, as an f-string renders it. *)
Variable str_of_list : list string -> string.

Definition validate_namespace (root : Element) : bool :=
  let has_namespace_in_tag := String.prefix ("{" +++ namespace +++ "}") (tag root) in
  let is_plain_tag := String.eqb (tag root) "transport_orders" in
  has_namespace_in_tag || is_plain_tag.

Definition validate_required_elements (transport_order : Element)
    (result : ValidationResult) : ValidationResult :=
  fold_left
    (fun result element_name =>
       let element :=
         match find (ns +++ element_name) transport_order with
         | Some e => Some e
         | None => find element_name transport_order
         end in
       match element with
       | None =>
           set_invalid
             (append_error ("Required element '" +++ element_name +++ "' is missing") result)
       | Some element =>
           if mem_string element_name ["number"; "status"; "scheduling_unit"]
              && text_empty element
           then set_invalid
                  (append_error ("Required element '" +++ element_name +++ "' is empty") result)
           else result
       end)
    ["number"; "status"; "scheduling_unit"; "orders"; "stops"] result.

Definition validate_stop_id_structure (order_details : Element)
    (result : ValidationResult) : ValidationResult :=
  let loading_stop_ids :=
    or_find (find (ns +++ "loading_stop_ids") order_details)
            (find "loading_stop_ids" order_details) in
  let unloading_stop_ids :=
    or_find (find (ns +++ "unloading_stop_ids") order_details)
            (find "unloading_stop_ids" order_details) in
  let result :=
    match loading_stop_ids with
    | Some loading_stop_ids =>
        let loading_ids :=
          or_findall (findall (ns +++ "loading_stop_id") loading_stop_ids)
                     (findall "loading_stop_id" loading_stop_ids) in
        if (List.length loading_ids =? 0)%nat
        then set_invalid
               (append_error "loading_stop_ids must contain at least one loading_stop_id" result)
        else result
    | None => result
    end in
  match unloading_stop_ids with
  | Some unloading_stop_ids =>
      let unloading_ids :=
        or_findall (findall (ns +++ "unloading_stop_id") unloading_stop_ids)
                   (findall "unloading_stop_id" unloading_stop_ids) in
      if (List.length unloading_ids =? 0)%nat
      then set_invalid
             (append_error "unloading_stop_ids must contain at least one unloading_stop_id" result)
      else result
  | None => result
  end.

Definition validate_order_details (order_details : Element)
    (result : ValidationResult) : ValidationResult :=
  let result :=
    fold_left
      (fun result element_name =>
         match or_find (find (ns +++ element_name) order_details)
                       (find element_name order_details) with
         | None =>
             set_invalid
               (append_error ("order_details missing required element: " +++ element_name)
                             result)
         | Some _ => result
         end)
      ["number"; "loading_stop_ids"; "unloading_stop_ids"] result in
  validate_stop_id_structure order_details result.

Definition validate_datetime_format (datetime_str : string) : bool :=
  Patterns.iso_datetime_match datetime_str.

Definition validate_location_structure (location : Element) (stop_number : nat)
    (result : ValidationResult) : ValidationResult :=
  let result :=
    fold_left
      (fun result element_name =>
         let element := or_find (find (ns +++ element_name) location)
                                (find element_name location) in
         let missing :=
           match element with
           | None => true
           | Some e => text_empty e
           end in
         if missing
         then set_invalid
                (append_error ("Stop " +++ nat_to_string stop_number
                                 +++ ": location missing required element: " +++ element_name)
                              result)
         else result)
      ["company_name"; "city"; "country"] result in
  let country := or_find (find (ns +++ "country") location) (find "country" location) in
  match country with
  | Some country =>
      match text country with
      | Some t =>
          if negb (String.eqb t "") && negb (Re.re_match Patterns.country t)
          then set_invalid
                 (append_error ("Stop " +++ nat_to_string stop_number
                                  +++ ": country code must be 2 uppercase letters") result)
          else result
      | None => result
      end
  | None => result
  end.

Definition validate_period_bound (bound : option Element) (which : string) (stop_number : nat)
    (result : ValidationResult) : ValidationResult :=
  let missing :=
    match bound with
    | None => true
    | Some e => text_empty e
    end in
  if missing
  then set_invalid
         (append_error ("Stop " +++ nat_to_string stop_number
                          +++ ": date_time_period missing " +++ which +++ " element") result)
  else
    match bound with
    | Some e =>
        if negb (validate_datetime_format (text_str (text e)))
        then set_invalid
               (append_error ("Stop " +++ nat_to_string stop_number
                                +++ ": invalid " +++ which +++ " date format") result)
        else result
    | None => result
    end.

Definition validate_date_time_period (period : Element) (stop_number : nat)
    (result : ValidationResult) : ValidationResult :=
  let start := or_find (find (ns +++ "start") period) (find "start" period) in
  let end_ := or_find (find (ns +++ "end") period) (find "end" period) in
  let result := validate_period_bound start "start" stop_number result in
  validate_period_bound end_ "end" stop_number result.

(** The body of the loop of [_validate_stops] for the stop at position
    [i], with the identifiers seen so far. *)
Definition validate_stop (i : nat) (stop : Element) (stop_ids : list string)
    (result : ValidationResult) : list string * ValidationResult :=
  let stop_id := or_find (find (ns +++ "id") stop) (find "id" stop) in
  let stop_index := or_find (find (ns +++ "index") stop) (find "index" stop) in
  let location := or_find (find (ns +++ "location") stop) (find "location" stop) in
  let date_time_period :=
    or_find (find (ns +++ "date_time_period") stop) (find "date_time_period" stop) in
  let '(stop_ids, result) :=
    match stop_id with
    | None =>
        (stop_ids,
         set_invalid (append_error ("Stop " +++ nat_to_string (i + 1)
                                      +++ ": missing or empty id element") result))
    | Some e =>
        if text_empty e
        then (stop_ids,
              set_invalid (append_error ("Stop " +++ nat_to_string (i + 1)
                                           +++ ": missing or empty id element") result))
        else if mem_string (text_str (text e)) stop_ids
        then (stop_ids,
              set_invalid (append_error ("Duplicate stop ID: " +++ text_str (text e)) result))
        else (stop_ids ++ [text_str (text e)], result)
    end in
  let result :=
    match stop_index with
    | None =>
        set_invalid (append_error ("Stop " +++ nat_to_string (i + 1)
                                     +++ ": missing index element") result)
    | Some _ => result
    end in
  let result :=
    match location with
    | None =>
        set_invalid (append_error ("Stop " +++ nat_to_string (i + 1)
                                     +++ ": missing location element") result)
    | Some location => validate_location_structure location (i + 1) result
    end in
  let result :=
    match date_time_period with
    | None =>
        set_invalid (append_error ("Stop " +++ nat_to_string (i + 1)
                                     +++ ": missing date_time_period element") result)
    | Some period => validate_date_time_period period (i + 1) result
    end in
  (stop_ids, result).

Fixpoint validate_stops_from (i : nat) (stop_elements : list Element)
    (stop_ids : list string) (result : ValidationResult) : ValidationResult :=
  match stop_elements with
  | [] => result
  | stop :: rest =>
      let '(stop_ids, result) := validate_stop i stop stop_ids result in
      validate_stops_from (S i) rest stop_ids result
  end.

Definition validate_stops (stop_elements : list Element) (result : ValidationResult)
    : ValidationResult :=
  validate_stops_from 0 stop_elements [] result.

Definition validate_element_structure (transport_order : Element)
    (result : ValidationResult) : ValidationResult :=
  let orders := or_find (find (ns +++ "orders") transport_order)
                        (find "orders" transport_order) in
  let result :=
    match orders with
    | Some orders =>
        match or_find (find (ns +++ "order_details") orders)
                      (find "order_details" orders) with
        | None => set_invalid (append_error "orders element must contain order_details" result)
        | Some order_details => validate_order_details order_details result
        end
    | None => result
    end in
  let stops := or_find (find (ns +++ "stops") transport_order)
                       (find "stops" transport_order) in
  match stops with
  | Some stops =>
      let stop_elements := or_findall (findall (ns +++ "stop") stops) (findall "stop" stops) in
      if (List.length stop_elements =? 0)%nat
      then set_invalid (append_error "stops element must contain at least one stop" result)
      else validate_stops stop_elements result
  | None => result
  end.

Definition validate_xml_structure (xml_content : parsed) : ValidationResult :=
  let result := new_result in
  match xml_content with
  | ParseError e => append_error ("XML parsing error: " +++ e) (set_invalid result)
  | Parsed root =>
      let result :=
        if negb (validate_namespace root)
        then set_invalid (append_error "Missing or incorrect namespace" result)
        else result in
      let expected_root_tag := ns +++ "transport_orders" in
      let result :=
        if negb (String.eqb (tag root) expected_root_tag)
           && negb (String.eqb (tag root) "transport_orders")
        then set_invalid (append_error "Root element must be 'transport_orders'" result)
        else result in
      match find_descendant (ns +++ "transport_order") root with
      | Some transport_order =>
          let result := validate_required_elements transport_order result in
          validate_element_structure transport_order result
      | None =>
          match find_descendant "transport_order" root with
          | Some transport_order =>
              let result := validate_required_elements transport_order result in
              validate_element_structure transport_order result
          | None => set_invalid (append_error "No transport_order element found" result)
          end
      end
  end.

Definition apply_field_validation (field_name value : string) (rules : FieldRule)
    (result : ValidationResult) : ValidationResult :=
  if required rules && String.eqb value ""
  then set_invalid
         (append_error ("Field '" +++ field_name +++ "' is required but empty") result)
  else
    let is_number :=
      match field_type rules with
      | Some t => String.eqb t "number"
      | None => false
      end in
    if is_number && negb (float_accepts value)
    then set_invalid
           (append_error ("Field '" +++ field_name +++ "' must be a number: " +++ value) result)
    else
      let result :=
        match min_length rules with
        | Some m =>
            if negb (m =? 0)%nat && (String.length value <? m)%nat
            then set_invalid
                   (append_error ("Field '" +++ field_name +++ "' is too short (minimum "
                                    +++ nat_to_string m +++ " characters)") result)
            else result
        | None => result
        end in
      let result :=
        match max_length rules with
        | Some m =>
            if negb (m =? 0)%nat && (m <? String.length value)%nat
            then set_invalid
                   (append_error ("Field '" +++ field_name +++ "' is too long (maximum "
                                    +++ nat_to_string m +++ " characters)") result)
            else result
        | None => result
        end in
      let result :=
        match pattern rules with
        | Some matches =>
            if negb (matches value)
            then
              let error_msg :=
                match error_message rules with
                | Some m => m
                | None => "Field '" +++ field_name +++ "' format is invalid"
                end in
              set_invalid (append_error error_msg result)
            else result
        | None => result
        end in
      match allowed_values rules with
      | [] => result
      | _ :: _ =>
          if negb (mem_string value (allowed_values rules))
          then set_invalid
                 (append_error ("Field '" +++ field_name +++ "' must be one of: "
                                  +++ str_of_list (allowed_values rules)) result)
          else result
      end.

Definition validate_transport_order_fields (transport_order : Element)
    (result : ValidationResult) : ValidationResult :=
  fold_left
    (fun result (entry : string * FieldRule) =>
       let (field_name, rules) := entry in
       match find field_name transport_order with
       | Some element =>
           if negb (text_empty element)
           then apply_field_validation field_name (text_str (text element)) rules result
           else result
       | None => result
       end)
    transport_order_rules result.

(** The SCAC check of one [parameter] element. *)
Definition validate_parameter_format (param : Element) (result : ValidationResult)
    : ValidationResult :=
  let qualifier := get "qualifier" param in
  let value_elem := find "value" param in
  match qualifier, value_elem with
  | Some qualifier, Some value_elem =>
      if negb (String.eqb qualifier "") && negb (text_empty value_elem)
      then
        if String.eqb qualifier "ocean.scac.no"
        then
          if negb (Re.re_match Patterns.scac (text_str (text value_elem)))
          then set_invalid
                 (append_error ("Invalid SCAC code format: " +++ text_str (text value_elem))
                               result)
          else result
        else result
      else result
  | _, _ => result
  end.

Definition validate_parameter_formats (transport_order : Element)
    (result : ValidationResult) : ValidationResult :=
  match find "parameters" transport_order with
  | None => result
  | Some parameters =>
      fold_left (fun result param => validate_parameter_format param result)
                (findall "parameter" parameters) result
  end.

Definition validate_field_formats (xml_content : parsed) : ValidationResult :=
  let result := new_result in
  match xml_content with
  | ParseError e => append_error ("XML parsing error: " +++ e) (set_invalid result)
  | Parsed root =>
      match find_descendant (ns +++ "transport_order") root with
      | None => set_invalid (append_error "No transport_order element found" result)
      | Some transport_order =>
          let result := validate_transport_order_fields transport_order result in
          validate_parameter_formats transport_order result
      end
  end.

(** The identifiers collected in the set [stop_ids]. *)
Definition collect_stop_ids (transport_order : Element) : list string :=
  match find "stops" transport_order with
  | Some stops =>
      flat_map
        (fun stop =>
           match find "id" stop with
           | Some stop_id_elem =>
               if negb (text_empty stop_id_elem) then [text_str (text stop_id_elem)] else []
           | None => []
           end)
        (findall "stop" stops)
  | None => []
  end.

Definition check_stop_id_reference (kind : string) (stop_ids : list string)
    (result : ValidationResult) (id_elem : Element) : ValidationResult :=
  if negb (text_empty id_elem) && negb (mem_string (text_str (text id_elem)) stop_ids)
  then set_invalid
         (append_error (kind +++ " stop ID '" +++ text_str (text id_elem)
                          +++ "' does not reference an existing stop") result)
  else result.

Definition validate_stop_id_references (order_details : Element) (stop_ids : list string)
    (result : ValidationResult) : ValidationResult :=
  let result :=
    match find "loading_stop_ids" order_details with
    | Some loading_stop_ids =>
        fold_left (check_stop_id_reference "Loading" stop_ids)
                  (findall "loading_stop_id" loading_stop_ids) result
    | None => result
    end in
  match find "unloading_stop_ids" order_details with
  | Some unloading_stop_ids =>
      fold_left (check_stop_id_reference "Unloading" stop_ids)
                (findall "unloading_stop_id" unloading_stop_ids) result
  | None => result
  end.

Definition validate_stop_references (xml_content : parsed) : ValidationResult :=
  let result := new_result in
  match xml_content with
  | ParseError e => append_error ("XML parsing error: " +++ e) (set_invalid result)
  | Parsed root =>
      match find_descendant (ns +++ "transport_order") root with
      | None => set_invalid (append_error "No transport_order element found" result)
      | Some transport_order =>
          let stop_ids := collect_stop_ids transport_order in
          match find "orders" transport_order with
          | Some orders =>
              match find "order_details" orders with
              | Some order_details =>
                  validate_stop_id_references order_details stop_ids result
              | None => result
              end
          | None => result
          end
      end
  end.

End Validator.
End StructuralValidator.

(** ** Python conversions used by the business validator *)

(** The exceptions the modelled code can raise. *)
Inductive exn : Type :=
| TypeError
| AttributeError
| KeyError
| ValueError (msg : string).

(** The result of a call that may leave through an exception the callee
    does not catch. *)
Inductive outcome (A : Type) : Type :=
| Returned (a : A)
| Raised (e : exn).
Arguments Returned {A} a.
Arguments Raised {A} e.

Definition bind {A B} (c : outcome A) (k : A -> outcome B) : outcome B :=
  match c with
  | Returned a => k a
  | Raised e => Raised e
  end.

Notation "'let*' x ':=' c 'in' k" := (bind c (fun x => k))
  (at level 10, x pattern, c at level 100, k at level 200).

Definition digit_value (c : ascii) : Z := Z.of_nat (nat_of_ascii c - 48).

Fixpoint rev_string (s acc : string) : string :=
  match s with
  | EmptyString => acc
  | String c s' => rev_string s' (String c acc)
  end.

(** The characters [int] skips around the digits: TAB..CR and space, and
    the whitespace above code point 127. *)
Definition is_int_space (c : ascii) : bool :=
  let n := nat_of_ascii c in
  (((9 <=? n) && (n <=? 13)) || (n =? 32) || (n =? 133) || (n =? 160))%nat.

Fixpoint lstrip (p : ascii -> bool) (s : string) : string :=
  match s with
  | String c s' => if p c then lstrip p s' else s
  | EmptyString => EmptyString
  end.

Definition strip (p : ascii -> bool) (s : string) : string :=
  rev_string (lstrip p (rev_string (lstrip p s) "")) "".

(** Decimal digits with single underscores between them. *)
Fixpoint parse_digits (s : string) (acc : Z) (after_digit : bool) : option Z :=
  match s with
  | EmptyString => if after_digit then Some acc else None
  | String c s' =>
      if is_decimal c then parse_digits s' (10 * acc + digit_value c)%Z true
      else if Ascii.eqb c "_" && after_digit then parse_digits s' acc false
      else None
  end.

(** [int(s)] for a string; [None] stands for [ValueError].  The limit of
    4300 digits, beyond which Python also raises [ValueError], is left
    out. *)
Definition py_int (s : string) : option Z :=
  match strip is_int_space s with
  | String "+" d => parse_digits d 0%Z false
  | String "-" d => option_map Z.opp (parse_digits d 0%Z false)
  | d => parse_digits d 0%Z false
  end.

(** [s.split('+')[0]] *)
Fixpoint before_plus (s : string) : string :=
  match s with
  | EmptyString => EmptyString
  | String c s' => if Ascii.eqb c "+" then EmptyString else String c (before_plus s')
  end.

(** [s.replace('Z', '')] *)
Fixpoint without_Z (s : string) : string :=
  match s with
  | EmptyString => EmptyString
  | String c s' => if Ascii.eqb c "Z" then without_Z s' else String c (without_Z s')
  end.

Definition contains_char (c : ascii) (s : string) : bool :=
  string_existsb (Ascii.eqb c) s.

(** Insertion sort on integers, for [indices.sort()]. *)
Fixpoint insert_sorted (x : Z) (l : list Z) : list Z :=
  match l with
  | [] => [x]
  | y :: l' => if (x <=? y)%Z then x :: l else y :: insert_sorted x l'
  end.

Definition sort_Z (l : list Z) : list Z := fold_right insert_sorted [] l.

(** ** [validation/business_validator.py] *)

Module BusinessValidator.
Import ET.

Record OrderItemRules : Type := mkOrderItemRules {
  required_fields : list string;
  required_quantities : list string;
  item_required_parameters : list string
}.

(** The rule set of one transport type in
    [business_validation_rules.transport_type_rules]. *)
Record TypeRules : Type := mkTypeRules {
  required_elements : list string;
  minimum_stops : option nat;
  maximum_stops : option nat;
  fixed_values : list (string * string);
  forbidden_qualifiers : list string;
  mandatory_fixed_parameters : list (string * string);
  required_parameters : list string;
  requires_carrier_creditor : bool;
  allows_order_items : bool;
  order_item_rules : OrderItemRules
}.

Definition mem_opt (x : string) (l : list (option string)) : bool :=
  existsb (fun o => match o with Some y => String.eqb x y | None => false end) l.

Section Validator.

(** [transport_type_rules] of the configuration. *)
Variable transport_rules : list (string * TypeRules).
(** [datetime.fromisoformat]: [None] stands for [ValueError]. *)
Variable datetime : Type.
Variable fromisoformat : string -> option datetime.
(** [a < b] on datetimes: [None] stands for the [TypeError] raised when a
    naive and an aware datetime are compared. *)
Variable datetime_lt : datetime -> datetime -> option bool.

Definition validate_stop_counts (transport_order : Element) (transport_type : string)
    (rules : TypeRules) (result : ValidationResult) : ValidationResult :=
  match find "stops" transport_order with
  | None => result
  | Some stops =>
      let stop_count := List.length (findall "stop" stops) in
      let min_stops := match minimum_stops rules with Some m => m | None => 0 end in
      let result :=
        if (stop_count <? min_stops)%nat
        then set_invalid
               (append_error (transport_type +++ ": Minimum " +++ nat_to_string min_stops
                                +++ " stops required, found " +++ nat_to_string stop_count)
                             result)
        else result in
      match maximum_stops rules with
      | Some max_stops =>
          if (max_stops <? stop_count)%nat
          then set_invalid
                 (append_error (transport_type +++ ": Maximum " +++ nat_to_string max_stops
                                  +++ " stops allowed, found " +++ nat_to_string stop_count)
                               result)
          else result
      | None => result
      end
  end.

Definition validate_ocean_fixed_values (transport_order : Element) (rules : TypeRules)
    (result : ValidationResult) : ValidationResult :=
  fold_left
    (fun result (entry : string * string) =>
       let (field_name, expected_value) := entry in
       match find field_name transport_order with
       | None =>
           set_invalid
             (append_error ("Ocean visibility: Missing required field '" +++ field_name +++ "'")
                           result)
       | Some element =>
           if negb (text_is (text element) expected_value)
           then set_invalid
                  (append_error ("Ocean visibility: Field '" +++ field_name +++ "' must be '"
                                   +++ expected_value +++ "', found '"
                                   +++ text_str (text element) +++ "'") result)
           else result
       end)
    (fixed_values rules) result.

Definition validate_required_parameters (transport_order : Element)
    (required_params : list string) (result : ValidationResult) : ValidationResult :=
  match find "parameters" transport_order with
  | None =>
      match required_params with
      | [] => result
      | _ :: _ => set_invalid (append_error "Required parameters section is missing" result)
      end
  | Some parameters =>
      let existing_qualifiers := map (get "qualifier") (findall "parameter" parameters) in
      fold_left
        (fun result required_qualifier =>
           if negb (mem_opt required_qualifier existing_qualifiers)
           then set_invalid
                  (append_error ("Required parameter '" +++ required_qualifier +++ "' is missing")
                                result)
           else result)
        required_params result
  end.

Definition validate_mandatory_fixed_parameters (transport_order : Element)
    (mandatory_fixed : list (string * string)) (result : ValidationResult)
    : ValidationResult :=
  match find "parameters" transport_order with
  | None => result
  | Some parameters =>
      fold_left
        (fun result param =>
           match get "qualifier" param with
           | Some qualifier =>
               match assoc_get qualifier mandatory_fixed with
               | Some expected_value =>
                   let differs :=
                     match find "value" param with
                     | None => true
                     | Some value_elem => negb (text_is (text value_elem) expected_value)
                     end in
                   if differs
                   then set_invalid
                          (append_error ("Parameter '" +++ qualifier +++ "' must have value '"
                                           +++ expected_value +++ "'") result)
                   else result
               | None => result
               end
           | None => result
           end)
        (findall "parameter" parameters) result
  end.

Definition validate_parameter_restrictions (transport_order : Element)
    (transport_type : string) (rules : TypeRules) (result : ValidationResult)
    : ValidationResult :=
  let result :=
    match find "parameters" transport_order with
    | Some parameters =>
        fold_left
          (fun result param =>
             match get "qualifier" param with
             | Some qualifier =>
                 if mem_string qualifier (forbidden_qualifiers rules)
                 then set_invalid
                        (append_error (transport_type +++ ": Forbidden parameter '" +++ qualifier
                                         +++ "' is not allowed") result)
                 else result
             | None => result
             end)
          (findall "parameter" parameters) result
    | None => result
    end in
  let result :=
    if String.eqb transport_type "ocean_visibility"
    then validate_required_parameters transport_order (required_parameters rules) result
    else result in
  validate_mandatory_fixed_parameters transport_order (mandatory_fixed_parameters rules) result.

(** The body of the loop of [_validate_order_items_rules] for the item at
    position [i]. *)
Definition validate_order_item (item_rules : OrderItemRules) (i : nat) (item : Element)
    (result : ValidationResult) : ValidationResult :=
  let result :=
    fold_left
      (fun result field =>
         let missing :=
           match find field item with
           | None => true
           | Some element => text_empty element
           end in
         if missing
         then set_invalid
                (append_error ("Order item " +++ nat_to_string (i + 1)
                                 +++ ": Missing required field '" +++ field +++ "'") result)
         else result)
      (required_fields item_rules) result in
  let result :=
    match find "quantities" item with
    | Some quantities =>
        let existing_qualifiers :=
          flat_map
            (fun q =>
               match find "qualifier" q with
               | Some e => if negb (text_empty e) then [text_str (text e)] else []
               | None => []
               end)
            (findall "quantity" quantities) in
        fold_left
          (fun result required_qty =>
             if negb (mem_string required_qty existing_qualifiers)
             then append_warning ("Order item " +++ nat_to_string (i + 1)
                                    +++ ": Recommended quantity '" +++ required_qty
                                    +++ "' is missing") result
             else result)
          (required_quantities item_rules) result
    | None => result
    end in
  match find "parameters" item with
  | Some item_params =>
      let existing_param_qualifiers :=
        map (get "qualifier") (findall "parameter" item_params) in
      fold_left
        (fun result required_param =>
           if negb (mem_opt required_param existing_param_qualifiers)
           then append_warning ("Order item " +++ nat_to_string (i + 1)
                                  +++ ": Recommended parameter '" +++ required_param
                                  +++ "' is missing") result
           else result)
        (item_required_parameters item_rules) result
  | None => result
  end.

Fixpoint validate_order_items_from (item_rules : OrderItemRules) (i : nat)
    (items : list Element) (result : ValidationResult) : ValidationResult :=
  match items with
  | [] => result
  | item :: rest =>
      validate_order_items_from item_rules (S i) rest
        (validate_order_item item_rules i item result)
  end.

Definition validate_order_items_rules (transport_order : Element) (rules : TypeRules)
    (result : ValidationResult) : ValidationResult :=
  match find "orders" transport_order with
  | None => result
  | Some orders =>
      match find "order_details" orders with
      | None => result
      | Some order_details =>
          match find "order_items" order_details with
          | None => result
          | Some order_items =>
              validate_order_items_from (order_item_rules rules) 0
                (findall "order_item" order_items) result
          end
      end
  end.

Definition validate_complex_road_rules (transport_order : Element) (rules : TypeRules)
    (result : ValidationResult) : ValidationResult :=
  let result :=
    if requires_carrier_creditor rules
    then
      let missing :=
        match find "carrier_creditor_number" transport_order with
        | None => true
        | Some carrier_elem => text_empty carrier_elem
        end in
      if missing
      then set_invalid
             (append_error "Complex road freight requires carrier_creditor_number" result)
      else result
    else result in
  if allows_order_items rules
  then validate_order_items_rules transport_order rules result
  else result.

Definition validate_transport_specific_rules (transport_order : Element)
    (transport_type : string) (rules : TypeRules) (result : ValidationResult)
    : ValidationResult :=
  let result :=
    fold_left
      (fun result element_name =>
         match or_find (find (ns +++ element_name) transport_order)
                       (find element_name transport_order) with
         | None =>
             set_invalid
               (append_error (transport_type +++ ": Required element '" +++ element_name
                                +++ "' is missing") result)
         | Some _ => result
         end)
      (required_elements rules) result in
  let result := validate_stop_counts transport_order transport_type rules result in
  let result :=
    if String.eqb transport_type "ocean_visibility"
    then validate_ocean_fixed_values transport_order rules result
    else result in
  let result := validate_parameter_restrictions transport_order transport_type rules result in
  if String.eqb transport_type "complex_road"
  then validate_complex_road_rules transport_order rules result
  else result.

Definition validate_transport_type_rules (xml_content : parsed) (transport_type : string)
    : ValidationResult :=
  let result := new_result in
  match xml_content with
  | ParseError e => append_error ("XML parsing error: " +++ e) (set_invalid result)
  | Parsed root =>
      match find_descendant (ns +++ "transport_order") root with
      | None => set_invalid (append_error "No transport_order element found" result)
      | Some transport_order =>
          match assoc_get transport_type transport_rules with
          | Some rules =>
              validate_transport_specific_rules transport_order transport_type rules result
          | None => result
          end
      end
  end.

Definition carrier_inconsistency_warning : string :=
  "Carrier creditor number inconsistency between transport and order levels".

Definition validate_carrier_creditor_consistency (transport_order : Element)
    (result : ValidationResult) : ValidationResult :=
  match find "carrier_creditor_number" transport_order with
  | None => result
  | Some transport_carrier_elem =>
      if text_empty transport_carrier_elem then result
      else
        let transport_carrier := text_str (text transport_carrier_elem) in
        match find "parameters" transport_order with
        | Some parameters =>
            fold_left
              (fun result param =>
                 match get "qualifier" param with
                 | Some qualifier =>
                     if String.eqb qualifier "custom.preassignedCarrierCreditorNumber"
                     then
                       match find "value" param with
                       | Some value_elem =>
                           if negb (text_is (text value_elem) transport_carrier)
                           then append_warning carrier_inconsistency_warning result
                           else result
                       | None => result
                       end
                     else result
                 | None => result
                 end)
              (findall "parameter" parameters) result
        | None => result
        end
  end.

(** The start dates the loop of [_validate_date_sequence] collects. *)
Definition stop_dates (stops : Element) : list datetime :=
  flat_map
    (fun stop =>
       match find "date_time_period" stop with
       | Some period =>
           match find "start" period with
           | Some start_elem =>
               if negb (text_empty start_elem)
               then
                 let date_str := text_str (text start_elem) in
                 let date_str :=
                   if contains_char "+" date_str then before_plus date_str
                   else if contains_char "Z" date_str then without_Z date_str
                   else date_str in
                 match fromisoformat date_str with
                 | Some date_obj => [date_obj]
                 | None => []
                 end
               else []
           | None => []
           end
       | None => []
       end)
    (findall "stop" stops).

(** Whether some date is earlier than the one before it, scanning from the
    left and stopping at the first such pair. *)
Fixpoint out_of_sequence (dates : list datetime) : outcome bool :=
  match dates with
  | a :: (b :: _) as rest =>
      match datetime_lt b a with
      | None => Raised TypeError
      | Some true => Returned true
      | Some false => out_of_sequence rest
      end
  | _ => Returned false
  end.

Definition validate_date_sequence (transport_order : Element) (result : ValidationResult)
    : outcome ValidationResult :=
  match find "stops" transport_order with
  | None => Returned result
  | Some stops =>
      match out_of_sequence (stop_dates stops) with
      | Raised e => Raised e
      | Returned true =>
          Returned
            (append_warning
               "Stop dates may not be in logical sequence - verify pickup and delivery order"
               result)
      | Returned false => Returned result
      end
  end.

(** The first loop of [_validate_stop_index_sequence]: the indices read,
    and an error for every index text that is not an integer. *)
Fixpoint read_indices (stops : list Element) (indices : list Z) (result : ValidationResult)
    : list Z * ValidationResult :=
  match stops with
  | [] => (indices, result)
  | stop :: rest =>
      match find "index" stop with
      | Some index_elem =>
          if negb (text_empty index_elem)
          then
            match py_int (text_str (text index_elem)) with
            | Some index => read_indices rest (indices ++ [index]) result
            | None =>
                read_indices rest indices
                  (set_invalid (append_error "Stop index must be a number" result))
            end
          else read_indices rest indices result
      | None => read_indices rest indices result
      end
  end.

(** Whether some element differs from its predecessor plus one. *)
Fixpoint has_gap (indices : list Z) : bool :=
  match indices with
  | a :: (b :: _) as rest => if negb (b =? a + 1)%Z then true else has_gap rest
  | _ => false
  end.

Definition validate_stop_index_sequence (transport_order : Element)
    (result : ValidationResult) : ValidationResult :=
  match find "stops" transport_order with
  | None => result
  | Some stops =>
      let '(indices, result) := read_indices (findall "stop" stops) [] result in
      match sort_Z indices with
      | [] => result
      | (first :: _) as indices =>
          let result :=
            if negb (first =? 0)%Z
            then set_invalid (append_error "Stop indices should start from 0" result)
            else result in
          if has_gap indices
          then set_invalid (append_error "Stop indices should be sequential" result)
          else result
      end
  end.

Definition validate_cross_field_consistency (xml_content : parsed)
    : outcome ValidationResult :=
  let result := new_result in
  match xml_content with
  | ParseError e => Returned (append_error ("XML parsing error: " +++ e) (set_invalid result))
  | Parsed root =>
      match find_descendant (ns +++ "transport_order") root with
      | None => Returned (set_invalid (append_error "No transport_order element found" result))
      | Some transport_order =>
          let result := validate_carrier_creditor_consistency transport_order result in
          match validate_date_sequence transport_order result with
          | Raised e => Raised e
          | Returned result => Returned (validate_stop_index_sequence transport_order result)
          end
      end
  end.

(** The second loop of [validate_ocean_completeness], for one parameter. *)
Definition validate_ocean_parameter (param : Element) (result : ValidationResult)
    : ValidationResult :=
  let value_elem := find "value" param in
  match get "qualifier" param with
  | Some qualifier =>
      if String.eqb qualifier "visibility.ocean.product"
      then
        let wrong :=
          match value_elem with
          | None => true
          | Some v => negb (text_is (text v) "true")
          end in
        if wrong
        then set_invalid (append_error "Ocean visibility parameter must be 'true'" result)
        else result
      else if String.eqb qualifier "ocean.scac.no"
      then
        match value_elem with
        | Some v =>
            if negb (text_empty v) && negb (Re.re_match Patterns.scac (text_str (text v)))
            then set_invalid
                   (append_error ("Invalid SCAC code format: " +++ text_str (text v)) result)
            else result
        | None => result
        end
      else result
  | None => result
  end.

Definition validate_ocean_completeness (xml_content : parsed) : ValidationResult :=
  let result := new_result in
  match xml_content with
  | ParseError e => append_error ("XML parsing error: " +++ e) (set_invalid result)
  | Parsed root =>
      match find_descendant (ns +++ "transport_order") root with
      | None => set_invalid (append_error "No transport_order element found" result)
      | Some transport_order =>
          let is_ocean :=
            match find "scheduling_unit" transport_order with
            | None => false
            | Some scheduling_unit => text_is (text scheduling_unit) "Ocean Visibility"
            end in
          if negb is_ocean then result
          else
            match find "parameters" transport_order with
            | None =>
                set_invalid
                  (append_error "Ocean visibility orders must have parameters section" result)
            | Some parameters =>
                let existing_qualifiers :=
                  map (get "qualifier") (findall "parameter" parameters) in
                let result :=
                  fold_left
                    (fun result required_param =>
                       if negb (mem_opt required_param existing_qualifiers)
                       then set_invalid
                              (append_error ("Ocean visibility: Missing required parameter '"
                                               +++ required_param +++ "'") result)
                       else result)
                    ["visibility.ocean.product"; "ocean.scac.no"; "ocean.bl.no";
                     "ocean.container.no"] result in
                fold_left (fun result param => validate_ocean_parameter param result)
                          (findall "parameter" parameters) result
            end
      end
  end.

End Validator.
End BusinessValidator.

(** ** [main_tool.py]: the aggregated validation *)

Module MainTool.
Import ET.

(** The dictionary [validate_transport_order_xml] returns on success; the
    fields [is_valid], [errors] and [warnings] are kept together in
    [summary]. *)
Record ValidationReport : Type := mkReport {
  structural_validation : ValidationResult;
  business_validation : ValidationResult;
  cross_field_validation : ValidationResult;
  summary : ValidationResult
}.

Inductive ToolResult : Type :=
| Report (r : ValidationReport)            (* "success": True *)
| Failure (error_message : string).        (* "success": False *)

(** The lines repeated after each pass: errors are taken over only from a
    pass that is not valid, warnings always. *)
Definition absorb (part result : ValidationResult) : ValidationResult :=
  let result :=
    if negb (is_valid part)
    then mkResult false (errors result ++ errors part) (warnings result)
    else result in
  mkResult (is_valid result) (errors result) (warnings result ++ warnings part).

Section Tool.

Variable transport_order_rules : list (string * StructuralValidator.FieldRule).
Variable float_accepts : string -> bool.
Variable str_of_list : list string -> string.
Variable transport_rules : list (string * BusinessValidator.TypeRules).
Variable datetime : Type.
Variable fromisoformat : string -> option datetime.
Variable datetime_lt : datetime -> datetime -> option bool.
(** [str(e)] of an exception. *)
Variable str_of_exn : exn -> string.

Definition validate_transport_order_xml (xml_content : parsed) (transport_type : string)
    : ToolResult :=
  let result := new_result in
  let structural_result := StructuralValidator.validate_xml_structure xml_content in
  let result := absorb structural_result result in
  let format_result :=
    StructuralValidator.validate_field_formats transport_order_rules float_accepts
      str_of_list xml_content in
  let result := absorb format_result result in
  let ref_result := StructuralValidator.validate_stop_references xml_content in
  let result := absorb ref_result result in
  let business_result :=
    BusinessValidator.validate_transport_type_rules transport_rules xml_content
      transport_type in
  let result := absorb business_result result in
  match BusinessValidator.validate_cross_field_consistency fromisoformat datetime_lt
          xml_content with
  | Raised e => Failure ("Validation error: " +++ str_of_exn e)
  | Returned cross_field_result =>
      let result := absorb cross_field_result result in
      let result :=
        if String.eqb transport_type "ocean_visibility"
        then absorb (BusinessValidator.validate_ocean_completeness xml_content) result
        else result in
      Report (mkReport structural_result business_result cross_field_result result)
  end.

End Tool.
End MainTool.

(** ** Python values

    The user input is what [json.loads] returns: [None], booleans,
    integers, strings, lists and dictionaries (numbers with a fraction are
    left out of the embedding).  A dictionary keeps its keys in insertion
    order. *)

Module Py.

#[warnings="-register-all"] Inductive value : Type :=
| VNone
| VBool (b : bool)
| VInt (z : Z)
| VStr (s : string)
| VList (l : list value)
| VDict (d : list (string * value)).

Definition dict : Type := list (string * value).

(** The truth value of a Python object. *)
Definition truthy (v : value) : bool :=
  match v with
  | VNone => false
  | VBool b => b
  | VInt z => negb (z =? 0)%Z
  | VStr s => negb (String.eqb s "")
  | VList l => match l with [] => false | _ :: _ => true end
  | VDict d => match d with [] => false | _ :: _ => true end
  end.

(** [d.get(key)] *)
Definition dict_get (key : string) (d : dict) : option value := ET.assoc_get key d.

(** [key in d] *)
Definition dict_has (key : string) (d : dict) : bool :=
  match dict_get key d with Some _ => true | None => false end.

(** [d.get(key, default)] *)
Definition dict_get_default (key : string) (default : value) (d : dict) : value :=
  match dict_get key d with Some v => v | None => default end.

(** [d[key] = v]: an existing key keeps its position. *)
Fixpoint dict_set (key : string) (v : value) (d : dict) : dict :=
  match d with
  | [] => [(key, v)]
  | (k, w) :: d' => if String.eqb k key then (k, v) :: d' else (k, w) :: dict_set key v d'
  end.

(** [d.update(other)] *)
Definition dict_update (other d : dict) : dict :=
  fold_left (fun d (kv : string * value) => dict_set (fst kv) (snd kv) d) other d.

(** [key in d and d[key]] as a condition. *)
Definition present_truthy (key : string) (d : dict) : bool :=
  match dict_get key d with Some v => truthy v | None => false end.

(** [len(v)] *)
Definition len (v : value) : outcome nat :=
  match v with
  | VStr s => Returned (String.length s)
  | VList l => Returned (List.length l)
  | VDict d => Returned (List.length d)
  | _ => Raised TypeError
  end.

Fixpoint chars (s : string) : list value :=
  match s with
  | EmptyString => []
  | String c s' => VStr (String c "") :: chars s'
  end.

(** The elements a [for] loop over [v] visits. *)
Definition iter (v : value) : outcome (list value) :=
  match v with
  | VList l => Returned l
  | VStr s => Returned (chars s)
  | VDict d => Returned (map (fun kv => VStr (fst kv)) d)
  | _ => Raised TypeError
  end.

(** The receiver of a [.get] call has to be a dictionary. *)
Definition as_dict (v : value) : outcome dict :=
  match v with
  | VDict d => Returned d
  | _ => Raised AttributeError
  end.

(** Equality of two values the code compares with [==] or [!=]: strings
    and [None] only; anything else is told apart from a string. *)
Definition eq_str (v : option value) (s : string) : bool :=
  match v with
  | Some (VStr x) => String.eqb x s
  | _ => false
  end.

(** Runs the body of a loop over the elements in order, threading the
    state; an exception ends the loop. *)
Fixpoint for_each {A St} (body : A -> St -> outcome St) (l : list A) (st : St)
    : outcome St :=
  match l with
  | [] => Returned st
  | x :: l' => let* st := body x st in for_each body l' st
  end.

(** The same with the position of the element. *)
Fixpoint for_each_from {A St} (body : nat -> A -> St -> outcome St) (i : nat)
    (l : list A) (st : St) : outcome St :=
  match l with
  | [] => Returned st
  | x :: l' => let* st := body i x st in for_each_from body (S i) l' st
  end.

(** One character of [str.isalpha()], for the code points below 256. *)
Definition is_alpha_char (c : ascii) : bool :=
  let n := nat_of_ascii c in
  (((65 <=? n) && (n <=? 90)) || ((97 <=? n) && (n <=? 122))
   || (n =? 170) || (n =? 181) || (n =? 186)
   || ((192 <=? n) && (n <=? 214)) || ((216 <=? n) && (n <=? 246))
   || ((248 <=? n) && (n <=? 255)))%nat.

(** [s.isalpha()] *)
Definition isalpha (s : string) : bool :=
  negb (String.eqb s "") && string_forallb is_alpha_char s.

(** [s.replace("0", "A")...replace("9", "A")] *)
Fixpoint digits_to_A (s : string) : string :=
  match s with
  | EmptyString => EmptyString
  | String c s' => String (if is_decimal c then "A"%char else c) (digits_to_A s')
  end.

End Py.

(** [a == b] on values; [True] and [False] compare as [1] and [0], and
    dictionaries regardless of the order of their keys. *)
Fixpoint value_eqb (a b : Py.value) {struct a} : bool :=
  match a, b with
  | Py.VNone, Py.VNone => true
  | Py.VBool x, Py.VBool y => Bool.eqb x y
  | Py.VBool x, Py.VInt z => (z =? (if x then 1 else 0))%Z
  | Py.VInt z, Py.VBool x => (z =? (if x then 1 else 0))%Z
  | Py.VInt x, Py.VInt y => (x =? y)%Z
  | Py.VStr x, Py.VStr y => String.eqb x y
  | Py.VList l1, Py.VList l2 =>
      (fix all2 (l1 l2 : list Py.value) : bool :=
         match l1, l2 with
         | [], [] => true
         | x :: l1', y :: l2' => value_eqb x y && all2 l1' l2'
         | _, _ => false
         end) l1 l2
  | Py.VDict d1, Py.VDict d2 =>
      (List.length d1 =? List.length d2)%nat
      && (fix all_in (d1 : list (string * Py.value)) : bool :=
            match d1 with
            | [] => true
            | (k, v) :: d1' =>
                match ET.assoc_get k d2 with
                | Some w => value_eqb v w
                | None => false
                end && all_in d1'
            end) d1
  | _, _ => false
  end.

(** ** [utils/business_rules_processor.py] *)

Module BusinessRulesProcessor.
Import Py.

(** One entry of [business_rules] in the transport parameter file.  The
    sub-dictionaries [condition] and [action] are flattened; an absent key
    is [None], an absent list is empty. *)
Record BusinessRule : Type := mkRule {
  rule_id : option string;
  applies_to : list string;
  priority : Z;
  field_patterns : list string;
  target_field : option string;
  condition_field : option string;
  condition_operator : option string;
  action_field : option string;
  action_value : option value
}.

Definition nonempty (o : option string) : bool :=
  match o with
  | Some s => negb (String.eqb s "")
  | None => false
  end.

(** The loop over the patterns, up to its [break]. *)
Fixpoint map_first_pattern (field_patterns : list string) (target_field : string)
    (user_input result : dict) : dict :=
  match field_patterns with
  | [] => result
  | pattern :: rest =>
      if present_truthy pattern user_input
      then dict_set target_field (dict_get_default pattern VNone user_input) result
      else map_first_pattern rest target_field user_input result
  end.

Definition apply_field_mapping_rule (rule : BusinessRule) (user_input collected_data : dict)
    : dict :=
  let result := collected_data in
  match target_field rule with
  | None => result
  | Some target_field =>
      if String.eqb target_field "" then result
      else if present_truthy target_field result then result
      else map_first_pattern (field_patterns rule) target_field user_input result
  end.

Definition apply_status_rule (rule : BusinessRule) (user_input collected_data : dict)
    : dict :=
  let result := collected_data in
  match condition_field rule, condition_operator rule, action_field rule, action_value rule with
  | Some condition_field, Some condition_operator, Some action_field, Some action_value =>
      if negb (String.eqb condition_field "") && negb (String.eqb condition_operator "")
         && negb (String.eqb action_field "") && truthy action_value
      then
        if String.eqb condition_operator "has_value"
        then
          if present_truthy condition_field result
          then dict_set action_field action_value result
          else result
        else result
      else result
  | _, _, _, _ => result
  end.

Definition apply_single_rule (rule : BusinessRule) (user_input collected_data : dict)
    : dict :=
  match rule_id rule with
  | Some id =>
      if String.eqb id "carrier_id_mapping_rule"
      then apply_field_mapping_rule rule user_input collected_data
      else if String.eqb id "carrier_creditor_status_rule"
      then apply_status_rule rule user_input collected_data
      else collected_data
  | None => collected_data
  end.

(** [sorted(rules, key=priority)]: stable, ascending. *)
Fixpoint insert_rule (r : BusinessRule) (l : list BusinessRule) : list BusinessRule :=
  match l with
  | [] => [r]
  | x :: l' => if (priority r <? priority x)%Z then r :: l else x :: insert_rule r l'
  end.

Definition sorted_rules (l : list BusinessRule) : list BusinessRule :=
  fold_left (fun acc r => insert_rule r acc) l [].

Definition apply_business_rules (business_rules : list BusinessRule) (transport_type : string)
    (user_input collected_data : dict) : dict :=
  fold_left
    (fun result rule =>
       if negb (mem_string transport_type (applies_to rule)) then result
       else apply_single_rule rule user_input result)
    (sorted_rules business_rules) collected_data.

End BusinessRulesProcessor.

(** ** [utils/parameter_collector.py] *)

Module ParameterCollector.
Import Py.

(** A field description of the parameter files. *)
Record FieldSpec : Type := mkField {
  name : string;
  description : string;
  example : option string;
  default : option value
}.

Record OceanParamSpec : Type := mkOceanParam {
  param_name : string;
  param_required : bool;
  param_description : string;
  param_example : option string
}.

(** [get_transport_parameters(transport_type)] *)
Record TransportParams : Type := mkTransportParams {
  required_fields : list FieldSpec;
  optional_fields : list FieldSpec;
  ocean_parameters : list OceanParamSpec
}.

(** [get_order_parameters(transport_type)] *)
Record OrderParams : Type := mkOrderParams {
  order_fixed_values : dict;
  order_required_fields : list FieldSpec;
  order_optional_fields : list FieldSpec
}.

(** The dictionary [collect_all_parameters] builds; the generators add
    [ocean_parameters] or [order_items] to it. *)
Record Collected : Type := mkCollected {
  transport_info : dict;
  order_details : dict;
  stops : list value;
  custom_parameters : list value
}.

Section Collector.

Variable get_transport_parameters : string -> TransportParams.
Variable get_order_parameters : string -> OrderParams.
(** [get_fixed_parameters(transport_type)["fixed_values"]], empty when the
    key is absent. *)
Variable get_fixed_values : string -> dict.
Variable business_rules : list BusinessRulesProcessor.BusinessRule.
(** [str(v)] as an f-string renders a value. *)
Variable str_of_value : value -> string.

Definition collect_basic_transport_info (transport_type : string) (user_input : dict)
    : outcome dict :=
  let transport_params := get_transport_parameters transport_type in
  let result := dict_update (get_fixed_values transport_type) [] in
  let* result :=
    for_each
      (fun field result =>
         match dict_get (name field) user_input with
         | Some v => Returned (dict_set (name field) v result)
         | None =>
             match default field with
             | Some v => Returned (dict_set (name field) v result)
             | None =>
                 Raised (ValueError ("Required field '" +++ name field
                                       +++ "' not provided for " +++ transport_type))
             end
         end)
      (required_fields transport_params) result in
  let result :=
    fold_left
      (fun result field =>
         match dict_get (name field) user_input with
         | Some v => dict_set (name field) v result
         | None =>
             match default field with
             | Some v => dict_set (name field) v result
             | None => result
             end
         end)
      (optional_fields transport_params) result in
  Returned (BusinessRulesProcessor.apply_business_rules business_rules transport_type
              user_input result).

Definition collect_order_details (transport_type : string) (user_input : dict)
    : outcome dict :=
  let order_params := get_order_parameters transport_type in
  let result := dict_update (order_fixed_values order_params) [] in
  let* result :=
    for_each
      (fun field result =>
         match dict_get (name field) user_input with
         | Some v => Returned (dict_set (name field) v result)
         | None =>
             Raised (ValueError ("Required order field '" +++ name field
                                   +++ "' not provided"))
         end)
      (order_required_fields order_params) result in
  Returned
    (fold_left
       (fun result field =>
          match dict_get (name field) user_input with
          | Some v => dict_set (name field) v result
          | None => result
          end)
       (order_optional_fields order_params) result).

(** A string argument of [re.match]; anything else raises. *)
Definition as_str (v : value) : outcome string :=
  match v with
  | VStr s => Returned s
  | _ => Raised TypeError
  end.

(** The receiver of [in] and of a subscript in the two [_process]
    functions has to be a dictionary; for another value Python raises
    [ValueError] or [TypeError], which the embedding does not tell apart. *)
Definition as_mapping (v : value) : outcome dict :=
  match v with
  | VDict d => Returned d
  | _ => Raised TypeError
  end.

Definition process_location (location_data : value) : outcome dict :=
  let* location_data := as_mapping location_data in
  let* processed :=
    for_each
      (fun field processed =>
         if negb (present_truthy field location_data)
         then Raised (ValueError ("Required location field '" +++ field +++ "' is missing"))
         else Returned (dict_set field (dict_get_default field VNone location_data) processed))
      ["company_name"; "city"; "country"] [] in
  let processed :=
    fold_left
      (fun processed field =>
         if present_truthy field location_data
         then dict_set field (dict_get_default field VNone location_data) processed
         else processed)
      ["street"; "zip"; "state"; "comment"] processed in
  let* country := as_str (dict_get_default "country" VNone processed) in
  if negb (Re.re_match Patterns.country country)
  then Raised (ValueError ("Country code must be 2 uppercase letters, got: " +++ country))
  else Returned processed.

Definition validate_iso_datetime (datetime_str : string) : bool :=
  Patterns.iso_datetime_match datetime_str.

Definition process_date_time_period (period_data : value) : outcome dict :=
  let* period_data := as_mapping period_data in
  let* processed :=
    for_each
      (fun field processed =>
         match dict_get field period_data with
         | None => Raised (ValueError ("Required date field '" +++ field +++ "' is missing"))
         | Some datetime_value =>
             let* datetime_str := as_str datetime_value in
             if negb (validate_iso_datetime datetime_str)
             then Raised (ValueError ("Invalid datetime format for '" +++ field +++ "': "
                                        +++ datetime_str))
             else Returned (dict_set field datetime_value processed)
         end)
      ["start"; "end"] [] in
  Returned
    (match dict_get "timezone" period_data with
     | Some tz => dict_set "timezone" tz processed
     | None => processed
     end).

(** The body of the loop of [collect_stops] for the entry at position [i]. *)
Definition process_stop (i : nat) (stop_data : value) : outcome value :=
  let* stop_data := as_dict stop_data in
  let id := dict_get_default "id" (VStr ("stop_" +++ nat_to_string (i + 1))) stop_data in
  let index := dict_get_default "index" (VInt (Z.of_nat i)) stop_data in
  let* location := process_location (dict_get_default "location" (VDict []) stop_data) in
  let* period :=
    process_date_time_period (dict_get_default "date_time_period" (VDict []) stop_data) in
  Returned (VDict [("id", id); ("index", index); ("location", VDict location);
                   ("date_time_period", VDict period)]).

Definition collect_stops (user_input : dict) : outcome (list value) :=
  let* stops := iter (dict_get_default "stops" (VList []) user_input) in
  for_each_from
    (fun i stop_data processed_stops =>
       let* processed_stop := process_stop i stop_data in
       Returned (processed_stops ++ [processed_stop]))
    0 stops [].

Definition collect_ocean_parameters (user_input : dict) : outcome dict :=
  let ocean_params := get_transport_parameters "ocean_visibility" in
  for_each
    (fun param result =>
       if param_required param && negb (dict_has (param_name param) user_input)
       then Raised (ValueError ("Required ocean parameter '" +++ param_name param
                                  +++ "' not provided"))
       else
         match dict_get (param_name param) user_input with
         | Some value =>
             if String.eqb (param_name param) "ocean.scac.no"
             then
               let* scac := as_str value in
               if negb (Re.re_match Patterns.scac scac)
               then Raised (ValueError ("SCAC code must be 4 alphanumeric characters: "
                                          +++ scac))
               else Returned (dict_set (param_name param) value result)
             else Returned (dict_set (param_name param) value result)
         | None =>
             if String.eqb (param_name param) "ocean.booking.no"
             then Returned (dict_set (param_name param) (VStr "") result)
             else Returned result
         end)
    (ocean_parameters ocean_params) [].

Definition collect_custom_parameters (user_input : dict) : outcome (list value) :=
  let* parameters := iter (dict_get_default "parameters" (VList []) user_input) in
  for_each
    (fun param processed =>
       let* param := as_dict param in
       if negb (present_truthy "qualifier" param) then Returned processed
       else
         let processed_param :=
           [("qualifier", dict_get_default "qualifier" VNone param);
            ("value", dict_get_default "value" (VStr "") param)] in
         let processed_param :=
           match dict_get "shipper_visibility" param with
           | Some v => dict_set "shipper_visibility" v processed_param
           | None => processed_param
           end in
         let processed_param :=
           match dict_get "export_to_carrier" param with
           | Some v => dict_set "export_to_carrier" v processed_param
           | None => processed_param
           end in
         Returned (processed ++ [VDict processed_param]))
    parameters [].

Definition prompt_for (description field_name : string) (example : option string) : string :=
  let prompt := "Please provide " +++ description +++ " (" +++ field_name +++ ")" in
  match example with
  | Some e => prompt +++ " - Example: " +++ e
  | None => prompt
  end.

Definition missing_field_prompts (fields : list FieldSpec) (provided_data : dict)
    : list string :=
  flat_map
    (fun field =>
       if negb (dict_has (name field) provided_data)
       then [prompt_for (description field) (name field) (example field)]
       else [])
    fields.

Definition generate_missing_field_prompts (transport_type : string) (provided_data : dict)
    : list string :=
  let prompts :=
    missing_field_prompts (required_fields (get_transport_parameters transport_type))
      provided_data in
  let prompts :=
    prompts ++ missing_field_prompts
                 (order_required_fields (get_order_parameters transport_type)) provided_data in
  if String.eqb transport_type "ocean_visibility"
  then
    prompts ++
    flat_map
      (fun param =>
         if param_required param && negb (dict_has (param_name param) provided_data)
         then [prompt_for (param_description param) (param_name param) (param_example param)]
         else [])
      (ocean_parameters (get_transport_parameters "ocean_visibility"))
  else prompts.

Definition suggest_optional_fields (transport_type : string) : list string :=
  map
    (fun field =>
       let suggestion := "Optional: " +++ description field +++ " (" +++ name field +++ ")" in
       match example field with
       | Some e => suggestion +++ " - Example: " +++ e
       | None => suggestion
       end)
    (optional_fields (get_transport_parameters transport_type)).

End Collector.
End ParameterCollector.

(** ** [generators/base_generator.py] *)

Module BaseGenerator.
Import Py.
Import ParameterCollector.

(** The dictionary [validate_input] returns; [is_valid], [errors] and
    [warnings] are kept together in [checks]. *)
Record InputValidation : Type := mkInputValidation {
  checks : ValidationResult;
  missing_required : list string;
  suggested_optional : list string
}.

(** What [generate_xml] returns. *)
Inductive GenerationResult : Type :=
| Success (xml_content : string) (collected : Collected)
| ValidationErrorResult (errors : list string) (missing_required : list string)
                        (suggested_optional : list string)
| GenerationError (error_message : string).

Section Generator.

Variable get_transport_parameters : string -> TransportParams.
Variable get_order_parameters : string -> OrderParams.
Variable get_fixed_values : string -> dict.
Variable business_rules : list BusinessRulesProcessor.BusinessRule.

(** [validate_input] of a generator whose [_perform_specific_validation]
    is [perform].  Neither [perform] of the three generators nor the two
    collector calls raise [ValueError], so the handler is written on the
    state at the call. *)
Definition validate_input (transport_type : string)
    (perform : dict -> ValidationResult -> outcome ValidationResult) (user_input : dict)
    : outcome InputValidation :=
  let validation_result := new_result in
  let missing_prompts :=
    generate_missing_field_prompts get_transport_parameters get_order_parameters
      transport_type user_input in
  let validation_result :=
    match missing_prompts with
    | [] => validation_result
    | _ :: _ => set_invalid validation_result
    end in
  let suggested :=
    suggest_optional_fields get_transport_parameters transport_type in
  match perform user_input validation_result with
  | Returned validation_result =>
      Returned (mkInputValidation validation_result missing_prompts suggested)
  | Raised (ValueError e) =>
      Returned (mkInputValidation (append_error e (set_invalid validation_result))
                                  missing_prompts suggested)
  | Raised e => Raised e
  end.

Definition collect_all_parameters (transport_type : string) (user_input : dict)
    : outcome Collected :=
  let* transport_info :=
    collect_basic_transport_info get_transport_parameters get_fixed_values business_rules
      transport_type user_input in
  let* order_details := collect_order_details get_order_parameters transport_type user_input in
  let* stops := collect_stops user_input in
  let* custom_parameters := collect_custom_parameters user_input in
  Returned (mkCollected transport_info order_details stops custom_parameters).

End Generator.
End BaseGenerator.

(** ** [generators/complex_road.py] *)

Module ComplexRoadGenerator.
Import Py.

Definition forbidden_ocean_params : list string :=
  ["ocean.scac.no"; "ocean.bl.no"; "ocean.container.no"; "visibility.ocean.product"].

Definition creditor_format_error : string := "Carrier creditor number must be 10 digits".

(** The check "Validate carrier creditor number format". *)
Definition validate_carrier_creditor_format (user_input : dict)
    (validation_result : ValidationResult) : outcome ValidationResult :=
  let carrier_creditor := dict_get_default "carrier_creditor_number" VNone user_input in
  if truthy carrier_creditor
  then
    match carrier_creditor with
    | VStr s =>
        if negb (isdigit s)
        then
          if negb (String.length s =? 10)%nat
          then Returned (set_invalid (append_error creditor_format_error validation_result))
          else Returned validation_result
        else Returned validation_result
    | _ => Raised AttributeError
    end
  else Returned validation_result.

Definition validate_order_item (item : value) (index : nat)
    (validation_result : ValidationResult) : outcome ValidationResult :=
  let* item := ParameterCollector.as_mapping item in
  let validation_result :=
    fold_left
      (fun validation_result field =>
         if negb (present_truthy field item)
         then set_invalid
                (append_error ("Order item " +++ nat_to_string (index + 1)
                                 +++ ": Required field '" +++ field +++ "' is missing")
                              validation_result)
         else validation_result)
      ["number"; "short_description"; "material_number"] validation_result in
  let quantities := dict_get_default "quantities" (VList []) item in
  let* validation_result :=
    if negb (truthy quantities)
    then Returned (append_warning ("Order item " +++ nat_to_string (index + 1)
                                     +++ ": No quantities specified") validation_result)
    else
      let* quantities := iter quantities in
      for_each
        (fun qty validation_result =>
           let* qty := as_dict qty in
           if negb (present_truthy "qualifier" qty)
           then Returned
                  (set_invalid
                     (append_error ("Order item " +++ nat_to_string (index + 1)
                                      +++ ": Quantity qualifier is required")
                                   validation_result))
           else Returned validation_result)
        quantities validation_result in
  let* item_params := iter (dict_get_default "parameters" (VList []) item) in
  let* existing_qualifiers :=
    for_each
      (fun p acc => let* p := as_dict p in Returned (acc ++ [dict_get "qualifier" p]))
      item_params [] in
  Returned
    (fold_left
       (fun validation_result required_qualifier =>
          if negb (existsb (fun q => eq_str q required_qualifier) existing_qualifiers)
          then append_warning ("Order item " +++ nat_to_string (index + 1)
                                 +++ ": Recommended parameter '" +++ required_qualifier
                                 +++ "' is missing") validation_result
          else validation_result)
       ["material"; "plantCode"; "unitOfMeasurement"] validation_result).

Definition perform_specific_validation (user_input : dict)
    (validation_result : ValidationResult) : outcome ValidationResult :=
  let* stop_count := len (dict_get_default "stops" (VList []) user_input) in
  let validation_result :=
    if (stop_count <? 2)%nat
    then set_invalid
           (append_error "Complex road freight requires at least 2 stops" validation_result)
    else if (20 <? stop_count)%nat
    then set_invalid
           (append_error "Complex road freight supports maximum 20 stops" validation_result)
    else validation_result in
  let* validation_result := validate_carrier_creditor_format user_input validation_result in
  let* parameters := iter (dict_get_default "parameters" (VList []) user_input) in
  let* validation_result :=
    for_each
      (fun param validation_result =>
         let* param := as_dict param in
         match dict_get "qualifier" param with
         | Some (VStr qualifier) =>
             if mem_string qualifier forbidden_ocean_params
             then Returned
                    (set_invalid
                       (append_error ("Ocean parameter '" +++ qualifier
                                        +++ "' not allowed in complex road freight")
                                     validation_result))
             else Returned validation_result
         | _ => Returned validation_result
         end)
      parameters validation_result in
  let* order_items := iter (dict_get_default "order_items" (VList []) user_input) in
  let* validation_result :=
    for_each_from (fun i item => validate_order_item item i) 0 order_items validation_result in
  let transport_carrier := dict_get_default "carrier_creditor_number" VNone user_input in
  for_each
    (fun param validation_result =>
       let* param := as_dict param in
       if eq_str (dict_get "qualifier" param) "custom.preassignedCarrierCreditorNumber"
       then
         if negb (value_eqb (dict_get_default "value" VNone param) transport_carrier)
         then Returned
                (append_warning
                   "Carrier creditor number inconsistency between transport and order levels"
                   validation_result)
         else Returned validation_result
       else Returned validation_result)
    parameters validation_result.

End ComplexRoadGenerator.

(** ** [generators/ocean_visibility.py] *)

Module OceanVisibilityGenerator.
Import Py.
Import ParameterCollector.
Import BaseGenerator.

Definition transport_type : string := "ocean_visibility".

Definition fixed_values : dict :=
  [("scheduling_unit", VStr "Ocean Visibility");
   ("carrier_creditor_number", VStr "Ocean");
   ("status", VStr "NTO")].

Definition required_ocean_parameters : list string :=
  ["ocean.scac.no"; "ocean.bl.no"; "ocean.container.no"].

Definition missing_ocean_parameter (param_name : string) : string :=
  "Required ocean parameter '" +++ param_name +++ "' is missing".

(** "Check for exactly 2 stops OR location data" *)
Definition check_stops_or_locations (user_input : dict)
    (validation_result : ValidationResult) : outcome ValidationResult :=
  let* stop_count := len (dict_get_default "stops" (VList []) user_input) in
  let has_location_data :=
    dict_has "departure_location" user_input && dict_has "arrival_location" user_input in
  if (stop_count =? 0)%nat && negb has_location_data
  then Returned
         (set_invalid
            (append_error
               "Ocean visibility requires either 2 stops OR departure_location and arrival_location data"
               validation_result))
  else if (0 <? stop_count)%nat && negb (stop_count =? 2)%nat
  then Returned
         (set_invalid
            (append_error "Ocean visibility requires exactly 2 stops (Departure and Arrival)"
                          validation_result))
  else Returned validation_result.

(** "Validate required ocean parameters" *)
Definition check_required_ocean_parameters (user_input : dict)
    (validation_result : ValidationResult) : ValidationResult :=
  fold_left
    (fun validation_result param_name =>
       if negb (dict_has param_name user_input)
       then set_invalid (append_error (missing_ocean_parameter param_name) validation_result)
       else validation_result)
    required_ocean_parameters validation_result.

(** "Validate SCAC code format" *)
Definition validate_scac_code (user_input : dict) (validation_result : ValidationResult)
    : outcome ValidationResult :=
  let scac_code := dict_get_default "ocean.scac.no" (VStr "") user_input in
  if truthy scac_code
  then
    let* scac_length := len scac_code in
    if negb (scac_length =? 4)%nat
    then Returned
           (set_invalid
              (append_error "SCAC code must be exactly 4 characters" validation_result))
    else
      match scac_code with
      | VStr s =>
          if negb (isalpha (digits_to_A s))
          then
            if negb (Re.re_match Patterns.scac s)
            then Returned
                   (set_invalid
                      (append_error
                         "SCAC code must contain only uppercase letters and numbers"
                         validation_result))
            else Returned validation_result
          else Returned validation_result
      | _ => Raised AttributeError
      end
  else Returned validation_result.

(** "Check for forbidden elements" *)
Definition warn_forbidden_elements (user_input : dict) (validation_result : ValidationResult)
    : ValidationResult :=
  fold_left
    (fun validation_result element =>
       if dict_has element user_input
       then append_warning ("'" +++ element
                              +++ "' is not used in ocean visibility transport orders")
                           validation_result
       else validation_result)
    ["vehicle"; "prices"; "order_items"] validation_result.

(** "Check for non-ocean parameters", for one parameter. *)
Definition warn_non_ocean_parameter (param : value) (validation_result : ValidationResult)
    : outcome ValidationResult :=
  let* param := as_dict param in
  match dict_get_default "qualifier" (VStr "") param with
  | VStr qualifier =>
      if negb (String.prefix "ocean." qualifier)
         && negb (String.eqb qualifier "visibility.ocean.product")
      then Returned
             (append_warning ("Parameter '" +++ qualifier
                                +++ "' is not typically used in ocean visibility orders")
                             validation_result)
      else Returned validation_result
  | _ => Raised AttributeError
  end.

Definition perform_specific_validation (user_input : dict)
    (validation_result : ValidationResult) : outcome ValidationResult :=
  let* validation_result := check_stops_or_locations user_input validation_result in
  let validation_result := check_required_ocean_parameters user_input validation_result in
  let* validation_result := validate_scac_code user_input validation_result in
  let validation_result := warn_forbidden_elements user_input validation_result in
  let* parameters := iter (dict_get_default "parameters" (VList []) user_input) in
  for_each warn_non_ocean_parameter parameters validation_result.

Definition build_ocean_stops (user_input : dict) : value :=
  let departure_location := dict_get_default "departure_location" (VDict []) user_input in
  let arrival_location := dict_get_default "arrival_location" (VDict []) user_input in
  let departure_date := dict_get_default "departure_date" (VDict []) user_input in
  let arrival_date := dict_get_default "arrival_date" (VDict []) user_input in
  VList
    [VDict [("id", VStr "Departure"); ("index", VInt 0);
            ("location", departure_location); ("date_time_period", departure_date)];
     VDict [("id", VStr "Arrival"); ("index", VInt 1);
            ("location", arrival_location); ("date_time_period", arrival_date)]].

(** The input [collect_all_parameters] hands to the collection of the base
    class. *)
Definition modified_input (user_input : dict) : outcome dict :=
  let modified_input := dict_update fixed_values user_input in
  let modified_input :=
    if negb (dict_has "order_number" modified_input)
    then dict_set "order_number" (dict_get_default "number" (VStr "") modified_input)
                  modified_input
    else modified_input in
  let* rebuild :=
    match dict_get "stops" modified_input with
    | None => Returned true
    | Some stops => let* n := len stops in Returned (negb (n =? 2)%nat)
    end in
  let modified_input :=
    if rebuild
       && dict_has "departure_location" modified_input
       && dict_has "arrival_location" modified_input
    then dict_set "stops" (build_ocean_stops modified_input) modified_input
    else modified_input in
  let modified_input :=
    dict_set "loading_stop_ids" (VList [VStr "Departure"]) modified_input in
  let modified_input :=
    dict_set "unloading_stop_ids" (VList [VStr "Arrival"]) modified_input in
  Returned modified_input.



(** The [id] entry of a collected stop. *)
Definition stop_id (stop : value) : value :=
  match stop with
  | VDict d => dict_get_default "id" VNone d
  | _ => VNone
  end.





Section Generator.

Variable get_transport_parameters : string -> TransportParams.
Variable get_order_parameters : string -> OrderParams.
Variable get_fixed_values : string -> dict.
Variable business_rules : list BusinessRulesProcessor.BusinessRule.
(** [build_basic_structure], [_add_ocean_visibility_elements] and
    [finalize_xml]: the rendering of the collected parameters into the
    template of the store. *)
Variable render : Collected -> dict -> outcome string.
Variable str_of_exn : exn -> string.

Definition collect_all_parameters (user_input : dict) : outcome Collected :=
  let* modified_input := modified_input user_input in
  BaseGenerator.collect_all_parameters get_transport_parameters get_order_parameters
    get_fixed_values business_rules transport_type modified_input.

Definition generate_xml (user_input : dict) : outcome GenerationResult :=
  let* validation :=
    validate_input get_transport_parameters get_order_parameters transport_type
      perform_specific_validation user_input in
  if negb (is_valid (checks validation))
  then Returned (ValidationErrorResult (errors (checks validation))
                   (missing_required validation) (suggested_optional validation))
  else
    let attempt :=
      let* collected_params := collect_all_parameters user_input in
      let* ocean_parameters :=
        collect_ocean_parameters get_transport_parameters user_input in
      let* final_xml := render collected_params ocean_parameters in
      Returned (Success final_xml collected_params) in
    match attempt with
    | Returned result => Returned result
    | Raised e => Returned (GenerationError (str_of_exn e))
    end.

End Generator.
End OceanVisibilityGenerator.


(** ** Text replacement: [str.replace], [replace_placeholders] and the
    escaping of comments *)

Module Placeholders.

(** [new] before every character of [s], and once more at the end: what
    [s.replace("", new)] returns. *)
Fixpoint interleave (new s : string) : string :=
  match s with
  | EmptyString => new
  | String a s' => new +++ String a (interleave new s')
  end.

(** The scan of [s.replace(old, new)] for a non-empty [old]: occurrences
    are replaced from the left and do not overlap; [skip] counts the
    characters of the current occurrence still to drop. *)
Fixpoint replace_from (old new s : string) (skip : nat) : string :=
  match s with
  | EmptyString => EmptyString
  | String a s' =>
      match skip with
      | S k => replace_from old new s' k
      | O =>
          if String.prefix old s
          then new +++ replace_from old new s' (String.length old - 1)
          else String a (replace_from old new s' 0)
      end
  end.

(** [s.replace(old, new)] *)
Definition str_replace (old new s : string) : string :=
  match old with
  | EmptyString => interleave new s
  | String _ _ => replace_from old new s 0
  end.

(** [XMLDOMBuilder.replace_placeholders]; the values are given as [str]
    renders them. *)
Definition replace_placeholders (template : string) (replacements : list (string * string))
    : string :=
  fold_left
    (fun result (entry : string * string) =>
       let (placeholder, value) := entry in
       let pattern := "{" +++ placeholder +++ "}" in
       str_replace pattern value result)
    replacements template.

(** The escaping of the comment in [_add_simple_road_elements]. *)
Definition escape_comment (comment : string) : string :=
  str_replace ">" "&gt;" (str_replace "<" "&lt;" (str_replace "&" "&amp;" comment)).

(** The escaping of one character. *)
Definition escape_char (c : ascii) : string :=
  if Ascii.eqb c "&" then "&amp;"
  else if Ascii.eqb c "<" then "&lt;"
  else if Ascii.eqb c ">" then "&gt;"
  else String c "".

(** The texts [f] gives for the characters of [s], joined. *)
Fixpoint flat_map_string (f : ascii -> string) (s : string) : string :=
  match s with
  | EmptyString => EmptyString
  | String c s' => f c +++ flat_map_string f s'
  end.

(** [u] is [s] with some characters deleted. *)
Inductive Subsequence : string -> string -> Prop :=
| sub_empty : Subsequence "" ""
| sub_keep a u s : Subsequence u s -> Subsequence (String a u) (String a s)
| sub_drop a u s : Subsequence u s -> Subsequence u (String a s).

End Placeholders.

(** ** [generators/complex_road.py]: the two levels of parameters *)

Module ComplexRoadParameters.
Import Py.

Definition order_level_qualifiers : list string :=
  ["custom.preassignedCarrierCreditorNumber"; "salesorderNumber"; "shuttleTransport";
   "shuttleTransportAuto"; "CPUrecipient"; "CSRName"; "CSREmail"; "CSRPhone"; "OrderDate";
   "transportMode"; "shippingPoint"; "ShipTo"; "material"; "route"; "purchaseOrderNumber";
   "PGIDate"].

Definition transport_level_qualifiers : list string :=
  ["numberofCombinedDeliveries"; "combinedloadnumber"; "transport.salesorderNumber";
   "transport.purchaseOrderNumber"; "transport.customerPONumber";
   "custom.resend.carrierprint"; "transport.shipperBillTo"].

(** [param.get("qualifier") in qualifiers] for a list of strings. *)
Definition qualifier_in (qualifiers : list string) (param : dict) : bool :=
  match dict_get "qualifier" param with
  | Some (VStr q) => mem_string q qualifiers
  | _ => false
  end.

(** The comprehension of the two [_extract] functions. *)
Definition extract (qualifiers : list string) (all_parameters : list value)
    : outcome (list value) :=
  for_each
    (fun param kept =>
       let* d := as_dict param in
       if qualifier_in qualifiers d then Returned (kept ++ [param]) else Returned kept)
    all_parameters [].

Definition extract_order_parameters (all_parameters : list value) : outcome (list value) :=
  extract order_level_qualifiers all_parameters.

Definition extract_transport_parameters (all_parameters : list value)
    : outcome (list value) :=
  extract transport_level_qualifiers all_parameters.

End ComplexRoadParameters.

(** ** [utils/parameter_collector.py]: order items *)

Module OrderItems.
Import Py.

Section Items.

(** The float [0.0], the default of a quantity value; the values of the
    embedding hold no floats. *)
Variable float_zero : value.

Definition process_quantities (quantities : value) : outcome (list value) :=
  let* quantities := iter quantities in
  for_each
    (fun qty processed =>
       let* qty := as_dict qty in
       Returned (processed ++
                 [VDict [("qualifier", dict_get_default "qualifier" (VStr "") qty);
                         ("value", dict_get_default "value" float_zero qty);
                         ("unit", dict_get_default "unit" (VStr "") qty)]]))
    quantities [].

Definition process_item_parameters (parameters : value) : outcome (list value) :=
  let* parameters := iter parameters in
  for_each
    (fun param processed =>
       let* param := as_dict param in
       let processed_param :=
         [("qualifier", dict_get_default "qualifier" (VStr "") param);
          ("value", dict_get_default "value" (VStr "") param)] in
       let processed_param :=
         match dict_get "shipper_visibility" param with
         | Some v => dict_set "shipper_visibility" v processed_param
         | None => processed_param
         end in
       let processed_param :=
         match dict_get "export_to_carrier" param with
         | Some v => dict_set "export_to_carrier" v processed_param
         | None => processed_param
         end in
       Returned (processed ++ [VDict processed_param]))
    parameters [].

Definition required_item_fields : list string :=
  ["number"; "short_description"; "material_number"].

(** The body of the loop of [collect_order_items]. *)
Definition process_item (item_data : value) : outcome value :=
  let* item_data := as_dict item_data in
  let* quantities :=
    process_quantities (dict_get_default "quantities" (VList []) item_data) in
  let* parameters :=
    process_item_parameters (dict_get_default "parameters" (VList []) item_data) in
  let processed_item :=
    [("number", dict_get_default "number" (VStr "") item_data);
     ("short_description", dict_get_default "short_description" (VStr "") item_data);
     ("material_number", dict_get_default "material_number" (VStr "") item_data);
     ("quantities", VList quantities);
     ("parameters", VList parameters)] in
  let* _ :=
    for_each
      (fun field (_ : unit) =>
         if negb (truthy (dict_get_default field VNone processed_item))
         then Raised (ValueError ("Required item field '" +++ field +++ "' is missing"))
         else Returned tt)
      required_item_fields tt in
  Returned (VDict processed_item).

Definition collect_order_items (user_input : dict) : outcome (list value) :=
  let* items := iter (dict_get_default "order_items" (VList []) user_input) in
  for_each
    (fun item_data processed_items =>
       let* processed_item := process_item item_data in
       Returned (processed_items ++ [processed_item]))
    items [].

End Items.
End OrderItems.

(** ** Notions the properties are stated with *)

(** The integers [0 .. n-1]. *)
Definition index_range (n : nat) : list Z := map Z.of_nat (seq 0 n).

(** The identifier [_validate_stops] reads from a stop: the text of the
    element it finds, when that text is not empty. *)
Definition stop_id_text (stop : ET.Element) : option string :=
  match ET.or_find (ET.find (ns +++ "id") stop) (ET.find "id" stop) with
  | Some e => if ET.text_empty e then None else Some (text_str (ET.text e))
  | None => None
  end.




(** [e.find(ns + name) or e.find(name)], the lookup of the structural
    pass below [transport_order]. *)
Definition lookup (name : string) (e : ET.Element) : option ET.Element :=
  ET.or_find (ET.find (ns +++ name) e) (ET.find name e).

(** The loop body of [_validate_stops] after the identifier of the stop:
    index, location and period. *)
Definition after_id (i : nat) (stop : ET.Element) (result : ValidationResult)
    : ValidationResult :=
  let result :=
    match lookup "index" stop with
    | None =>
        set_invalid (append_error ("Stop " +++ nat_to_string (i + 1)
                                     +++ ": missing index element") result)
    | Some _ => result
    end in
  let result :=
    match lookup "location" stop with
    | None =>
        set_invalid (append_error ("Stop " +++ nat_to_string (i + 1)
                                     +++ ": missing location element") result)
    | Some location => StructuralValidator.validate_location_structure location (i + 1) result
    end in
  match lookup "date_time_period" stop with
  | None =>
      set_invalid (append_error ("Stop " +++ nat_to_string (i + 1)
                                   +++ ": missing date_time_period element") result)
  | Some period => StructuralValidator.validate_date_time_period period (i + 1) result
  end.

(** A child found by [lookup] that carries a text. *)
Definition has_text_child (name : string) (e : ET.Element) : Prop :=
  exists c, lookup name e = Some c /\ ET.text_empty c = false.

(** A stop with all the structural pass asks for after the identifier: an
    index, a location with company name, city and a country code the
    pattern accepts, and a period whose bounds the date pattern accepts. *)
Definition complete_stop (stop : ET.Element) : Prop :=
  lookup "index" stop <> None
  /\ (exists location country,
        lookup "location" stop = Some location
        /\ has_text_child "company_name" location
        /\ has_text_child "city" location
        /\ lookup "country" location = Some country
        /\ ET.text_empty country = false
        /\ Re.re_match Patterns.country (text_str (ET.text country)) = true)
  /\ (exists period start end_,
        lookup "date_time_period" stop = Some period
        /\ lookup "start" period = Some start
        /\ ET.text_empty start = false
        /\ Patterns.iso_datetime_match (text_str (ET.text start)) = true
        /\ lookup "end" period = Some end_
        /\ ET.text_empty end_ = false
        /\ Patterns.iso_datetime_match (text_str (ET.text end_)) = true).

(** The qualifier of a collected parameter. *)
Definition parameter_qualifier (v : Py.value) : option Py.value :=
  match v with
  | Py.VDict d => Py.dict_get "qualifier" d
  | _ => None
  end.

(** A value that is a dictionary. *)
Definition is_dict (v : Py.value) : Prop := exists d, v = Py.VDict d.

(** The errors of the stop-index check. *)
Definition index_errors : list string :=
  ["Stop index must be a number"; "Stop indices should start from 0";
   "Stop indices should be sequential"].

(** The warning of the date-sequence check. *)
Definition date_warning : string :=
  "Stop dates may not be in logical sequence - verify pickup and delivery order".




(** ** Sample documents and inputs *)

Module Samples.
Import ET Py.

(** A stop of a sample document; [q] qualifies the tag names. *)
Definition stop (q : string -> string) (id index : string) : Element :=
  Elem (q "stop") [] None
    [leaf (q "id") id;
     leaf (q "index") index;
     Elem (q "location") [] None
       [leaf (q "company_name") "Bayport CO Truck Terminal";
        leaf (q "city") "Pasadena";
        leaf (q "country") "US"];
     Elem (q "date_time_period") [] None
       [leaf (q "start") "2025-09-25T00:00:00Z";
        leaf (q "end") "2025-09-26T23:59:00Z"]].

Fixpoint stops_from (q : string -> string) (i : nat) (indices : list string)
    : list Element :=
  match indices with
  | [] => []
  | index :: rest => stop q ("S" +++ nat_to_string i) index :: stops_from q (S i) rest
  end.

Definition parameter (q : string -> string) (qualifier value : string) : Element :=
  Elem (q "parameter") [("qualifier", qualifier)] None [leaf (q "value") value].

(** A transport order with the given stop indices, carrier creditor number
    and parameters.  [q_order] qualifies the tag of [transport_orders] and
    [transport_order], [q] the tags below them. *)
Definition document (q_order q : string -> string) (indices : list string)
    (carrier : string) (parameters : list (string * string)) : Element :=
  Elem (q_order "transport_orders") [] None
    [Elem (q_order "transport_order") [] None
       [leaf (q "number") "0081310198";
        leaf (q "status") "D";
        leaf (q "scheduling_unit") "BCO";
        leaf (q "carrier_creditor_number") carrier;
        Elem (q "orders") [] None
          [Elem (q "order_details") [] None
             [leaf (q "number") "0081310198";
              Elem (q "loading_stop_ids") [] None [leaf (q "loading_stop_id") "S0"];
              Elem (q "unloading_stop_ids") [] None [leaf (q "unloading_stop_id") "S1"]]];
        Elem (q "stops") [] None (stops_from q 0 indices);
        Elem (q "parameters") [] None
          (map (fun kv => parameter q (fst kv) (snd kv)) parameters)]].

Definition bare (name : string) : string := name.
Definition qualified (name : string) : string := ns +++ name.

(** [<transport_orders><transport_order>...]: no namespace at all. *)
Definition bare_document indices carrier parameters : Element :=
  document bare bare indices carrier parameters.

(** [<transport_orders xmlns="http://xch.transporeon.com/soap/">...]: the
    default namespace applies to every element. *)
Definition namespaced_document indices carrier parameters : Element :=
  document qualified qualified indices carrier parameters.

(** [<x:transport_orders xmlns:x="http://xch.transporeon.com/soap/">
    <x:transport_order><number>...]: only the two outer elements carry the
    prefix. *)
Definition prefixed_document indices carrier parameters : Element :=
  document qualified bare indices carrier parameters.

Definition creditor_parameters : list (string * string) :=
  [("custom.preassignedCarrierCreditorNumber", "0000999999")].

(** What a pass returns when it finds no [transport_order]. *)
Definition not_found : ValidationResult :=
  mkResult false ["No transport_order element found"] [].

(** Datetimes as seconds, all naive, for the samples: no text is read. *)
Definition no_datetime (s : string) : option Z := None.
Definition Z_lt (a b : Z) : option bool := Some (a <? b)%Z.

Definition location (company city country : string) : value :=
  VDict [("company_name", VStr company); ("city", VStr city); ("country", VStr country)].

Definition period (start end_ : string) : value :=
  VDict [("start", VStr start); ("end", VStr end_)].

Definition input_stop (id : string) (index : Z) : value :=
  VDict [("id", VStr id); ("index", VInt index);
         ("location", location "Bayport CO Truck Terminal" "Pasadena" "US");
         ("date_time_period", period "2025-09-25T00:00:00Z" "2025-09-26T23:59:00Z")].

(** A Complex Road input with the given carrier creditor number. *)
Definition complex_input (carrier : string) : dict :=
  [("number", VStr "0081310198"); ("status", VStr "D"); ("scheduling_unit", VStr "BCO");
   ("carrier_creditor_number", VStr carrier);
   ("stops", VList [input_stop "BCOT" 0; input_stop "0000017649" 1])].

(** The example input of the Ocean Visibility generator, without the
    entries named in [without]. *)
Definition ocean_input (without : list string) : dict :=
  filter (fun kv => negb (mem_string (fst kv) without))
    [("number", VStr "4500831479-20");
     ("ocean.scac.no", VStr "MAEU");
     ("ocean.bl.no", VStr "MAEU258327258");
     ("ocean.container.no", VStr "MMAU1291440");
     ("ocean.booking.no", VStr "");
     ("departure_location", location "Camimex Joint Stock Company" "Ca Mau City" "VN");
     ("arrival_location", location "Factory Bremerhaven DE" "Bremerhaven" "DE");
     ("departure_date", period "2025-07-13T00:00:00+02:00" "2025-07-13T00:00:00+02:00");
     ("arrival_date", period "2025-10-11T00:00:00+02:00" "2025-10-11T00:00:00+02:00")].


(** A parameter configuration in the shape of the parameter files: the
    transport number is required, the stop-id lists are optional order
    fields, and the three ocean qualifiers are required ocean parameters. *)
Definition field (name description : string) : ParameterCollector.FieldSpec :=
  ParameterCollector.mkField name description None None.

Definition transport_parameters (transport_type : string)
    : ParameterCollector.TransportParams :=
  ParameterCollector.mkTransportParams
    [field "number" "transport order number"]
    [field "carrier_creditor_number" "carrier creditor number"]
    [ParameterCollector.mkOceanParam "ocean.scac.no" true "SCAC code" (Some "MAEU");
     ParameterCollector.mkOceanParam "ocean.bl.no" true "bill of lading number" None;
     ParameterCollector.mkOceanParam "ocean.container.no" true "container number" None;
     ParameterCollector.mkOceanParam "ocean.booking.no" false "booking number" None].

Definition order_parameters (transport_type : string) : ParameterCollector.OrderParams :=
  ParameterCollector.mkOrderParams []
    [field "order_number" "order number"]
    [field "loading_stop_ids" "loading stop ids";
     field "unloading_stop_ids" "unloading stop ids"].

Definition no_fixed_values (transport_type : string) : dict := [].

(** A field-mapping rule in the shape of the parameter file. *)
Definition carrier_id_mapping_rule : BusinessRulesProcessor.BusinessRule :=
  BusinessRulesProcessor.mkRule (Some "carrier_id_mapping_rule")
    ["simple_road"; "complex_road"] 1
    ["carrier_id"; "carrier"; "carrier_number"] (Some "carrier_creditor_number")
    None None None None.

(** An ocean order with its four parameters; the inner elements carry
    bare tags. *)
Definition ocean_order : Element :=
  Elem (qualified "transport_order") [] None
    [leaf "scheduling_unit" "Ocean Visibility";
     Elem "parameters" [] None
       [parameter bare "visibility.ocean.product" "true";
        parameter bare "ocean.scac.no" "MAEU";
        parameter bare "ocean.bl.no" "MAEU123456789";
        parameter bare "ocean.container.no" "MSKU1234567"]].

Definition ocean_document : Element :=
  Elem (qualified "transport_orders") [] None [ocean_order].

(** Rules of two transport types in the shape of the validation file. *)
Definition simple_road_rules : BusinessValidator.TypeRules :=
  BusinessValidator.mkTypeRules ["number"; "stops"] (Some 2%nat) (Some 10%nat) []
    ["ocean.scac.no"; "ocean.bl.no"] [] [] false false
    (BusinessValidator.mkOrderItemRules [] [] []).

Definition ocean_rules : BusinessValidator.TypeRules :=
  BusinessValidator.mkTypeRules ["number"] (Some 2%nat) (Some 2%nat)
    [("status", "D")] [] [] ["ocean.scac.no"] false false
    (BusinessValidator.mkOrderItemRules [] [] []).

Definition type_rules : list (string * BusinessValidator.TypeRules) :=
  [("simple_road", simple_road_rules); ("ocean_visibility", ocean_rules)].

(** A status rule in the shape of the parameter file. *)
Definition carrier_creditor_status_rule : BusinessRulesProcessor.BusinessRule :=
  BusinessRulesProcessor.mkRule (Some "carrier_creditor_status_rule")
    ["simple_road"; "complex_road"] 2
    [] None
    (Some "carrier_creditor_number") (Some "has_value") (Some "status") (Some (VStr "NTO")).

End Samples.

(** * Properties *)

(** ** Strings *)

Lemma append_assoc (a b c : string) : (a +++ b) +++ c = a +++ b +++ c.
Proof. induction a as [|x a IH]; simpl; [reflexivity | now rewrite IH]. Qed.

Lemma append_empty_r (a : string) : a +++ "" = a.
Proof. induction a as [|x a IH]; simpl; [reflexivity | now rewrite IH]. Qed.

Lemma prefix_split (a s : string) :
  String.prefix a s = true -> s = a +++ skipn_string (String.length a) s.
Proof.
  revert s; induction a as [|x a IH]; intros s H; simpl in *.
  - reflexivity.
  - destruct s as [|y s]; simpl in H; [discriminate|].
    destruct (ascii_dec x y) as [->|]; [|discriminate].
    simpl. f_equal. now apply IH.
Qed.

(** ** The matcher *)

Module ReFacts.
Import Re.

Lemma lift_S_some o n : lift_S o = Some n -> exists m, o = Some m /\ n = S m.
Proof. destruct o; simpl; intros H; inversion H; eauto. Qed.

(** A successful [star_loop] consumed a run of the class and then matched
    the rest. *)
Lemma star_loop_inv p k : forall s prev cap n,
  star_loop p k prev cap s = Some n ->
  exists u v prev' m,
    s = u +++ v /\ string_forallb p u = true /\ k prev' cap v = Some m
    /\ n = String.length u + m.
Proof.
  induction s as [|a s IH]; intros prev cap n H; simpl in H.
  - exists "", "", prev, n. auto.
  - destruct (p a) eqn:Hp.
    + destruct (star_loop p k (Some a) cap s) eqn:Hs.
      * inversion H; subst. destruct (IH _ _ _ Hs) as (u & v & prev' & m & -> & Hu & Hk & ->).
        exists (String a u), v, prev', m. simpl. rewrite Hp, Hu. auto.
      * exists "", (String a s), prev, n. auto.
    + exists "", (String a s), prev, n. auto.
Qed.

Lemma group_loop_inv p k : forall s acc prev n,
  group_loop p k acc prev s = Some n ->
  exists u v prev' cap m,
    s = u +++ v /\ string_forallb p u = true /\ k prev' cap v = Some m
    /\ n = String.length u + m.
Proof.
  induction s as [|a s IH]; intros acc prev n H; simpl in H.
  - exists "", "", prev, acc, n. auto.
  - destruct (p a) eqn:Hp.
    + destruct (group_loop p k (acc +++ String a "") (Some a) s) eqn:Hs.
      * inversion H; subst.
        destruct (IH _ _ _ Hs) as (u & v & prev' & cap & m & -> & Hu & Hk & ->).
        exists (String a u), v, prev', cap, m. simpl. rewrite Hp, Hu. auto.
      * exists "", (String a s), prev, acc, n. auto.
    + exists "", (String a s), prev, acc, n. auto.
Qed.

(** A match of a pattern that contains the literal [c] found [c] in the
    text, and the rest of the pattern matched after it. *)
Lemma match_here_lit c r2 : forall r1 prev cap s n,
  match_here (r1 ++ Lit c :: r2) prev cap s = Some n ->
  exists u v cap' m, s = u +++ String c v /\ match_here r2 (Some c) cap' v = Some m.
Proof.
  induction r1 as [|a r1 IH]; intros prev cap s n H.
  - simpl in H. destruct s as [|x s]; [discriminate|].
    destruct (Ascii.eqb x c) eqn:E; [apply Ascii.eqb_eq in E; subst x|discriminate].
    apply lift_S_some in H as (m & Hm & _). exists "", s, cap, m. auto.
  - destruct a; simpl in H.
    + destruct s as [|x s]; [discriminate|]. destruct (Ascii.eqb x c0); [|discriminate].
      apply lift_S_some in H as (m & Hm & _).
      destruct (IH _ _ _ _ Hm) as (u & v & cap' & m' & -> & Hk).
      exists (String x u), v, cap', m'. auto.
    + destruct s as [|x s]; [discriminate|]. destruct (p x); [|discriminate].
      apply lift_S_some in H as (m & Hm & _).
      destruct (IH _ _ _ _ Hm) as (u & v & cap' & m' & -> & Hk).
      exists (String x u), v, cap', m'. auto.
    + apply star_loop_inv in H as (u0 & v0 & prev' & m & -> & _ & Hk & _).
      destruct (IH _ _ _ _ Hk) as (u & v & cap' & m' & -> & Hk').
      exists (u0 +++ u), v, cap', m'. rewrite append_assoc. auto.
    + destruct s as [|x s]; [discriminate|]. destruct (p x); [|discriminate].
      apply lift_S_some in H as (m & Hm & _).
      apply group_loop_inv in Hm as (u0 & v0 & prev' & cap0 & m0 & -> & _ & Hk & _).
      destruct (IH _ _ _ _ Hk) as (u & v & cap' & m' & -> & Hk').
      exists (String x (u0 +++ u)), v, cap', m'. simpl. rewrite append_assoc. auto.
    + destruct (String.prefix cap s) eqn:Hp; [|discriminate].
      destruct (match_here (r1 ++ Lit c :: r2) (last_char cap prev) cap
                  (skipn_string (String.length cap) s)) eqn:Hk; [|discriminate].
      destruct (IH _ _ _ _ Hk) as (u & v & cap' & m' & Hs & Hk').
      exists (cap +++ u), v, cap', m'. split; [|assumption].
      rewrite (prefix_split _ _ Hp), Hs at 1. now rewrite append_assoc.
    + destruct (at_bol prev); [|discriminate]. eauto.
    + destruct (at_eol s); [|discriminate]. eauto.
    + destruct (at_eolz s); [|discriminate]. eauto.
Qed.

Lemma match_here_pair c d r prev cap s n :
  asks_pair c d r -> match_here r prev cap s = Some n -> has_pair c d s.
Proof.
  intros (r1 & r2 & r3 & ->) H.
  apply match_here_lit in H as (u & v & cap' & m & -> & H).
  apply match_here_lit in H as (v' & w & _ & _ & -> & _).
  now exists u, v', w.
Qed.

Lemma has_pair_tail c d a s : has_pair c d s -> has_pair c d (String a s).
Proof. intros (u & v & w & ->). now exists (String a u), v, w. Qed.

(** Without a match at any position, [re.sub] returns its argument. *)
Lemma sub_from_no_pair c d r : asks_pair c d r ->
  forall s prev, ~ has_pair c d s -> sub_from r prev s 0 = s.
Proof.
  intros Hr. induction s as [|a s IH]; intros prev Hs; simpl.
  - reflexivity.
  - destruct (match_here r prev "" (String a s)) as [n|] eqn:Hm.
    + exfalso. apply Hs. eapply match_here_pair; eauto.
    + f_equal. apply IH. intros H. apply Hs. now apply has_pair_tail.
Qed.

End ReFacts.

(** ** Placeholder cleanup *)

Module CleanupFacts.
Import Re ReFacts XMLDOMBuilder.

#[local] Arguments match_here : simpl never.

Lemma asks_token : asks_pair open_brace close_brace placeholder_token.
Proof. now exists [], [Star (is_not "}")], []. Qed.

Lemma asks_standalone : asks_pair open_brace close_brace standalone_line.
Proof. now exists [Bol; Star is_space], [Star (is_not "}")], [Star is_space; Eol]. Qed.

Lemma asks_element : asks_pair open_brace close_brace placeholder_only_element.
Proof.
  now exists [Lit "<"; Group1 (is_not ">"); Lit ">"; Star is_space], [Star (is_not "}")],
             [Star is_space; Lit "<"; Lit "/"; Backref1; Lit ">"].
Qed.

Lemma asks_self_closing : asks_pair open_brace close_brace self_closing_with_placeholder.
Proof.
  now exists [Lit "<"; Star (is_not ">")], [Star (is_not "}")],
             [Star (is_not ">"); Lit "/"; Lit ">"; Star is_space].
Qed.

(** After an opening brace the token pattern matches as soon as a closing
    brace follows somewhere. *)
Lemma star_close k :
  (forall prev cap w, exists m, k prev cap (String close_brace w) = Some m) ->
  forall v prev cap w,
  exists n, star_loop (is_not "}") k prev cap (v +++ String close_brace w) = Some n.
Proof.
  intros Hk. induction v as [|a v IH]; intros prev cap w; simpl.
  - apply Hk.
  - destruct (is_not "}" a) eqn:Ha.
    + destruct (IH (Some a) cap w) as (n & ->). now exists (S n).
    + unfold is_not in Ha. apply negb_false_iff, Ascii.eqb_eq in Ha. subst a. apply Hk.
Qed.

Lemma contains_split d : forall s,
  contains_char d s = true -> exists v w, s = v +++ String d w.
Proof.
  induction s as [|a s IH]; simpl; intros H; [discriminate|].
  apply orb_true_iff in H as [H|H].
  - apply Ascii.eqb_eq in H. subst a. now exists "", s.
  - destruct (IH H) as (v & w & ->). now exists (String a v), w.
Qed.

Lemma contains_append d : forall u v,
  contains_char d (u +++ v) = contains_char d u || contains_char d v.
Proof.
  unfold contains_char. induction u as [|a u IH]; intros v; simpl; [reflexivity|].
  now rewrite IH, orb_assoc.
Qed.

Lemma contains_cons d a s : contains_char d (String a s) = Ascii.eqb d a || contains_char d s.
Proof. reflexivity. Qed.

Lemma has_pair_contains c d s : has_pair c d s -> contains_char d s = true.
Proof.
  intros (u & v & w & ->).
  rewrite contains_append, contains_cons, contains_append, contains_cons, Ascii.eqb_refl.
  now rewrite !orb_true_r.
Qed.

Lemma has_pair_open c d s : has_pair c d s -> contains_char c s = true.
Proof.
  intros (u & v & w & ->). rewrite contains_append, contains_cons, Ascii.eqb_refl.
  now rewrite orb_true_r.
Qed.

Lemma has_pair_cons c d a s :
  has_pair c d (String a s) -> (a = c /\ contains_char d s = true) \/ has_pair c d s.
Proof.
  intros (u & v & w & H). destruct u as [|x u]; simpl in H; inversion H; subst.
  - left. split; [reflexivity|].
    rewrite contains_append, contains_cons, Ascii.eqb_refl. now rewrite orb_true_r.
  - right. now exists u, v, w.
Qed.

Lemma has_pair_empty c d : ~ has_pair c d "".
Proof. intros (u & v & w & H). destruct u; discriminate. Qed.

(** The token pattern matches at an opening brace that is followed by a
    closing one. *)
Lemma token_matches prev cap s :
  contains_char close_brace s = true ->
  exists n, match_here placeholder_token prev cap (String open_brace s) = Some (S n).
Proof.
  intros H. apply contains_split in H as (v & w & ->).
  destruct (star_close (match_here [Lit "}"]) (fun _ _ _ => ex_intro _ 1 eq_refl)
              v (Some open_brace) cap w) as (n & Hn).
  exists n. unfold placeholder_token.
  change (match_here [Lit "{"; Star (is_not "}"); Lit "}"] prev cap
            (String open_brace (v +++ String close_brace w)))
    with (lift_S (star_loop (is_not "}") (match_here [Lit "}"]) (Some open_brace) cap
                    (v +++ String close_brace w))).
  now rewrite Hn.
Qed.

Lemma search_from_pair c d r : asks_pair c d r ->
  forall s prev, search_from r prev s = true -> has_pair c d s.
Proof.
  intros Hr. induction s as [|a s IH]; intros prev H; simpl in H.
  - destruct (match_here r prev "" "") eqn:E; [|discriminate].
    eapply match_here_pair; eauto.
  - destruct (match_here r prev "" (String a s)) eqn:E.
    + eapply match_here_pair; eauto.
    + apply has_pair_tail. eauto.
Qed.

Lemma pair_search_token : forall s prev,
  has_pair open_brace close_brace s -> search_from placeholder_token prev s = true.
Proof.
  induction s as [|a s IH]; intros prev H.
  - now apply has_pair_empty in H.
  - apply has_pair_cons in H as [[-> H] | H].
    + destruct (token_matches prev "" s H) as (n & Hn).
      unfold search_from. now rewrite Hn.
    + simpl. destruct (match_here placeholder_token prev "" (String a s)); [reflexivity|].
      now apply IH.
Qed.

(** A text has a placeholder exactly when an opening brace is followed by
    a closing one. *)
Lemma has_placeholder_iff s :
  has_placeholder s = true <-> has_pair open_brace close_brace s.
Proof.
  split.
  - apply search_from_pair, asks_token.
  - apply pair_search_token.
Qed.

Lemma no_placeholder_iff s :
  has_placeholder s = false <-> ~ has_pair open_brace close_brace s.
Proof.
  rewrite <- has_placeholder_iff. destruct (has_placeholder s); split; intros H; auto.
  - discriminate.
  - now contradiction H.
Qed.

(** [re.sub] only deletes characters. *)
Lemma sub_from_contains d r : forall s prev k,
  contains_char d (sub_from r prev s k) = true -> contains_char d s = true.
Proof.
  induction s as [|a s IH]; intros prev k H; [assumption|].
  rewrite contains_cons. cbn [sub_from] in H.
  destruct k as [|k].
  - destruct (match_here r prev "" (String a s)) as [[|n]|];
      try rewrite contains_cons in H;
      try (apply orb_true_iff in H as [H|H]; [now rewrite H|]);
      apply IH in H; now rewrite H, orb_true_r.
  - apply IH in H. now rewrite H, orb_true_r.
Qed.

(** The last substitution leaves no placeholder. *)
Lemma sub_token_no_pair : forall s prev k,
  ~ has_pair open_brace close_brace (sub_from placeholder_token prev s k).
Proof.
  induction s as [|a s IH]; intros prev k; simpl.
  - apply has_pair_empty.
  - destruct k as [|k]; [|apply IH].
    destruct (match_here placeholder_token prev "" (String a s)) as [[|n]|] eqn:E;
      try apply IH.
    + intros H. apply has_pair_cons in H as [[-> H] | H]; [|now apply IH in H].
      apply sub_from_contains in H.
      destruct (token_matches prev "" s H) as (n & Hn). congruence.
    + intros H. apply has_pair_cons in H as [[-> H] | H]; [|now apply IH in H].
      apply sub_from_contains in H.
      destruct (token_matches prev "" s H) as (n & Hn). congruence.
Qed.

Lemma remove_without_pair s :
  ~ has_pair open_brace close_brace s -> remove_empty_placeholders s = s.
Proof.
  intros H. unfold remove_empty_placeholders, re_sub_empty.
  rewrite (sub_from_no_pair asks_standalone _ H).
  rewrite (sub_from_no_pair asks_element _ H).
  rewrite (sub_from_no_pair asks_self_closing _ H).
  now rewrite (sub_from_no_pair asks_token _ H).
Qed.

(** *** A token on a line of its own *)

Lemma match_here_bol r prev cap s :
  match_here (Bol :: r) prev cap s = if at_bol prev then match_here r prev cap s else None.
Proof. reflexivity. Qed.

Lemma match_here_eol r prev cap s :
  match_here (Eol :: r) prev cap s = if at_eol s then match_here r prev cap s else None.
Proof. reflexivity. Qed.

Lemma match_here_star p r prev cap s :
  match_here (Star p :: r) prev cap s = star_loop p (match_here r) prev cap s.
Proof. reflexivity. Qed.

Lemma match_here_lit_cons c r prev cap a s :
  match_here (Lit c :: r) prev cap (String a s)
  = if Ascii.eqb a c then lift_S (match_here r (Some a) cap s) else None.
Proof. reflexivity. Qed.

Lemma match_here_nil prev cap s : match_here [] prev cap s = Some 0.
Proof. reflexivity. Qed.

(** The greedy loop takes a whole run when the rest matches after it. *)
Lemma star_loop_run p k : forall u v prev cap m,
  string_forallb p u = true -> stops_run p v = true ->
  k (last_char u prev) cap v = Some m ->
  star_loop p k prev cap (u +++ v) = Some (String.length u + m).
Proof.
  induction u as [|a u IH]; intros v prev cap m Hu Hv Hk; simpl in *.
  - destruct v as [|b v]; simpl in *; [assumption|].
    apply negb_true_iff in Hv. now rewrite Hv.
  - apply andb_true_iff in Hu as [Ha Hu]. rewrite Ha.
    now rewrite (IH v (Some a) cap m Hu Hv Hk).
Qed.

Lemma sub_from_skip r : forall u rest prev,
  sub_from r prev (u +++ rest) (String.length u) = sub_from r (last_char u prev) rest 0.
Proof. induction u as [|a u IH]; intros rest prev; simpl; [reflexivity | apply IH]. Qed.

(** A match at the current position deletes the matched text. *)
Lemma sub_from_match r a u rest prev :
  match_here r prev "" (String a u +++ rest) = Some (S (String.length u)) ->
  sub_from r prev (String a u +++ rest) 0 = sub_from r (last_char (String a u) prev) rest 0.
Proof.
  intros H. cbn [append sub_from last_char]. cbn [append] in H. rewrite H.
  apply sub_from_skip.
Qed.

Lemma sub_from_keep r a s prev :
  match_here r prev "" (String a s) = None ->
  sub_from r prev (String a s) 0 = String a (sub_from r (Some a) s 0).
Proof. intros H. cbn [sub_from]. now rewrite H. Qed.

Lemma is_space_newline : is_space newline = true.
Proof. reflexivity. Qed.

Lemma not_space_not_newline c : is_space c = false -> Ascii.eqb c newline = false.
Proof.
  intros H. destruct (Ascii.eqb c newline) eqn:E; [|reflexivity].
  apply Ascii.eqb_eq in E. subst c. discriminate.
Qed.

(** The standalone-line pattern at the start of [ind{name}rest], given
    what the trailing [\s*$] consumes of [rest]. *)
Lemma standalone_match ind name rest prev t :
  at_bol prev = true ->
  string_forallb is_space ind = true ->
  string_forallb (is_not "}") name = true ->
  star_loop is_space (match_here [Eol]) (Some close_brace) "" rest = Some t ->
  match_here standalone_line prev ""
    (ind +++ String open_brace (name +++ String close_brace rest))
  = Some (String.length ind + S (String.length name + S t)).
Proof.
  intros Hbol Hind Hname Htail. unfold standalone_line, placeholder_token.
  cbn [app]. rewrite match_here_bol, Hbol, match_here_star.
  apply star_loop_run; [assumption | reflexivity |].
  rewrite match_here_lit_cons. cbn [Ascii.eqb open_brace Bool.eqb]. cbn [lift_S].
  rewrite match_here_star.
  rewrite (star_loop_run (is_not "}") _ name (String close_brace rest) (Some open_brace) ""
             (m := S t)); [reflexivity | assumption | reflexivity |].
  rewrite match_here_lit_cons. cbn [Ascii.eqb close_brace Bool.eqb].
  rewrite match_here_star. fold close_brace. now rewrite Htail.
Qed.

Lemma length_append_string (a b : string) :
  String.length (a +++ b) = String.length a + String.length b.
Proof. induction a as [|x a IH]; simpl; [reflexivity | now rewrite IH]. Qed.

Lemma tail_all_space ws prev :
  string_forallb is_space ws = true ->
  star_loop is_space (match_here [Eol]) prev "" ws = Some (String.length ws).
Proof.
  intros H. rewrite <- (append_empty_r ws) at 1.
  rewrite (star_loop_run is_space _ ws "" prev "" (m := 0)); auto.
Qed.

Lemma tail_next_line d post prev :
  is_space d = false ->
  star_loop is_space (match_here [Eol]) prev "" (String newline (String d post)) = Some 0.
Proof.
  intros H. cbn [star_loop]. rewrite is_space_newline, H, !match_here_eol.
  cbn [at_eol]. now rewrite (not_space_not_newline _ H), Ascii.eqb_refl.
Qed.

Lemma sub_from_whole r s prev :
  match_here r prev "" s = Some (String.length s) -> sub_from r prev s 0 = "".
Proof.
  destruct s as [|a s]; [reflexivity|]. intros H. cbn [sub_from]. rewrite H.
  cbn [String.length]. rewrite <- (append_empty_r s) at 1. now rewrite sub_from_skip.
Qed.

(** A text that is nothing but a token with blanks around it is emptied. *)
Lemma remove_lone_token ind name trail :
  string_forallb is_space ind = true ->
  string_forallb (is_not "}") name = true ->
  string_forallb is_space trail = true ->
  remove_empty_placeholders
    (ind +++ String open_brace (name +++ String close_brace trail)) = "".
Proof.
  intros Hind Hname Htrail. unfold remove_empty_placeholders, re_sub_empty.
  rewrite (sub_from_whole standalone_line); [reflexivity|].
  rewrite (standalone_match ind name trail None (t := String.length trail));
    auto using tail_all_space.
  f_equal. rewrite length_append_string. cbn [String.length].
  rewrite length_append_string. reflexivity.
Qed.

(** The standalone-line pattern starts with blanks and an opening brace. *)
Lemma standalone_inv prev cap s n :
  match_here standalone_line prev cap s = Some n ->
  exists ws v, s = ws +++ String open_brace v /\ string_forallb is_space ws = true.
Proof.
  unfold standalone_line, placeholder_token. cbn [app].
  rewrite match_here_bol. destruct (at_bol prev); [|discriminate].
  rewrite match_here_star. intros H.
  apply star_loop_inv in H as (u & v & prev' & m & -> & Hu & Hk & _).
  destruct v as [|b v]; [discriminate|]. rewrite match_here_lit_cons in Hk.
  destruct (Ascii.eqb b "{") eqn:E; [|discriminate].
  apply Ascii.eqb_eq in E. subst b. now exists u, v.
Qed.

Lemma blank_prefix_clash c : is_space c = false -> c <> open_brace ->
  forall u rest ws v,
  contains_char open_brace u = false ->
  string_forallb is_space ws = true ->
  u +++ String c rest <> ws +++ String open_brace v.
Proof.
  intros Hc Hne. induction u as [|a u IH]; intros rest ws v Hu Hws H.
  - destruct ws as [|x ws]; simpl in H; inversion H; subst.
    + now apply Hne.
    + simpl in Hws. rewrite Hc in Hws. discriminate.
  - rewrite contains_cons in Hu. apply orb_false_iff in Hu as [Ha Hu].
    destruct ws as [|x ws]; simpl in H; inversion H; subst.
    + unfold open_brace in Ha. rewrite Ascii.eqb_refl in Ha. discriminate.
    + simpl in Hws. apply andb_true_iff in Hws as [_ Hws]. eapply IH; eauto.
Qed.

(** Before a character that is neither blank nor a brace, and with no
    brace in between, the standalone-line pattern does not match. *)
Lemma standalone_no_match c u rest prev :
  is_space c = false -> c <> open_brace -> contains_char open_brace u = false ->
  match_here standalone_line prev "" (u +++ String c rest) = None.
Proof.
  intros Hc Hne Hu. destruct (match_here standalone_line _ _ _) eqn:E; [|reflexivity].
  apply standalone_inv in E as (ws & v & E & Hws).
  exfalso. eapply blank_prefix_clash; eauto.
Qed.

Lemma sub_standalone_prefix c rest : is_space c = false -> c <> open_brace ->
  forall u prev,
  contains_char open_brace u = false ->
  sub_from standalone_line prev (u +++ String c rest) 0
  = u +++ String c (sub_from standalone_line (Some c) rest 0).
Proof.
  intros Hc Hne. induction u as [|a u IH]; intros prev Hu.
  - cbn [append]. apply sub_from_keep.
    now apply (@standalone_no_match c "" rest prev).
  - cbn [append]. rewrite sub_from_keep.
    + f_equal. apply IH. rewrite contains_cons in Hu. now apply orb_false_iff in Hu.
    + now apply (@standalone_no_match c (String a u) rest prev).
Qed.

Lemma no_open_no_pair d s :
  contains_char open_brace s = false -> ~ has_pair open_brace d s.
Proof. intros H Hp. apply has_pair_open in Hp. congruence. Qed.

(** A token alone on its line, between two lines that end and start with
    text: the first substitution empties the line. *)
Lemma sub_standalone_line pre c ind name d post :
  contains_char open_brace pre = false -> is_space c = false -> c <> open_brace ->
  string_forallb is_space ind = true ->
  string_forallb (is_not "}") name = true ->
  is_space d = false -> contains_char open_brace (String d post) = false ->
  re_sub_empty standalone_line
    (pre +++ String c (String newline
       (ind +++ String open_brace (name +++ String close_brace
          (String newline (String d post))))))
  = pre +++ String c (String newline (String newline (String d post))).
Proof.
  intros Hpre Hc Hne Hind Hname Hd Hpost. unfold re_sub_empty.
  rewrite sub_standalone_prefix by assumption. do 2 f_equal.
  rewrite sub_from_keep.
  2:{ unfold standalone_line. cbn [app]. rewrite match_here_bol. cbn [at_bol].
      now rewrite (not_space_not_newline _ Hc). }
  f_equal.
  set (rest := String newline (String d post)).
  assert (Hm : match_here standalone_line (Some newline) ""
                 (ind +++ String open_brace (name +++ String close_brace rest))
               = Some (String.length ind + S (String.length name + S 0))).
  { apply standalone_match; auto. apply tail_next_line; assumption. }
  assert (Hcut : forall prev,
             sub_from standalone_line prev
               (ind +++ String open_brace (name +++ String close_brace rest))
               (String.length ind + S (String.length name + 1))
             = sub_from standalone_line (Some close_brace) rest 0).
  { intros prev.
    replace (ind +++ String open_brace (name +++ String close_brace rest))
      with ((ind +++ String open_brace (name +++ String close_brace "")) +++ rest)
      by (rewrite append_assoc; cbn [append]; rewrite append_assoc; reflexivity).
    replace (String.length ind + S (String.length name + 1))
      with (String.length (ind +++ String open_brace (name +++ String close_brace "")))
      by (rewrite length_append_string; cbn [String.length];
          rewrite length_append_string; reflexivity).
    rewrite sub_from_skip. f_equal.
    clear. revert prev. induction ind as [|x ind IH]; intros prev; cbn [append last_char].
    - generalize (Some open_brace). induction name as [|y name IHn]; intros o;
        cbn [append last_char]; [reflexivity | apply IHn].
    - apply IH. }
  destruct ind as [|x ind].
  - cbn [append] in *. cbn [sub_from]. rewrite Hm. cbn [String.length Nat.add].
    specialize (Hcut (Some newline)). cbn [String.length Nat.add sub_from] in Hcut.
    rewrite Hcut. unfold rest. rewrite sub_from_keep.
    2:{ unfold standalone_line. cbn [app]. now rewrite match_here_bol. }
    f_equal. apply (sub_from_no_pair asks_standalone). now apply no_open_no_pair.
  - cbn [append] in *. cbn [sub_from]. rewrite Hm. cbn [String.length Nat.add].
    specialize (Hcut (Some newline)). cbn [String.length Nat.add sub_from] in Hcut.
    rewrite Hcut. unfold rest. rewrite sub_from_keep.
    2:{ unfold standalone_line. cbn [app]. now rewrite match_here_bol. }
    f_equal. apply (sub_from_no_pair asks_standalone). now apply no_open_no_pair.
Qed.

End CleanupFacts.

(** ** A token alone on its line *)

Module TokenLineFacts.
Import Re XMLDOMBuilder CleanupFacts.

Lemma blank_space c : blank c = true -> is_space c = true.
Proof. unfold blank. intros H. now apply andb_true_iff in H. Qed.

Lemma blank_not_newline c : blank c = true -> Ascii.eqb c newline = false.
Proof. unfold blank. intros H. apply andb_true_iff in H as [_ H]. now apply negb_true_iff. Qed.

Lemma blank_all_space : forall f, string_forallb blank f = true -> string_forallb is_space f = true.
Proof.
  induction f as [|x f IH]; simpl; intros H; [reflexivity|].
  apply andb_true_iff in H as [Hx Hf]. now rewrite (blank_space _ Hx), IH.
Qed.

(** The greedy loop over a run, when the rest matches after the whole
    run: whatever follows the run. *)
Lemma star_loop_prefix p k : forall u v prev cap m,
  string_forallb p u = true ->
  star_loop p k (last_char u prev) cap v = Some m ->
  star_loop p k prev cap (u +++ v) = Some (String.length u + m).
Proof.
  induction u as [|a u IH]; intros v prev cap m Hu Hk; [exact Hk|].
  cbn [string_forallb] in Hu. apply andb_true_iff in Hu as [Ha Hu].
  cbn [append star_loop String.length last_char] in *. rewrite Ha.
  now rewrite (IH v (Some a) cap m Hu Hk).
Qed.

(** Inside the indentation of a line that is not blank, the end of a line
    is not reached. *)
Lemma tail_blocked d post : is_space d = false ->
  forall f prev, string_forallb blank f = true ->
  star_loop is_space (match_here [Eol]) prev "" (f +++ String d post) = None.
Proof.
  intros Hd. induction f as [|x f IH]; intros prev Hf.
  - cbn [append star_loop]. rewrite Hd, match_here_eol. cbn [at_eol].
    now rewrite (not_space_not_newline _ Hd).
  - cbn [string_forallb] in Hf. apply andb_true_iff in Hf as [Hx Hf].
    cbn [append star_loop]. rewrite (blank_space _ Hx), (IH _ Hf), match_here_eol.
    cbn [at_eol]. now rewrite (blank_not_newline _ Hx).
Qed.

(** After the trailing blanks of the token line the line ends. *)
Lemma tail_opens after prev : opens_line after ->
  star_loop is_space (match_here [Eol]) prev "" after = Some 0.
Proof.
  intros [-> | (f & d & post & -> & Hf & Hd)]; [reflexivity|].
  cbn [nl append star_loop]. rewrite is_space_newline, (@tail_blocked d post Hd f _ Hf).
  rewrite match_here_eol. cbn [at_eol]. now rewrite Ascii.eqb_refl.
Qed.

Lemma tail_general trail after prev :
  string_forallb is_space trail = true -> opens_line after ->
  star_loop is_space (match_here [Eol]) prev "" (trail +++ after)
  = Some (String.length trail).
Proof.
  intros Ht Ha.
  rewrite (star_loop_prefix is_space _ trail after prev "" (m := 0)); auto using tail_opens.
Qed.

(** A match of a text that is not empty deletes it. *)
Lemma sub_from_match_whole r m rest prev :
  m <> "" ->
  match_here r prev "" (m +++ rest) = Some (String.length m) ->
  sub_from r prev (m +++ rest) 0 = sub_from r (last_char m prev) rest 0.
Proof.
  destruct m as [|a u]; [contradiction|]. intros _ H. now apply sub_from_match.
Qed.

(** The first substitution at the start of the token line: blanks, token
    and trailing blanks go, what follows the line is kept. *)
Lemma sub_token_line prev ind name trail after :
  at_bol prev = true ->
  string_forallb is_space ind = true ->
  string_forallb (is_not "}") name = true ->
  string_forallb is_space trail = true ->
  opens_line after ->
  ~ has_pair open_brace close_brace after ->
  sub_from standalone_line prev
    (ind +++ String open_brace (name +++ String close_brace (trail +++ after))) 0
  = after.
Proof.
  intros Hbol Hind Hname Htrail Hafter Hclean.
  pose proof (@standalone_match ind name (trail +++ after) prev (String.length trail)
                Hbol Hind Hname
                (@tail_general trail after (Some close_brace) Htrail Hafter)) as Hm.
  set (m := ind +++ String open_brace (name +++ String close_brace trail)).
  assert (Hsplit : ind +++ String open_brace (name +++ String close_brace (trail +++ after))
                   = m +++ after).
  { unfold m. rewrite append_assoc. cbn [append]. now rewrite append_assoc. }
  assert (Hlen : String.length m
                 = String.length ind + S (String.length name + S (String.length trail))).
  { unfold m. rewrite length_append_string. cbn [String.length].
    rewrite length_append_string. reflexivity. }
  rewrite Hsplit in *. rewrite <- Hlen in Hm.
  rewrite sub_from_match_whole; [| |exact Hm].
  - now apply (ReFacts.sub_from_no_pair asks_standalone).
  - unfold m. destruct ind; discriminate.
Qed.

(** Where no line starts, the standalone-line pattern does not match. *)
Lemma sub_not_bol rest : forall a prev,
  at_bol prev = false -> string_forallb blank a = true ->
  sub_from standalone_line prev (a +++ String newline rest) 0
  = a +++ String newline (sub_from standalone_line (Some newline) rest 0).
Proof.
  assert (Hno : forall prev s, at_bol prev = false ->
                  match_here standalone_line prev "" s = None).
  { intros prev s H. unfold standalone_line. cbn [app]. now rewrite match_here_bol, H. }
  induction a as [|x a IH]; intros prev Hprev Ha.
  - cbn [append]. now rewrite sub_from_keep by auto.
  - cbn [string_forallb] in Ha. apply andb_true_iff in Ha as [Hx Ha].
    cbn [append]. rewrite sub_from_keep by auto. f_equal.
    apply IH; [|assumption]. cbn [at_bol]. now apply blank_not_newline.
Qed.

(** Up to the start of the token line the text is kept, and the scan
    arrives there at the start of a line. *)
Lemma sub_before before rest :
  closes_line before -> contains_char open_brace before = false ->
  exists prev,
    at_bol prev = true
    /\ sub_from standalone_line None (before +++ rest) 0
       = before +++ sub_from standalone_line prev rest 0.
Proof.
  intros [-> | (pre & c & a & -> & Hc & Ha)] Hno.
  - exists None. auto.
  - exists (Some newline). split; [reflexivity|].
    rewrite contains_append, contains_cons in Hno.
    apply orb_false_iff in Hno as [Hpre Hno]. apply orb_false_iff in Hno as [Hne _].
    assert (Hne' : c <> open_brace)
      by (intros ->; now rewrite Ascii.eqb_refl in Hne).
    repeat (rewrite append_assoc; cbn [nl append]).
    rewrite sub_standalone_prefix by assumption. do 2 f_equal.
    apply sub_not_bol; [|assumption].
    cbn [at_bol]. now apply not_space_not_newline.
Qed.

Lemma no_pair_append c d : forall u v,
  contains_char c u = false -> ~ has_pair c d v -> ~ has_pair c d (u +++ v).
Proof.
  induction u as [|a u IH]; intros v Hu Hv; [exact Hv|].
  rewrite contains_cons in Hu. apply orb_false_iff in Hu as [Ha Hu].
  cbn [append]. intros H. apply has_pair_cons in H as [[-> _] | H].
  - now rewrite Ascii.eqb_refl in Ha.
  - now apply (IH v Hu Hv).
Qed.

(** The cleanup of a text whose only placeholder is a token alone on its
    line. *)
Lemma remove_token_line before ind name trail after :
  contains_char open_brace before = false -> closes_line before ->
  string_forallb is_space ind = true ->
  string_forallb (is_not "}") name = true ->
  string_forallb is_space trail = true ->
  opens_line after -> ~ has_pair open_brace close_brace after ->
  remove_empty_placeholders
    (before +++ ind +++ String open_brace (name +++ String close_brace (trail +++ after)))
  = before +++ after.
Proof.
  intros Hno Hbefore Hind Hname Htrail Hafter Hclean.
  unfold remove_empty_placeholders, re_sub_empty.
  destruct (sub_before
              (ind +++ String open_brace (name +++ String close_brace (trail +++ after)))
              Hbefore Hno) as (prev & Hbol & ->).
  rewrite (@sub_token_line prev ind name trail after Hbol Hind Hname Htrail Hafter Hclean).
  pose proof (@no_pair_append open_brace close_brace before after Hno Hclean) as Hout.
  rewrite (ReFacts.sub_from_no_pair asks_element) by exact Hout.
  rewrite (ReFacts.sub_from_no_pair asks_self_closing) by exact Hout.
  now rewrite (ReFacts.sub_from_no_pair asks_token) by exact Hout.
Qed.

End TokenLineFacts.

Import XMLDOMBuilder.

(** C4.  Placeholder cleanup has the placeholder-free texts as fixed
    points: a text in which the token pattern matches nowhere is returned
    unchanged, and the text returned never contains a placeholder.  When
    the only placeholder is a token [{unused}] alone on its line, the
    token goes together with the white space around it: in
    [before ++ ind ++ {unused} ++ trail ++ after], where [before] is empty
    or ends with the line feed of a line that is not blank, [after] is
    empty or starts with the line feed before a line that is not blank,
    and [ind] and [trail] are any white space (line feeds, and so blank
    lines, included), the result is [before ++ after]; the line of the
    token is left empty.  This covers the token on the first, on the last
    and on the only line, beside blank lines and beside indented lines.  A
    text that consists of this token and blanks only becomes empty. *)
Theorem remove_empty_placeholders_fixed_point :
  (forall s, has_placeholder s = false -> remove_empty_placeholders s = s)
  /\ (forall s, has_placeholder (remove_empty_placeholders s) = false)
  /\ (forall before ind trail after,
        contains_char "{" before = false -> closes_line before ->
        string_forallb is_space ind = true ->
        string_forallb is_space trail = true ->
        opens_line after -> has_placeholder after = false ->
        remove_empty_placeholders (before +++ ind +++ "{unused}" +++ trail +++ after)
        = before +++ after)
  /\ (forall ind trail,
        string_forallb is_space ind = true -> string_forallb is_space trail = true ->
        remove_empty_placeholders (ind +++ "{unused}" +++ trail) = "").
Proof.
  repeat split.
  - intros s H. apply CleanupFacts.remove_without_pair.
    now apply CleanupFacts.no_placeholder_iff.
  - intros s. apply CleanupFacts.no_placeholder_iff.
    unfold remove_empty_placeholders, Re.re_sub_empty. apply CleanupFacts.sub_token_no_pair.
  - intros before ind trail after Hno Hbefore Hind Htrail Hafter Hclean.
    apply CleanupFacts.no_placeholder_iff in Hclean.
    exact (@TokenLineFacts.remove_token_line before ind "unused" trail after
             Hno Hbefore Hind eq_refl Htrail Hafter Hclean).
  - intros ind trail Hind Htrail.
    exact (@CleanupFacts.remove_lone_token ind "unused" trail Hind eq_refl Htrail).
Qed.

Lemma remove_empty_placeholders_fixed_point_witness :
  (has_placeholder "<a>text</a>" = false
   /\ remove_empty_placeholders "<a>text</a>" = "<a>text</a>")
  /\ remove_empty_placeholders
       ("<a>" +++ nl +++ "    {unused}" +++ nl +++ "    <b/>" +++ nl +++ "</a>")
     = "<a>" +++ nl +++ nl +++ "    <b/>" +++ nl +++ "</a>"
  /\ remove_empty_placeholders ("  {unused} ") = "".
Proof.
  destruct remove_empty_placeholders_fixed_point as (H1 & _ & H3 & H4).
  split; [split; [reflexivity | apply H1; reflexivity] | split].
  - apply (H3 ("<a>" +++ nl) "    " "" (nl +++ "    <b/>" +++ nl +++ "</a>"));
      try reflexivity.
    + right. exists "<a", ">"%char, "". repeat split.
    + right. exists "    ", "<"%char, ("b/>" +++ nl +++ "</a>"). repeat split.
  - apply (H4 "  " " "); reflexivity.
Defined.

(** ** The validity flag and the error list *)

Module Invariant.

Lemma advances_refl r : advances r r.
Proof. left. auto. Qed.

Lemma advances_trans r1 r2 r3 : advances r1 r2 -> advances r2 r3 -> advances r1 r3.
Proof.
  intros [[H1 H2] | H] [[H3 H4] | H'].
  - left. split; congruence.
  - now right.
  - right. destruct H. split; congruence.
  - now right.
Qed.

Lemma advances_error msg r : advances r (set_invalid (append_error msg r)).
Proof. right. simpl. split; [reflexivity|]. now destruct (errors r). Qed.

Lemma advances_except msg r : advances r (append_error msg (set_invalid r)).
Proof. right. simpl. split; [reflexivity|]. now destruct (errors r). Qed.

Lemma advances_warning msg r : advances r (append_warning msg r).
Proof. left. auto. Qed.

Lemma advances_fold_left {A} (f : ValidationResult -> A -> ValidationResult) :
  (forall r x, advances r (f r x)) -> forall l r, advances r (fold_left f l r).
Proof.
  intros Hf. induction l as [|x l IH]; intros r; simpl.
  - apply advances_refl.
  - eapply advances_trans; [apply Hf | apply IH].
Qed.

Lemma advances_consistent r r' : consistent r -> advances r r' -> consistent r'.
Proof.
  unfold consistent. intros Hr [[H1 H2] | [H1 H2]].
  - now rewrite H1, H2.
  - rewrite H1. split; [discriminate | contradiction].
Qed.

Lemma consistent_new : consistent new_result.
Proof. unfold consistent. simpl. tauto. Qed.

Lemma consistent_from_new r : advances new_result r -> consistent r.
Proof. apply advances_consistent, consistent_new. Qed.

Create HintDb advances.
#[export] Hint Resolve advances_refl advances_error advances_except advances_warning : advances.

(** Splits the result of a validator into its steps. *)
Ltac advance :=
  repeat first
    [ apply advances_refl
    | apply advances_error
    | apply advances_except
    | apply advances_warning
    | solve [auto with advances]
    | match goal with
      | |- advances _ (set_invalid (append_error _ _)) =>
          eapply advances_trans; [|apply advances_error]
      | |- advances _ (append_warning _ _) =>
          eapply advances_trans; [|apply advances_warning]
      | |- advances _ (fold_left _ _ _) =>
          eapply advances_trans; [|apply advances_fold_left; intros]
      | |- advances _ (if ?b then _ else _) => destruct b
      | |- advances _ (match ?x with _ => _ end) => destruct x
      | |- advances _ (let (_, _) := ?x in _) => destruct x
      | |- advances _ _ => eapply advances_trans; [|solve [auto with advances]]
      end ].

Section Structural.
Import ET StructuralValidator.

Variable transport_order_rules : list (string * FieldRule).
Variable float_accepts : string -> bool.
Variable str_of_list : list string -> string.

Lemma required_elements_advances e r : advances r (validate_required_elements e r).
Proof. unfold validate_required_elements. advance. Qed.

Lemma stop_id_structure_advances e r : advances r (validate_stop_id_structure e r).
Proof. unfold validate_stop_id_structure. advance. Qed.
Hint Resolve stop_id_structure_advances : advances.

Lemma order_details_advances e r : advances r (validate_order_details e r).
Proof. unfold validate_order_details. advance. Qed.
Hint Resolve order_details_advances : advances.

Lemma location_structure_advances e n r : advances r (validate_location_structure e n r).
Proof. unfold validate_location_structure. advance. Qed.
Hint Resolve location_structure_advances : advances.

Lemma period_bound_advances b w n r : advances r (validate_period_bound b w n r).
Proof. unfold validate_period_bound. advance. Qed.
Hint Resolve period_bound_advances : advances.

Lemma date_time_period_advances e n r : advances r (validate_date_time_period e n r).
Proof. unfold validate_date_time_period. advance. Qed.
Hint Resolve date_time_period_advances : advances.

Lemma stop_advances i e ids r : advances r (snd (validate_stop i e ids r)).
Proof.
  unfold validate_stop.
  destruct (or_find (find (ns +++ "id") e) (find "id" e)) as [e0|];
    [destruct (text_empty e0); [|destruct (mem_string (text_str (text e0)) ids)]|];
    cbn [snd]; advance.
Qed.


Lemma stops_from_advances : forall l i ids r, advances r (validate_stops_from i l ids r).
Proof.
  induction l as [|e l IH]; intros i ids r; simpl.
  - apply advances_refl.
  - pose proof (stop_advances i e ids r) as H.
    destruct (validate_stop i e ids r) as [ids' r']. simpl in H.
    eapply advances_trans; [exact H | apply IH].
Qed.

Lemma stops_advances l r : advances r (validate_stops l r).
Proof. apply stops_from_advances. Qed.
Hint Resolve required_elements_advances stops_advances : advances.

Lemma element_structure_advances e r : advances r (validate_element_structure e r).
Proof. unfold validate_element_structure. advance. Qed.
Hint Resolve element_structure_advances : advances.

Lemma xml_structure_consistent doc : consistent (validate_xml_structure doc).
Proof. apply consistent_from_new. unfold validate_xml_structure. advance. Qed.

Lemma apply_field_validation_advances f v rules r :
  advances r (apply_field_validation float_accepts str_of_list f v rules r).
Proof. unfold apply_field_validation. advance. Qed.
Hint Resolve apply_field_validation_advances : advances.

Lemma transport_order_fields_advances e r :
  advances r (validate_transport_order_fields transport_order_rules float_accepts
                str_of_list e r).
Proof. unfold validate_transport_order_fields. advance. Qed.

Lemma parameter_format_advances e r : advances r (validate_parameter_format e r).
Proof. unfold validate_parameter_format. advance. Qed.
Hint Resolve parameter_format_advances : advances.

Lemma parameter_formats_advances e r : advances r (validate_parameter_formats e r).
Proof. unfold validate_parameter_formats. advance. Qed.
Hint Resolve transport_order_fields_advances parameter_formats_advances : advances.

Lemma field_formats_consistent doc :
  consistent (validate_field_formats transport_order_rules float_accepts str_of_list doc).
Proof. apply consistent_from_new. unfold validate_field_formats. advance. Qed.

Lemma stop_id_reference_advances kind ids r e :
  advances r (check_stop_id_reference kind ids r e).
Proof. unfold check_stop_id_reference. advance. Qed.
Hint Resolve stop_id_reference_advances : advances.

Lemma stop_id_references_advances e ids r :
  advances r (validate_stop_id_references e ids r).
Proof. unfold validate_stop_id_references. advance. Qed.
Hint Resolve stop_id_references_advances : advances.

Lemma stop_references_consistent doc : consistent (validate_stop_references doc).
Proof. apply consistent_from_new. unfold validate_stop_references. advance. Qed.

End Structural.

Section Business.
Import ET BusinessValidator.

Variable transport_rules : list (string * TypeRules).
Variable datetime : Type.
Variable fromisoformat : string -> option datetime.
Variable datetime_lt : datetime -> datetime -> option bool.

Lemma stop_counts_advances e t rules r : advances r (validate_stop_counts e t rules r).
Proof. unfold validate_stop_counts. advance. Qed.

Lemma ocean_fixed_values_advances e rules r :
  advances r (validate_ocean_fixed_values e rules r).
Proof. unfold validate_ocean_fixed_values. advance. Qed.

Lemma required_parameters_advances e l r :
  advances r (validate_required_parameters e l r).
Proof. unfold validate_required_parameters. advance. Qed.

Lemma mandatory_fixed_advances e l r :
  advances r (validate_mandatory_fixed_parameters e l r).
Proof. unfold validate_mandatory_fixed_parameters. advance. Qed.
Hint Resolve stop_counts_advances ocean_fixed_values_advances required_parameters_advances
  mandatory_fixed_advances : advances.

Lemma parameter_restrictions_advances e t rules r :
  advances r (validate_parameter_restrictions e t rules r).
Proof. unfold validate_parameter_restrictions. advance. Qed.

Lemma order_item_advances rules i e r : advances r (validate_order_item rules i e r).
Proof. unfold validate_order_item. advance. Qed.

Lemma order_items_from_advances rules :
  forall l i r, advances r (validate_order_items_from rules i l r).
Proof.
  induction l as [|e l IH]; intros i r; simpl.
  - apply advances_refl.
  - eapply advances_trans; [apply order_item_advances | apply IH].
Qed.
Hint Resolve parameter_restrictions_advances order_items_from_advances : advances.

Lemma order_items_rules_advances e rules r :
  advances r (validate_order_items_rules e rules r).
Proof. unfold validate_order_items_rules. advance. Qed.
Hint Resolve order_items_rules_advances : advances.

Lemma complex_road_rules_advances e rules r :
  advances r (validate_complex_road_rules e rules r).
Proof. unfold validate_complex_road_rules. advance. Qed.
Hint Resolve complex_road_rules_advances : advances.

Lemma transport_specific_rules_advances e t rules r :
  advances r (validate_transport_specific_rules e t rules r).
Proof. unfold validate_transport_specific_rules. advance. Qed.
Hint Resolve transport_specific_rules_advances : advances.

Lemma transport_type_rules_consistent doc t :
  consistent (validate_transport_type_rules transport_rules doc t).
Proof. apply consistent_from_new. unfold validate_transport_type_rules. advance. Qed.

Lemma carrier_creditor_advances e r :
  advances r (validate_carrier_creditor_consistency e r).
Proof. unfold validate_carrier_creditor_consistency. advance. Qed.

Lemma date_sequence_advances e r r' :
  validate_date_sequence fromisoformat datetime_lt e r = Returned r' -> advances r r'.
Proof.
  unfold validate_date_sequence. intros H.
  destruct (find "stops" e); [|inversion H; apply advances_refl].
  destruct (out_of_sequence datetime_lt (stop_dates fromisoformat e0)) as [[|]|];
    inversion H; advance.
Qed.

Lemma read_indices_advances :
  forall l indices r, advances r (snd (read_indices l indices r)).
Proof.
  induction l as [|e l IH]; intros indices r; simpl.
  - apply advances_refl.
  - destruct (find "index" e) as [ie|]; [|apply IH].
    destruct (negb (text_empty ie)); [|apply IH].
    destruct (py_int (text_str (text ie))); [apply IH|].
    eapply advances_trans; [apply advances_error | apply IH].
Qed.

Lemma stop_index_sequence_advances e r :
  advances r (validate_stop_index_sequence e r).
Proof.
  unfold validate_stop_index_sequence.
  destruct (find "stops" e) as [stops|]; [|apply advances_refl].
  pose proof (read_indices_advances (findall "stop" stops) [] r) as H.
  destruct (read_indices (findall "stop" stops) [] r) as [indices r']. simpl in H.
  eapply advances_trans; [exact H|]. advance.
Qed.

Lemma cross_field_consistent doc r :
  validate_cross_field_consistency fromisoformat datetime_lt doc = Returned r ->
  consistent r.
Proof.
  unfold validate_cross_field_consistency. intros H. apply consistent_from_new.
  destruct doc as [msg|root].
  - inversion H. advance.
  - destruct (find_descendant (ns +++ "transport_order") root) as [e|].
    + destruct (validate_date_sequence fromisoformat datetime_lt e
                  (validate_carrier_creditor_consistency e new_result)) as [r1|] eqn:E;
        [|discriminate].
      inversion H. apply date_sequence_advances in E.
      eapply advances_trans; [apply carrier_creditor_advances|].
      eapply advances_trans; [exact E|]. apply stop_index_sequence_advances.
    + inversion H. advance.
Qed.

Lemma ocean_parameter_advances e r : advances r (validate_ocean_parameter e r).
Proof. unfold validate_ocean_parameter. advance. Qed.
Hint Resolve ocean_parameter_advances : advances.

Lemma ocean_completeness_consistent doc : consistent (validate_ocean_completeness doc).
Proof. apply consistent_from_new. unfold validate_ocean_completeness. advance. Qed.

End Business.

(** Taking over the outcome of a consistent pass keeps the summary
    consistent. *)
Lemma absorb_consistent part result :
  consistent part -> consistent result -> consistent (MainTool.absorb part result).
Proof.
  unfold consistent, MainTool.absorb. intros Hp Hr.
  destruct (is_valid part) eqn:E; simpl.
  - exact Hr.
  - split; [discriminate|]. intros H. apply app_eq_nil in H as [_ H].
    apply Hp in H. discriminate.
Qed.

End Invariant.

(** C1.  In the result of each validation pass (structure, field formats,
    stop references, transport-type rules, cross-field consistency, ocean
    completeness) and in the summary of the aggregated validation, the
    flag [is_valid] is true if and only if the list of errors is empty,
    whatever the warnings are. *)
Theorem validation_result_is_valid_iff_no_errors
    (transport_order_rules : list (string * StructuralValidator.FieldRule))
    (float_accepts : string -> bool) (str_of_list : list string -> string)
    (transport_rules : list (string * BusinessValidator.TypeRules))
    (datetime : Type) (fromisoformat : string -> option datetime)
    (datetime_lt : datetime -> datetime -> option bool) (str_of_exn : exn -> string)
    (xml_content : ET.parsed) (transport_type : string) :
  consistent (StructuralValidator.validate_xml_structure xml_content)
  /\ consistent (StructuralValidator.validate_field_formats transport_order_rules
                   float_accepts str_of_list xml_content)
  /\ consistent (StructuralValidator.validate_stop_references xml_content)
  /\ consistent (BusinessValidator.validate_transport_type_rules transport_rules
                   xml_content transport_type)
  /\ (forall r,
        BusinessValidator.validate_cross_field_consistency fromisoformat datetime_lt
          xml_content = Returned r ->
        consistent r)
  /\ consistent (BusinessValidator.validate_ocean_completeness xml_content)
  /\ (forall report,
        MainTool.validate_transport_order_xml transport_order_rules float_accepts
          str_of_list transport_rules fromisoformat datetime_lt str_of_exn xml_content
          transport_type = MainTool.Report report ->
        consistent (MainTool.summary report)).
Proof.
  split; [apply Invariant.xml_structure_consistent|].
  split; [apply Invariant.field_formats_consistent|].
  split; [apply Invariant.stop_references_consistent|].
  split; [apply Invariant.transport_type_rules_consistent|].
  split; [intros r; apply Invariant.cross_field_consistent|].
  split; [apply Invariant.ocean_completeness_consistent|].
  intros report. unfold MainTool.validate_transport_order_xml.
  destruct (BusinessValidator.validate_cross_field_consistency fromisoformat datetime_lt
              xml_content) as [cross|] eqn:E; [|discriminate].
  intros H. inversion H. subst. cbn [MainTool.summary].
  apply Invariant.cross_field_consistent in E.
  assert (Hsum : consistent
            (MainTool.absorb cross
               (MainTool.absorb
                  (BusinessValidator.validate_transport_type_rules transport_rules
                     xml_content transport_type)
                  (MainTool.absorb (StructuralValidator.validate_stop_references xml_content)
                     (MainTool.absorb
                        (StructuralValidator.validate_field_formats transport_order_rules
                           float_accepts str_of_list xml_content)
                        (MainTool.absorb
                           (StructuralValidator.validate_xml_structure xml_content)
                           new_result))))))
    by (repeat apply Invariant.absorb_consistent;
        auto using Invariant.xml_structure_consistent, Invariant.field_formats_consistent,
          Invariant.stop_references_consistent, Invariant.transport_type_rules_consistent,
          Invariant.consistent_new).
  destruct (String.eqb transport_type "ocean_visibility").
  - apply Invariant.absorb_consistent;
      [apply Invariant.ocean_completeness_consistent | exact Hsum].
  - exact Hsum.
Qed.

(** ** Lookups below [transport_order] *)

Import Samples.

(** C7.  On a well-formed document that uses bare tag names throughout,
    the structural pass finds [transport_order] through its second lookup
    and accepts the document, whereas the field-format, stop-reference,
    business and cross-field passes look for the namespaced tag only and
    reject the same document with "No transport_order element found". *)
Theorem bare_document_rejected_by_later_passes
    (transport_order_rules : list (string * StructuralValidator.FieldRule))
    (float_accepts : string -> bool) (str_of_list : list string -> string)
    (transport_rules : list (string * BusinessValidator.TypeRules))
    (datetime : Type) (fromisoformat : string -> option datetime)
    (datetime_lt : datetime -> datetime -> option bool) (transport_type : string) :
  let doc := ET.Parsed (bare_document ["0"; "1"] "0000203512" []) in
  StructuralValidator.validate_xml_structure doc = new_result
  /\ StructuralValidator.validate_field_formats transport_order_rules float_accepts
       str_of_list doc = not_found
  /\ StructuralValidator.validate_stop_references doc = not_found
  /\ BusinessValidator.validate_transport_type_rules transport_rules doc transport_type
     = not_found
  /\ BusinessValidator.validate_cross_field_consistency fromisoformat datetime_lt doc
     = Returned not_found.
Proof. repeat split; reflexivity. Qed.

(** Without a namespaced [transport_order] the four later passes stop at
    once, whatever else the document contains. *)
Lemma later_passes_need_namespace
    (transport_order_rules : list (string * StructuralValidator.FieldRule))
    (float_accepts : string -> bool) (str_of_list : list string -> string)
    (transport_rules : list (string * BusinessValidator.TypeRules))
    (datetime : Type) (fromisoformat : string -> option datetime)
    (datetime_lt : datetime -> datetime -> option bool) (transport_type : string)
    (root : ET.Element) :
  ET.find_descendant (ns +++ "transport_order") root = None ->
  StructuralValidator.validate_field_formats transport_order_rules float_accepts
    str_of_list (ET.Parsed root) = not_found
  /\ StructuralValidator.validate_stop_references (ET.Parsed root) = not_found
  /\ BusinessValidator.validate_transport_type_rules transport_rules (ET.Parsed root)
       transport_type = not_found
  /\ BusinessValidator.validate_cross_field_consistency fromisoformat datetime_lt
       (ET.Parsed root) = Returned not_found.
Proof.
  intros H.
  unfold StructuralValidator.validate_field_formats,
    StructuralValidator.validate_stop_references,
    BusinessValidator.validate_transport_type_rules,
    BusinessValidator.validate_cross_field_consistency.
  rewrite H. repeat split; reflexivity.
Qed.

(** C3.  In a document under the default namespace the stops are not
    found by cross-field validation: with stop indices 0, 1, 3 and with
    stop indices 1, 2 it returns a valid result without errors.  The index
    check itself reports both defects once it is given the stops, as on a
    document whose inner elements carry bare tags. *)
Theorem namespaced_stop_indices_not_checked
    (datetime : Type) (fromisoformat : string -> option datetime)
    (datetime_lt : datetime -> datetime -> option bool) :
  BusinessValidator.validate_cross_field_consistency fromisoformat datetime_lt
    (ET.Parsed (namespaced_document ["0"; "1"; "3"] "0000203512" [])) = Returned new_result
  /\ BusinessValidator.validate_cross_field_consistency fromisoformat datetime_lt
       (ET.Parsed (namespaced_document ["1"; "2"] "0000203512" [])) = Returned new_result
  /\ BusinessValidator.validate_cross_field_consistency no_datetime Z_lt
       (ET.Parsed (prefixed_document ["0"; "1"; "3"] "0000203512" []))
     = Returned (mkResult false ["Stop indices should be sequential"] [])
  /\ BusinessValidator.validate_cross_field_consistency no_datetime Z_lt
       (ET.Parsed (prefixed_document ["1"; "2"] "0000203512" []))
     = Returned (mkResult false ["Stop indices should start from 0"] []).
Proof. repeat split; reflexivity. Qed.

(** C9.  In a document under the default namespace whose carrier creditor
    number is "0000203512" and whose parameter
    [custom.preassignedCarrierCreditorNumber] is "0000999999", cross-field
    validation finds neither element and returns no warning.  On a document
    whose inner elements carry bare tags the same values give the warning
    and leave the flag and the errors alone. *)
Theorem namespaced_creditor_mismatch_not_warned
    (datetime : Type) (fromisoformat : string -> option datetime)
    (datetime_lt : datetime -> datetime -> option bool) :
  BusinessValidator.validate_cross_field_consistency fromisoformat datetime_lt
    (ET.Parsed (namespaced_document ["0"; "1"] "0000203512" creditor_parameters))
  = Returned new_result
  /\ BusinessValidator.validate_cross_field_consistency no_datetime Z_lt
       (ET.Parsed (prefixed_document ["0"; "1"] "0000203512" creditor_parameters))
     = Returned (mkResult true [] [BusinessValidator.carrier_inconsistency_warning]).
Proof. split; reflexivity. Qed.

(** ** Formats *)

(** C2.  The input validation of Complex Road leaves a carrier creditor
    number of five digits unflagged, and likewise one of ten letters: the
    error is added only to a value that is both not all digits and not ten
    characters long. *)
Theorem creditor_number_wrong_length_not_flagged :
  ComplexRoadGenerator.perform_specific_validation (complex_input "12345") new_result
  = Returned new_result
  /\ ComplexRoadGenerator.perform_specific_validation (complex_input "ABCDEFGHIJ") new_result
     = Returned new_result
  /\ ComplexRoadGenerator.perform_specific_validation (complex_input "12A45") new_result
     = Returned (mkResult false [ComplexRoadGenerator.creditor_format_error] [])
  /\ ComplexRoadGenerator.perform_specific_validation (complex_input "0000203512") new_result
     = Returned new_result.
Proof. repeat split; reflexivity. Qed.

(** The check flags a string exactly when it is non-empty, not all digits
    and not ten characters long. *)
Lemma creditor_format_flagged (user_input : Py.dict) (s : string) (r : ValidationResult) :
  Py.dict_get "carrier_creditor_number" user_input = Some (Py.VStr s) ->
  ComplexRoadGenerator.validate_carrier_creditor_format user_input r
  = Returned
      (if negb (String.eqb s "") && negb (isdigit s) && negb (String.length s =? 10)%nat
       then set_invalid (append_error ComplexRoadGenerator.creditor_format_error r)
       else r).
Proof.
  intros H. unfold ComplexRoadGenerator.validate_carrier_creditor_format, Py.dict_get_default.
  rewrite H. simpl.
  destruct (String.eqb s ""); simpl; [reflexivity|].
  destruct (isdigit s); simpl; [reflexivity|].
  now destruct (String.length s =? 10)%nat.
Qed.

(** C5.  The SCAC pattern accepts "MAEU" and rejects "maeu" and "MAE1X",
    but it also accepts the five characters "MAEU" followed by a line
    feed: the parameter collector returns that value, and the field-format
    check adds no error for it. *)
Theorem scac_accepts_trailing_newline :
  Re.re_match Patterns.scac "MAEU" = true
  /\ Re.re_match Patterns.scac "maeu" = false
  /\ Re.re_match Patterns.scac "MAE1X" = false
  /\ Re.re_match Patterns.scac ("MAEU" +++ nl) = true
  /\ (exists collected,
        ParameterCollector.collect_ocean_parameters transport_parameters
          (Py.dict_set "ocean.scac.no" (Py.VStr ("MAEU" +++ nl)) (ocean_input []))
        = Returned collected
        /\ Py.dict_get "ocean.scac.no" collected = Some (Py.VStr ("MAEU" +++ nl)))
  /\ StructuralValidator.validate_parameter_format
       (parameter bare "ocean.scac.no" ("MAEU" +++ nl)) new_result = new_result
  /\ StructuralValidator.validate_parameter_format
       (parameter bare "ocean.scac.no" "maeu") new_result
     = mkResult false ["Invalid SCAC code format: maeu"] [].
Proof.
  repeat split; try reflexivity.
  eexists. split; reflexivity.
Qed.

(** What the SCAC pattern accepts: four characters of [A-Z0-9], alone or
    followed by one line feed. *)
Lemma scac_match_iff (s : string) :
  Re.re_match Patterns.scac s = true <->
  exists a b c d,
    is_upper_or_decimal a = true /\ is_upper_or_decimal b = true
    /\ is_upper_or_decimal c = true /\ is_upper_or_decimal d = true
    /\ (s = String a (String b (String c (String d "")))
        \/ s = String a (String b (String c (String d nl)))).
Proof.
  unfold Re.re_match, Patterns.scac. split.
  - destruct s as [|a [|b [|c [|d rest]]]]; simpl; intros H;
      repeat match type of H with
             | context [if ?x then _ else _] => destruct x eqn:?; simpl in H
             end;
      try discriminate.
    exists a, b, c, d. repeat split; auto.
    destruct rest as [|x [|y rest]]; simpl in *; try discriminate.
    + now left.
    + right. match goal with E : Ascii.eqb x newline = true |- _ =>
               apply Ascii.eqb_eq in E; now subst x end.
  - intros (a & b & c & d & Ha & Hb & Hc & Hd & [-> | ->]); simpl;
      now rewrite Ha, Hb, Hc, Hd.
Qed.

(** ** Dictionaries *)

Module DictFacts.
Import Py.

Lemma get_set_same key v : forall d, dict_get key (dict_set key v d) = Some v.
Proof.
  unfold dict_get. induction d as [|[k w] d IH]; simpl.
  - now rewrite String.eqb_refl.
  - destruct (String.eqb k key) eqn:E; simpl; now rewrite E.
Qed.

Lemma get_set_other key key' v : key' <> key ->
  forall d, dict_get key' (dict_set key v d) = dict_get key' d.
Proof.
  intros Hne. unfold dict_get. induction d as [|[k w] d IH]; simpl.
  - destruct (String.eqb_spec key key'); [congruence | reflexivity].
  - destruct (String.eqb_spec k key) as [->|]; simpl.
    + destruct (String.eqb_spec key key'); [congruence | reflexivity].
    + destruct (String.eqb k key'); [reflexivity | apply IH].
Qed.

Lemma has_set_other key key' v d : key' <> key ->
  dict_has key' (dict_set key v d) = dict_has key' d.
Proof. intros H. unfold dict_has. now rewrite get_set_other. Qed.

Lemma get_default_some key default v d :
  dict_get key d = Some v -> dict_get_default key default d = v.
Proof. unfold dict_get_default. now intros ->. Qed.

End DictFacts.

(** ** The field-mapping rule *)

Import Py BusinessRulesProcessor.

(** The patterns before the first one that the input provides are skipped. *)
Lemma map_first_pattern_found target user_input result pattern v :
  forall skipped rest,
  Forall (fun p => present_truthy p user_input = false) skipped ->
  dict_get pattern user_input = Some v -> truthy v = true ->
  map_first_pattern (skipped ++ pattern :: rest) target user_input result
  = dict_set target v result.
Proof.
  induction skipped as [|p skipped IH]; intros rest Hs Hg Ht; simpl.
  - unfold present_truthy, dict_get_default. now rewrite Hg, Ht.
  - inversion Hs; subst. rewrite H1. now apply IH.
Qed.

Lemma map_first_pattern_none target user_input result :
  forall patterns,
  Forall (fun p => present_truthy p user_input = false) patterns ->
  map_first_pattern patterns target user_input result = result.
Proof.
  induction patterns as [|p patterns IH]; intros H; simpl; [reflexivity|].
  inversion H; subst. rewrite H2. now apply IH.
Qed.

(** C8.  The field-mapping rule with target field [target]: when the
    draft already holds a non-empty value for [target], the draft is
    returned unchanged; otherwise the patterns are tried in their declared
    order, the value of the first one that the raw input provides with a
    non-empty value is stored under [target] (all other entries of the
    draft are kept), and the draft is returned unchanged when no pattern
    is provided. *)
Theorem field_mapping_first_set_wins
    (rule : BusinessRule) (user_input draft : dict) (target : string) :
  target_field rule = Some target -> target <> "" ->
  (present_truthy target draft = true ->
   apply_field_mapping_rule rule user_input draft = draft)
  /\ (present_truthy target draft = false ->
      (forall skipped pattern rest v,
         field_patterns rule = skipped ++ pattern :: rest ->
         Forall (fun p => present_truthy p user_input = false) skipped ->
         dict_get pattern user_input = Some v -> truthy v = true ->
         let result := apply_field_mapping_rule rule user_input draft in
         result = dict_set target v draft
         /\ dict_get target result = Some v
         /\ (forall key, key <> target -> dict_get key result = dict_get key draft))
      /\ (Forall (fun p => present_truthy p user_input = false) (field_patterns rule) ->
          apply_field_mapping_rule rule user_input draft = draft)).
Proof.
  intros Ht Hne. unfold apply_field_mapping_rule. rewrite Ht.
  apply String.eqb_neq in Hne. rewrite Hne.
  split; [intros ->; reflexivity|].
  intros Hunset. rewrite Hunset. split.
  - intros skipped pattern rest v Hp Hs Hg Hv. cbv zeta. rewrite Hp.
    rewrite (@map_first_pattern_found target user_input draft pattern v skipped rest
               Hs Hg Hv).
    split; [reflexivity|]. split.
    + apply DictFacts.get_set_same.
    + intros key Hk. now apply DictFacts.get_set_other.
  - apply map_first_pattern_none.
Qed.

Lemma field_mapping_first_set_wins_witness :
  apply_field_mapping_rule carrier_id_mapping_rule
    [("carrier", VStr ""); ("carrier_number", VStr "0000203512")]
    [("number", VStr "0081310198")]
  = [("number", VStr "0081310198"); ("carrier_creditor_number", VStr "0000203512")]
  /\ apply_field_mapping_rule carrier_id_mapping_rule
       [("carrier_id", VStr "0000999999")]
       [("carrier_creditor_number", VStr "0000203512")]
     = [("carrier_creditor_number", VStr "0000203512")].
Proof.
  split.
  - refine (proj1 (proj1 (proj2 (@field_mapping_first_set_wins carrier_id_mapping_rule
              [("carrier", VStr ""); ("carrier_number", VStr "0000203512")]
              [("number", VStr "0081310198")] "carrier_creditor_number" eq_refl _) eq_refl)
              ["carrier_id"; "carrier"] "carrier_number" [] (VStr "0000203512")
              eq_refl _ eq_refl eq_refl)).
    + discriminate.
    + repeat constructor.
  - refine (proj1 (@field_mapping_first_set_wins carrier_id_mapping_rule
              [("carrier_id", VStr "0000999999")]
              [("carrier_creditor_number", VStr "0000203512")] "carrier_creditor_number"
              eq_refl _) eq_refl).
    discriminate.
Defined.

(** ** Input validation of the Ocean Visibility generator *)

Module OceanFacts.
Import ParameterCollector BaseGenerator OceanVisibilityGenerator.














End OceanFacts.



(** ** Parameter collection of the Ocean Visibility generator *)

Module CollectFacts.
Import ParameterCollector BaseGenerator OceanVisibilityGenerator.

Lemma bind_returned {A B} (c : outcome A) (k : A -> outcome B) b :
  bind c k = Returned b -> exists a, c = Returned a /\ k a = Returned b.
Proof. destruct c as [a|e]; simpl; intros H; [eauto | discriminate]. Qed.

Lemma get_update_other key : forall other d,
  Forall (fun kv => fst kv <> key) other ->
  dict_get key (dict_update other d) = dict_get key d.
Proof.
  unfold dict_update. induction other as [|[k v] other IH]; intros d H; simpl.
  - reflexivity.
  - inversion H; subst. rewrite IH by assumption. apply DictFacts.get_set_other.
    simpl in *. congruence.
Qed.


Section OrderDetails.

Variable get_order_parameters : string -> OrderParams.
Variable key : string.
Variable v : value.
Variable user_input : dict.
Hypothesis provided : dict_get key user_input = Some v.




End OrderDetails.



End CollectFacts.



Lemma validation_result_is_valid_iff_no_errors_witness :
  let doc := ET.Parsed (prefixed_document ["0"; "1"; "3"] "0000203512" creditor_parameters) in
  exists cross report,
    BusinessValidator.validate_cross_field_consistency no_datetime Z_lt doc = Returned cross
    /\ consistent cross
    /\ MainTool.validate_transport_order_xml [] (fun _ => true) (fun _ => "[]") []
         no_datetime Z_lt (fun _ => "error") doc "complex_road" = MainTool.Report report
    /\ consistent (MainTool.summary report).
Proof.
  intros doc.
  destruct (@validation_result_is_valid_iff_no_errors [] (fun _ => true) (fun _ => "[]") []
              Z no_datetime Z_lt (fun _ => "error") doc "complex_road")
    as (_ & _ & _ & _ & Hcross & _ & Hreport).
  eexists. eexists.
  split; [reflexivity|].
  split; [apply Hcross; reflexivity|].
  split; [reflexivity|].
  apply Hreport. reflexivity.
Defined.

(** ** The cross-field checks on the elements they are given *)

Module CrossFieldFacts.
Import ET BusinessValidator.

Ltac enumerate_members :=
  repeat match goal with
         | H : In _ (_ :: _) |- _ => destruct H as [H | H]; [symmetry in H; subst|]
         | H : In _ [] |- _ => destruct H
         end.

Ltac refute_duplicates H :=
  exfalso; inversion H as [|? ? Hn1 Hrest]; subst;
  first [ apply Hn1; simpl; tauto
        | inversion Hrest as [|? ? Hn2 ?]; subst; apply Hn2; simpl; tauto ].

(** The index check on stops whose indices are 0, 1 and 3 in any order. *)
Lemma index_gap_reported transport_order stops indices r r1 :
  find "stops" transport_order = Some stops ->
  read_indices (findall "stop" stops) [] r = (indices, r1) ->
  Permutation indices [0; 1; 3]%Z ->
  let r' := validate_stop_index_sequence transport_order r in
  is_valid r' = false /\ In "Stop indices should be sequential" (errors r').
Proof.
  intros Hs Hr Hp. unfold validate_stop_index_sequence. rewrite Hs, Hr.
  pose proof (Permutation_length Hp) as Hlen.
  destruct indices as [|x [|y [|z [|]]]]; try discriminate.
  assert (Hx : In x [0; 1; 3]%Z) by (eapply Permutation_in; [exact Hp | simpl; auto]).
  assert (Hy : In y [0; 1; 3]%Z) by (eapply Permutation_in; [exact Hp | simpl; auto]).
  assert (Hz : In z [0; 1; 3]%Z) by (eapply Permutation_in; [exact Hp | simpl; auto]).
  assert (Hnd : NoDup [x; y; z]).
  { apply (Permutation_NoDup (Permutation_sym Hp)).
    repeat constructor; simpl; intuition discriminate. }
  clear Hp Hlen Hr.
  enumerate_members; try refute_duplicates Hnd;
    (simpl; split; [reflexivity | apply in_or_app; right; simpl; auto]).
Qed.

(** The index check on stops whose indices are 1 and 2 in any order. *)
Lemma index_start_reported transport_order stops indices r r1 :
  find "stops" transport_order = Some stops ->
  read_indices (findall "stop" stops) [] r = (indices, r1) ->
  Permutation indices [1; 2]%Z ->
  let r' := validate_stop_index_sequence transport_order r in
  is_valid r' = false /\ In "Stop indices should start from 0" (errors r').
Proof.
  intros Hs Hr Hp. unfold validate_stop_index_sequence. rewrite Hs, Hr.
  pose proof (Permutation_length Hp) as Hlen.
  destruct indices as [|x [|y [|]]]; try discriminate.
  assert (Hx : In x [1; 2]%Z) by (eapply Permutation_in; [exact Hp | simpl; auto]).
  assert (Hy : In y [1; 2]%Z) by (eapply Permutation_in; [exact Hp | simpl; auto]).
  assert (Hnd : NoDup [x; y]).
  { apply (Permutation_NoDup (Permutation_sym Hp)).
    repeat constructor; simpl; intuition discriminate. }
  clear Hp Hlen Hr.
  enumerate_members; try refute_duplicates Hnd;
    (simpl; split; [reflexivity | apply in_or_app; right; simpl; auto]).
Qed.

(** The creditor check only adds warnings. *)
Lemma creditor_check_keeps_errors transport_order r :
  let r' := validate_carrier_creditor_consistency transport_order r in
  is_valid r' = is_valid r /\ errors r' = errors r.
Proof.
  unfold validate_carrier_creditor_consistency.
  destruct (find "carrier_creditor_number" transport_order) as [carrier|]; [|auto].
  destruct (text_empty carrier); [auto|].
  destruct (find "parameters" transport_order) as [parameters|]; [|auto].
  generalize (findall "parameter" parameters). intros l. revert r.
  induction l as [|param l IH]; intros r; simpl; [auto|].
  match goal with
  | |- context [fold_left ?f l ?r1] => destruct (IH r1) as [H1 H2]; rewrite H1, H2
  end.
  destruct (get "qualifier" param) as [q|]; [|auto].
  destruct (String.eqb q "custom.preassignedCarrierCreditorNumber"); [|auto].
  destruct (find "value" param) as [v|]; [|auto].
  destruct (negb _); auto.
Qed.

(** With a non-empty creditor number at transport level and a parameter
    [custom.preassignedCarrierCreditorNumber] whose value element holds
    another text, the creditor check appends its warning. *)
Lemma creditor_mismatch_warned transport_order carrier parameters param value_elem r :
  find "carrier_creditor_number" transport_order = Some carrier ->
  text_empty carrier = false ->
  find "parameters" transport_order = Some parameters ->
  In param (findall "parameter" parameters) ->
  get "qualifier" param = Some "custom.preassignedCarrierCreditorNumber" ->
  find "value" param = Some value_elem ->
  text_is (text value_elem) (text_str (text carrier)) = false ->
  In carrier_inconsistency_warning
     (warnings (validate_carrier_creditor_consistency transport_order r)).
Proof.
  intros Hc He Hp Hin Hq Hv Hd. unfold validate_carrier_creditor_consistency.
  rewrite Hc, He, Hp.
  set (step := fun (result : ValidationResult) (param : Element) => _).
  assert (Hkeep : forall l r0, In carrier_inconsistency_warning (warnings r0) ->
                               In carrier_inconsistency_warning (warnings (fold_left step l r0))).
  { induction l as [|x l IH]; intros r0 H0; simpl; [assumption|].
    apply IH. unfold step.
    destruct (get "qualifier" x) as [q|]; [|assumption].
    destruct (String.eqb q "custom.preassignedCarrierCreditorNumber"); [|assumption].
    destruct (find "value" x) as [v|]; [|assumption].
    destruct (negb _); [|assumption]. simpl. apply in_or_app. now left. }
  revert r. induction (findall "parameter" parameters) as [|x l IH]; intros r;
    [destruct Hin|].
  destruct Hin as [-> | Hin]; simpl.
  - apply Hkeep. unfold step. rewrite Hq, Hv, Hd. simpl.
    apply in_or_app. right. simpl. auto.
  - now apply IH.
Qed.

End CrossFieldFacts.

(** * Further properties of the validators *)

Module ValidatorFacts.
Import ET Invariant.

Lemma advances_stays_invalid r r' :
  advances r r' -> is_valid r = false -> is_valid r' = false.
Proof. intros [[H _] | [H _]] Hr; congruence. Qed.

Lemma advances_valid_back r r' :
  advances r r' -> is_valid r' = true -> is_valid r = true /\ errors r' = errors r.
Proof. intros [[H1 H2] | [H _]] Hr; [split; congruence | congruence]. Qed.

(** A loop whose body fails on the elements that are not [ok] ends valid
    only if every element is [ok]. *)
Lemma fold_valid_all {A} (f : ValidationResult -> A -> ValidationResult) (ok : A -> bool) :
  (forall r x, advances r (f r x)) ->
  (forall r x, ok x = false -> is_valid (f r x) = false) ->
  forall l r, is_valid (fold_left f l r) = true -> forallb ok l = true.
Proof.
  intros Hadv Hfail. induction l as [|x l IH]; intros r H; simpl in *; [reflexivity|].
  rewrite (IH _ H), andb_true_r.
  destruct (ok x) eqn:E; [reflexivity|].
  pose proof (advances_fold_left f Hadv l (f r x)) as Ha.
  apply (advances_stays_invalid Ha) in Hfail; [congruence | assumption].
Qed.

(** *** Stop references *)

Import StructuralValidator.


End ValidatorFacts.



(** *** The stop indices *)

Module IndexFacts.
Import ET BusinessValidator.

Lemma insert_sorted_perm x : forall l, Permutation (insert_sorted x l) (x :: l).
Proof.
  induction l as [|y l IH]; simpl; [reflexivity|].
  destruct (x <=? y)%Z; [reflexivity|].
  rewrite IH. apply perm_swap.
Qed.

Lemma sort_Z_perm : forall l, Permutation (sort_Z l) l.
Proof.
  induction l as [|x l IH]; simpl; [reflexivity|].
  unfold sort_Z in *. simpl. rewrite insert_sorted_perm. now constructor.
Qed.

Lemma insert_sorted_sorted x : forall l, Sorted Z.le l -> Sorted Z.le (insert_sorted x l).
Proof.
  induction l as [|y l IH]; intros H; simpl.
  - repeat constructor.
  - destruct (x <=? y)%Z eqn:E.
    + constructor; [assumption|]. constructor. now apply Z.leb_le.
    + apply Z.leb_gt in E. inversion H as [|? ? Hs Hh]; subst.
      constructor; [now apply IH|].
      destruct l as [|z l]; simpl.
      * constructor. lia.
      * destruct (x <=? z)%Z; constructor; [lia|]. now inversion Hh.
Qed.

Lemma sort_Z_sorted : forall l, Sorted Z.le (sort_Z l).
Proof.
  induction l as [|x l IH]; [constructor|].
  unfold sort_Z in *. simpl. now apply insert_sorted_sorted.
Qed.

(** Two ascending lists with the same elements are equal. *)
Lemma sorted_perm_unique : forall l1 l2,
  StronglySorted Z.le l1 -> StronglySorted Z.le l2 -> Permutation l1 l2 -> l1 = l2.
Proof.
  induction l1 as [|a l1 IH]; intros l2 H1 H2 Hp.
  - apply Permutation_nil in Hp. now subst.
  - destruct l2 as [|b l2]; [apply Permutation_sym, Permutation_nil in Hp; discriminate|].
    inversion H1 as [|? ? S1 F1]; subst. inversion H2 as [|? ? S2 F2]; subst.
    assert (a = b).
    { assert (Ha : In a (b :: l2)) by (eapply Permutation_in; [exact Hp | now left]).
      assert (Hb : In b (a :: l1))
        by (eapply Permutation_in; [apply Permutation_sym; exact Hp | now left]).
      rewrite Forall_forall in F1, F2.
      destruct Ha as [Ha|Ha]; [now subst|]. destruct Hb as [Hb|Hb]; [now subst|].
      apply F2 in Ha. apply F1 in Hb. lia. }
    subst b. f_equal. apply IH; auto. now apply Permutation_cons_inv in Hp.
Qed.

Lemma range_sorted : forall n s, Sorted Z.le (map Z.of_nat (seq s n)).
Proof.
  induction n as [|n IH]; intros s; simpl; [constructor|].
  constructor; [apply IH|]. destruct n; simpl; constructor. lia.
Qed.

Lemma strongly (l : list Z) : Sorted Z.le l -> StronglySorted Z.le l.
Proof. apply Sorted_StronglySorted. intros x y z. lia. Qed.

(** Without a gap, the list is a run of consecutive integers. *)
Lemma gap_free_run : forall l s,
  has_gap (Z.of_nat s :: l) = false <->
  Z.of_nat s :: l = map Z.of_nat (seq s (S (List.length l))).
Proof.
  induction l as [|b l IH]; intros s.
  - simpl. tauto.
  - change (has_gap (Z.of_nat s :: b :: l))
      with (if negb (b =? Z.of_nat s + 1)%Z then true else has_gap (b :: l)).
    destruct (b =? Z.of_nat s + 1)%Z eqn:E; simpl negb.
    + apply Z.eqb_eq in E. replace b with (Z.of_nat (S s)) by lia.
      split; intros H.
      * apply IH in H. cbn [List.length seq map] in *. now f_equal.
      * apply IH. cbn [List.length seq map] in *. injection H as Hl. now f_equal.
    + apply Z.eqb_neq in E. split; [discriminate|].
      cbn [List.length seq map]. intros H. inversion H. lia.
Qed.

Lemma fail_changes msg (x r : ValidationResult) :
  (List.length (errors r) <= List.length (errors x))%nat ->
  set_invalid (append_error msg x) <> r.
Proof.
  intros H E. apply (f_equal (fun y => List.length (errors y))) in E. simpl in E.
  rewrite length_app in E. simpl in E. lia.
Qed.

End IndexFacts.

(** X2.  The index check, when it finds the stops and every index text
    it reads is an integer: it leaves the result as it was exactly when
    the indices read are, in some order, the integers 0 .. n-1. *)
Theorem stop_index_check_accepts_iff
    (transport_order stops : ET.Element) (indices : list Z) (r : ValidationResult) :
  ET.find "stops" transport_order = Some stops ->
  BusinessValidator.read_indices (ET.findall "stop" stops) [] r = (indices, r) ->
  (BusinessValidator.validate_stop_index_sequence transport_order r = r
   <-> Permutation indices (index_range (List.length indices))).
Proof.
  intros Hs Hr. unfold BusinessValidator.validate_stop_index_sequence. rewrite Hs, Hr.
  pose proof (IndexFacts.sort_Z_perm indices) as Hp.
  pose proof (IndexFacts.sort_Z_sorted indices) as Hsorted.
  assert (Hlen : List.length (sort_Z indices) = List.length indices)
    by now apply Permutation_length.
  destruct (sort_Z indices) as [|first rest] eqn:E.
  - apply Permutation_nil in Hp. subst indices. simpl. split; auto.
  - assert (Hrange : first = 0%Z /\ BusinessValidator.has_gap (first :: rest) = false
                     <-> Permutation indices (index_range (List.length indices))).
    { split.
      - intros [-> Eg].
        change 0%Z with (Z.of_nat 0) in Eg. apply IndexFacts.gap_free_run in Eg.
        change (Z.of_nat 0) with 0%Z in Eg.
        apply Permutation_sym in Hp. eapply perm_trans; [exact Hp|].
        rewrite Eg. unfold index_range. simpl in Hlen. rewrite <- Hlen. reflexivity.
      - intros H.
        assert (Heq : first :: rest = index_range (List.length indices)).
        { apply IndexFacts.sorted_perm_unique.
          - now apply IndexFacts.strongly.
          - apply IndexFacts.strongly, IndexFacts.range_sorted.
          - eapply perm_trans; [exact Hp | exact H]. }
        assert (H0 : first = 0%Z).
        { destruct indices; [discriminate|]. unfold index_range in Heq. simpl in Heq.
          now inversion Heq. }
        subst first. split; [reflexivity|].
        change 0%Z with (Z.of_nat 0). apply IndexFacts.gap_free_run.
        change (Z.of_nat 0) with 0%Z. rewrite Heq. unfold index_range.
        simpl in Hlen. now rewrite <- Hlen. }
    rewrite <- Hrange. clear Hrange.
    destruct (first =? 0)%Z eqn:E0; destruct (BusinessValidator.has_gap (first :: rest));
      cbn [negb].
    + split; [|intros [_ H]; discriminate].
      intros H. exfalso. revert H. apply IndexFacts.fail_changes. lia.
    + apply Z.eqb_eq in E0. tauto.
    + split; [|intros [_ H]; discriminate].
      intros H. exfalso. revert H. apply IndexFacts.fail_changes. simpl.
      rewrite length_app. lia.
    + apply Z.eqb_neq in E0. split; [|tauto].
      intros H. exfalso. revert H. apply IndexFacts.fail_changes. lia.
Qed.

Lemma stop_index_check_accepts_iff_witness :
  let transport_order :=
    ET.Elem "transport_order" [] None
      [ET.Elem "stops" [] None (Samples.stops_from Samples.bare 0 ["2"; "0"; "1"])] in
  BusinessValidator.validate_stop_index_sequence transport_order new_result = new_result.
Proof.
  intros transport_order.
  apply (@stop_index_check_accepts_iff transport_order
           (ET.Elem "stops" [] None (Samples.stops_from Samples.bare 0 ["2"; "0"; "1"]))
           [2; 0; 1]%Z new_result eq_refl eq_refl).
  simpl. apply Permutation_sym.
  apply (perm_trans (l' := [0; 2; 1]%Z)); [|apply perm_swap].
  apply perm_skip, perm_swap.
Defined.

(** *** What cross-field validation can report *)

Module CrossFieldReports.
Import ET BusinessValidator.

Lemma creditor_warnings transport_order r w :
  In w (warnings (validate_carrier_creditor_consistency transport_order r)) ->
  In w (warnings r) \/ w = carrier_inconsistency_warning.
Proof.
  unfold validate_carrier_creditor_consistency.
  destruct (find "carrier_creditor_number" transport_order) as [carrier|]; [|auto].
  destruct (text_empty carrier); [auto|].
  destruct (find "parameters" transport_order) as [parameters|]; [|auto].
  generalize (findall "parameter" parameters). intros l. revert r.
  induction l as [|param l IH]; intros r; simpl; [auto|].
  intros H. apply IH in H as [H|H]; [|auto].
  destruct (get "qualifier" param) as [q|]; [|auto].
  destruct (String.eqb q "custom.preassignedCarrierCreditorNumber"); [|auto].
  destruct (find "value" param) as [v|]; [|auto].
  destruct (negb _); [|auto]. simpl in H. apply in_app_or in H as [H|[H|[]]]; auto.
Qed.

Lemma read_indices_reports : forall l indices r indices' r',
  read_indices l indices r = (indices', r') ->
  warnings r' = warnings r
  /\ forall e, In e (errors r') -> In e (errors r) \/ In e index_errors.
Proof.
  induction l as [|stop l IH]; intros indices r indices' r' H; simpl in H.
  - inversion H; subst. auto.
  - destruct (find "index" stop) as [ie|]; [|eauto].
    destruct (negb (text_empty ie)); [|eauto].
    destruct (py_int (text_str (text ie))); [eauto|].
    apply IH in H as [Hw He]. split; [assumption|].
    intros e Hin. apply He in Hin as [Hin|Hin]; [|auto].
    simpl in Hin. apply in_app_or in Hin as [Hin|[Hin|[]]]; [auto|].
    right. subst e. simpl. auto.
Qed.

Lemma index_check_reports transport_order r :
  let r' := validate_stop_index_sequence transport_order r in
  warnings r' = warnings r
  /\ forall e, In e (errors r') -> In e (errors r) \/ In e index_errors.
Proof.
  unfold validate_stop_index_sequence.
  destruct (find "stops" transport_order) as [stops|]; [|auto].
  destruct (read_indices (findall "stop" stops) [] r) as [indices r1] eqn:E.
  apply read_indices_reports in E as [Hw He].
  destruct (sort_Z indices) as [|first rest]; [auto|].
  destruct (negb (first =? 0)%Z); destruct (has_gap (first :: rest)); simpl;
    (split; [assumption|]); intros e Hin;
    repeat (apply in_app_or in Hin as [Hin|[Hin|[]]]; [|subst e; right; simpl; tauto]);
    auto.
Qed.

End CrossFieldReports.

(** X3.  Cross-field validation of a document in which [transport_order]
    is found reports no error other than the three of the stop-index
    check, and no warning other than the creditor and the date-sequence
    warning: a creditor mismatch or an odd date order never fails the
    validation. *)
Theorem cross_field_reports
    (datetime : Type) (fromisoformat : string -> option datetime)
    (datetime_lt : datetime -> datetime -> option bool)
    (root transport_order : ET.Element) (r : ValidationResult) :
  ET.find_descendant (ns +++ "transport_order") root = Some transport_order ->
  BusinessValidator.validate_cross_field_consistency fromisoformat datetime_lt
    (ET.Parsed root) = Returned r ->
  (forall e, In e (errors r) -> In e index_errors)
  /\ (forall w, In w (warnings r) ->
        w = BusinessValidator.carrier_inconsistency_warning
        \/ w = date_warning).
Proof.
  intros Ht H. unfold BusinessValidator.validate_cross_field_consistency in H.
  rewrite Ht in H.
  set (r1 := BusinessValidator.validate_carrier_creditor_consistency transport_order
               new_result) in *.
  destruct (BusinessValidator.validate_date_sequence fromisoformat datetime_lt
              transport_order r1) as [r2|] eqn:E; [|discriminate].
  inversion H; subst r; clear H.
  destruct (CrossFieldFacts.creditor_check_keeps_errors transport_order new_result)
    as [_ He1]. fold r1 in He1.
  assert (H2 : errors r2 = [] /\
               forall w, In w (warnings r2) ->
                 w = BusinessValidator.carrier_inconsistency_warning
                 \/ w = date_warning).
  { assert (Hw1 : forall w, In w (warnings r1) ->
                    w = BusinessValidator.carrier_inconsistency_warning).
    { intros w Hw. apply CrossFieldReports.creditor_warnings in Hw as [[]|Hw]; assumption. }
    unfold BusinessValidator.validate_date_sequence in E.
    destruct (ET.find "stops" transport_order) as [stops|];
      [|inversion E; subst; auto].
    destruct (BusinessValidator.out_of_sequence datetime_lt
                (BusinessValidator.stop_dates fromisoformat stops)) as [[|]|];
      inversion E; subst; simpl; split; auto.
    intros w Hw. apply in_app_or in Hw as [Hw|[Hw|[]]]; auto. }
  destruct H2 as [He2 Hw2].
  destruct (CrossFieldReports.index_check_reports transport_order r2) as [Hw He].
  split.
  - intros e Hin. apply He in Hin as [Hin|Hin]; [|assumption].
    rewrite He2 in Hin. destruct Hin.
  - intros w Hin. rewrite Hw in Hin. now apply Hw2.
Qed.

Lemma cross_field_reports_witness :
  exists r,
    BusinessValidator.validate_cross_field_consistency Samples.no_datetime Samples.Z_lt
      (ET.Parsed (Samples.prefixed_document ["0"; "2"] "0000203512"
                    Samples.creditor_parameters)) = Returned r
    /\ (forall e, In e (errors r) -> In e index_errors).
Proof.
  eexists. split; [reflexivity|].
  eapply (@cross_field_reports Z Samples.no_datetime Samples.Z_lt
            (Samples.prefixed_document ["0"; "2"] "0000203512" Samples.creditor_parameters));
    reflexivity.
Defined.

(** *** The aggregated validation *)

Module SummaryFacts.
Import MainTool.

(** Taking over a pass whose flag agrees with its errors appends its
    errors and warnings and conjoins its flag. *)
Lemma absorb_joins part result :
  consistent part ->
  is_valid (absorb part result) = is_valid result && is_valid part
  /\ errors (absorb part result) = errors result ++ errors part
  /\ warnings (absorb part result) = warnings result ++ warnings part.
Proof.
  unfold consistent, absorb. intros Hp.
  destruct (is_valid part) eqn:E; simpl.
  - rewrite andb_true_r. destruct Hp as [Hp _]. rewrite (Hp eq_refl), app_nil_r. auto.
  - rewrite andb_false_r. auto.
Qed.

End SummaryFacts.

(** X4.  When the aggregated validation returns a report, its summary
    holds the errors of all passes (structure, field formats, stop
    references, transport-type rules, cross-field consistency and, for
    ocean visibility, ocean completeness) in that order, their warnings in
    that order, and is valid exactly when every pass is. *)
Theorem summary_joins_all_passes
    (transport_order_rules : list (string * StructuralValidator.FieldRule))
    (float_accepts : string -> bool) (str_of_list : list string -> string)
    (transport_rules : list (string * BusinessValidator.TypeRules))
    (datetime : Type) (fromisoformat : string -> option datetime)
    (datetime_lt : datetime -> datetime -> option bool) (str_of_exn : exn -> string)
    (xml_content : ET.parsed) (transport_type : string) (report : MainTool.ValidationReport) :
  MainTool.validate_transport_order_xml transport_order_rules float_accepts str_of_list
    transport_rules fromisoformat datetime_lt str_of_exn xml_content transport_type
  = MainTool.Report report ->
  let passes :=
    [StructuralValidator.validate_xml_structure xml_content;
     StructuralValidator.validate_field_formats transport_order_rules float_accepts
       str_of_list xml_content;
     StructuralValidator.validate_stop_references xml_content;
     BusinessValidator.validate_transport_type_rules transport_rules xml_content
       transport_type;
     MainTool.cross_field_validation report]
    ++ (if String.eqb transport_type "ocean_visibility"
        then [BusinessValidator.validate_ocean_completeness xml_content] else []) in
  BusinessValidator.validate_cross_field_consistency fromisoformat datetime_lt xml_content
  = Returned (MainTool.cross_field_validation report)
  /\ is_valid (MainTool.summary report) = forallb is_valid passes
  /\ errors (MainTool.summary report) = List.concat (map errors passes)
  /\ warnings (MainTool.summary report) = List.concat (map warnings passes).
Proof.
  unfold MainTool.validate_transport_order_xml. intros H.
  destruct (BusinessValidator.validate_cross_field_consistency fromisoformat datetime_lt
              xml_content) as [cross|] eqn:Ec; [|discriminate].
  inversion H; subst report; clear H. cbn [MainTool.cross_field_validation MainTool.summary].
  split; [reflexivity|].
  pose proof (Invariant.xml_structure_consistent xml_content) as C1.
  pose proof (Invariant.field_formats_consistent transport_order_rules float_accepts
                str_of_list xml_content) as C2.
  pose proof (Invariant.stop_references_consistent xml_content) as C3.
  pose proof (Invariant.transport_type_rules_consistent transport_rules xml_content
                transport_type) as C4.
  pose proof (Invariant.cross_field_consistent _ _ _ Ec) as C5.
  pose proof (Invariant.ocean_completeness_consistent xml_content) as C6.
  set (r1 := MainTool.absorb _ new_result).
  set (r2 := MainTool.absorb _ r1).
  set (r3 := MainTool.absorb _ r2).
  set (r4 := MainTool.absorb _ r3).
  set (r5 := MainTool.absorb cross r4).
  destruct (SummaryFacts.absorb_joins new_result C1) as (V1 & E1 & W1). fold r1 in V1, E1, W1.
  destruct (SummaryFacts.absorb_joins r1 C2) as (V2 & E2 & W2). fold r2 in V2, E2, W2.
  destruct (SummaryFacts.absorb_joins r2 C3) as (V3 & E3 & W3). fold r3 in V3, E3, W3.
  destruct (SummaryFacts.absorb_joins r3 C4) as (V4 & E4 & W4). fold r4 in V4, E4, W4.
  destruct (SummaryFacts.absorb_joins r4 C5) as (V5 & E5 & W5). fold r5 in V5, E5, W5.
  destruct (SummaryFacts.absorb_joins r5 C6) as (V6 & E6 & W6).
  destruct (String.eqb transport_type "ocean_visibility");
    cbn [app forallb map List.concat];
    [rewrite V6, E6, W6|]; rewrite V5, E5, W5, V4, E4, W4, V3, E3, W3, V2, E2, W2, V1, E1, W1;
    cbn [new_result is_valid errors warnings app andb];
    rewrite ?app_nil_r, ?andb_true_r, <- ?app_assoc, <- ?andb_assoc; auto.
Qed.

Lemma summary_joins_all_passes_witness :
  exists report,
    MainTool.validate_transport_order_xml [] (fun _ => true) (fun _ => "") []
      Samples.no_datetime Samples.Z_lt (fun _ => "")
      (ET.Parsed (Samples.bare_document ["0"; "1"] "0000203512" [])) "simple_road"
    = MainTool.Report report
    /\ errors (MainTool.summary report)
       = ["No transport_order element found"; "No transport_order element found";
          "No transport_order element found"; "No transport_order element found"].
Proof.
  eexists. split; [reflexivity|].
  destruct (@summary_joins_all_passes [] (fun _ => true) (fun _ => "") [] Z
              Samples.no_datetime Samples.Z_lt (fun _ => "")
              (ET.Parsed (Samples.bare_document ["0"; "1"] "0000203512" [])) "simple_road" _
              eq_refl) as (_ & _ & E & _).
  exact E.
Defined.

(** *** What a valid structural result guarantees *)

Module StructureFacts.
Import ET StructuralValidator Invariant ValidatorFacts.

Lemma valid_before r r' : advances r r' -> is_valid r' = true -> is_valid r = true.
Proof. intros Ha Hv. now apply (advances_valid_back Ha). Qed.

(** The elements the structural pass requires below [transport_order]. *)
Lemma required_elements_valid transport_order r :
  is_valid (validate_required_elements transport_order r) = true ->
  Forall (fun name =>
            exists e, (find (ns +++ name) transport_order = Some e
                       \/ find name transport_order = Some e)
                      /\ text_empty e = false)
         ["number"; "status"; "scheduling_unit"]
  /\ Forall (fun name => find (ns +++ name) transport_order <> None
                         \/ find name transport_order <> None)
            ["orders"; "stops"].
Proof.
  unfold validate_required_elements. intros H.
  apply (@fold_valid_all _ _
           (fun name =>
                    match (match find (ns +++ name) transport_order with
                           | Some e => Some e
                           | None => find name transport_order
                           end) with
                    | None => false
                    | Some e => negb (mem_string name ["number"; "status"; "scheduling_unit"]
                                      && text_empty e)
                    end)) in H.
  - cbn [forallb] in H. rewrite !andb_true_iff in H.
    destruct H as (H1 & H2 & H3 & H4 & H5 & _).
    split; repeat apply Forall_cons; try apply Forall_nil.
    + destruct (find (ns +++ "number") transport_order) as [e|] eqn:E1;
        [|destruct (find "number" transport_order) as [e|] eqn:E2; [|discriminate]];
        exists e; (split; [auto|]); simpl in H1; now destruct (text_empty e).
    + destruct (find (ns +++ "status") transport_order) as [e|] eqn:E1;
        [|destruct (find "status" transport_order) as [e|] eqn:E2; [|discriminate]];
        exists e; (split; [auto|]); simpl in H2; now destruct (text_empty e).
    + destruct (find (ns +++ "scheduling_unit") transport_order) as [e|] eqn:E1;
        [|destruct (find "scheduling_unit" transport_order) as [e|] eqn:E2; [|discriminate]];
        exists e; (split; [auto|]); simpl in H3; now destruct (text_empty e).
    + destruct (find (ns +++ "orders") transport_order); [left; discriminate|].
      destruct (find "orders" transport_order); [right; discriminate|discriminate].
    + destruct (find (ns +++ "stops") transport_order); [left; discriminate|].
      destruct (find "stops" transport_order); [right; discriminate|discriminate].
  - intros r0 x. advance.
  - intros r0 x Hx.
    destruct (match find (ns +++ x) transport_order with
              | Some e => Some e
              | None => find x transport_order
              end) as [e|]; [|reflexivity].
    apply negb_false_iff in Hx. rewrite Hx. reflexivity.
Qed.

Lemma transport_order_found root r :
  is_valid
    (match find_descendant (ns +++ "transport_order") root with
     | Some transport_order =>
         validate_element_structure transport_order
           (validate_required_elements transport_order r)
     | None =>
         match find_descendant "transport_order" root with
         | Some transport_order =>
             validate_element_structure transport_order
               (validate_required_elements transport_order r)
         | None => set_invalid (append_error "No transport_order element found" r)
         end
     end) = true ->
  exists transport_order,
    (find_descendant (ns +++ "transport_order") root = Some transport_order
     \/ (find_descendant (ns +++ "transport_order") root = None
         /\ find_descendant "transport_order" root = Some transport_order))
    /\ is_valid (validate_element_structure transport_order
                   (validate_required_elements transport_order r)) = true.
Proof.
  destruct (find_descendant (ns +++ "transport_order") root) as [e|]; [eauto|].
  destruct (find_descendant "transport_order" root) as [e|]; [eauto|].
  discriminate.
Qed.

End StructureFacts.

(** X5.  A document the structural pass accepts has the root tag
    [transport_orders] (namespaced or bare) and a [transport_order]
    descendant (namespaced or bare) with the children [number], [status]
    and [scheduling_unit], each with a non-empty text, and the children
    [orders] and [stops]. *)
Theorem structure_valid_required_elements (root : ET.Element) :
  is_valid (StructuralValidator.validate_xml_structure (ET.Parsed root)) = true ->
  (ET.tag root = ns +++ "transport_orders" \/ ET.tag root = "transport_orders")
  /\ exists transport_order,
       (ET.find_descendant (ns +++ "transport_order") root = Some transport_order
        \/ ET.find_descendant "transport_order" root = Some transport_order)
       /\ Forall (fun name =>
                    exists e, (ET.find (ns +++ name) transport_order = Some e
                               \/ ET.find name transport_order = Some e)
                              /\ ET.text_empty e = false)
                 ["number"; "status"; "scheduling_unit"]
       /\ Forall (fun name => ET.find (ns +++ name) transport_order <> None
                              \/ ET.find name transport_order <> None)
                 ["orders"; "stops"].
Proof.
  unfold StructuralValidator.validate_xml_structure. intros H. cbv zeta in H.
  apply StructureFacts.transport_order_found in H as (transport_order & Hfd & Hv).
  apply (StructureFacts.valid_before (Invariant.element_structure_advances _ _)) in Hv.
  pose proof (StructureFacts.valid_before (Invariant.required_elements_advances _ _) Hv) as Hr.
  split.
  - destruct (String.eqb (ET.tag root) (ns +++ "transport_orders")) eqn:E1;
      [apply String.eqb_eq in E1; auto|].
    destruct (String.eqb (ET.tag root) "transport_orders") eqn:E2;
      [apply String.eqb_eq in E2; auto|].
    discriminate.
  - exists transport_order. split; [destruct Hfd as [E | [_ E]]; auto|].
    now apply StructureFacts.required_elements_valid in Hv.
Qed.

Lemma structure_valid_required_elements_witness :
  ET.tag (Samples.bare_document ["0"; "1"] "0000203512" []) = ns +++ "transport_orders"
  \/ ET.tag (Samples.bare_document ["0"; "1"] "0000203512" []) = "transport_orders".
Proof.
  exact (proj1 (@structure_valid_required_elements
                  (Samples.bare_document ["0"; "1"] "0000203512" []) eq_refl)).
Defined.

(** *** The stops of a document the structural pass accepts *)

Module StopFacts.
Import ET StructuralValidator Invariant ValidatorFacts StructureFacts.

Lemma mem_string_false x l : mem_string x l = false -> ~ In x l.
Proof.
  unfold mem_string. intros H Hin.
  assert (existsb (String.eqb x) l = true) as E
    by (apply existsb_exists; exists x; split; [assumption | apply String.eqb_refl]).
  congruence.
Qed.

Lemma after_id_advances i stop r : advances r (after_id i stop r).
Proof.
  unfold after_id.
  destruct (lookup "index" stop), (lookup "location" stop),
    (lookup "date_time_period" stop);
    repeat first
      [ apply advances_refl
      | apply advances_error
      | apply date_time_period_advances
      | apply location_structure_advances
      | (eapply advances_trans; [|apply advances_error])
      | (eapply advances_trans; [|apply date_time_period_advances])
      | (eapply advances_trans; [|apply location_structure_advances]) ].
Qed.

Lemma stop_valid_id i stop ids r :
  is_valid (snd (validate_stop i stop ids r)) = true ->
  is_valid r = true
  /\ is_valid (after_id i stop r) = true
  /\ exists id, stop_id_text stop = Some id
                /\ ~ In id ids
                /\ fst (validate_stop i stop ids r) = ids ++ [id].
Proof.
  unfold validate_stop, stop_id_text, lookup.
  destruct (or_find (find (ns +++ "id") stop) (find "id" stop)) as [e|];
    [destruct (text_empty e);
     [|destruct (mem_string (text_str (text e)) ids) eqn:M]|];
    cbn [fst snd]; intros H;
    try (apply (valid_before (after_id_advances i stop _)) in H; discriminate H).
  split; [exact (valid_before (after_id_advances i stop r) H)|].
  split; [exact H|].
  exists (text_str (text e)). split; [reflexivity|]. split; [|reflexivity].
  now apply mem_string_false.
Qed.

Lemma stops_from_valid : forall l i ids r,
  is_valid (validate_stops_from i l ids r) = true ->
  NoDup ids ->
  is_valid r = true
  /\ exists new, map stop_id_text l = map Some new /\ NoDup (ids ++ new).
Proof.
  induction l as [|stop l IH]; intros i ids r H Hnd; simpl in H.
  - split; [assumption|]. exists []. rewrite app_nil_r. auto.
  - pose proof (@stop_valid_id i stop ids r) as Hs.
    destruct (validate_stop i stop ids r) as [ids' r'] eqn:E. cbn [fst snd] in Hs.
    assert (Hnd' : is_valid r' = true -> NoDup ids').
    { intros Hv. destruct (Hs Hv) as (_ & _ & id & _ & Hnot & ->).
      apply NoDup_app; [assumption | repeat constructor; intros [] | intros x Hx [<-|[]]].
      contradiction. }
    assert (Hv : is_valid r' = true)
      by exact (valid_before (stops_from_advances l (S i) ids' r') H).
    destruct (IH _ _ _ H (Hnd' Hv)) as (_ & new & Hmap & Hnew).
    destruct (Hs Hv) as (Hr & _ & id & Hid & _ & ->).
    split; [assumption|]. exists (id :: new). simpl. rewrite Hid, Hmap.
    split; [reflexivity|]. now rewrite <- app_assoc in Hnew.
Qed.

End StopFacts.

(** X6.  In a document the structural pass accepts, the [stops] element
    it finds holds at least one stop, every stop has an identifier with a
    text, and no two stops share an identifier. *)
Theorem structure_valid_stop_ids_distinct (root transport_order stops : ET.Element) :
  is_valid (StructuralValidator.validate_xml_structure (ET.Parsed root)) = true ->
  (ET.find_descendant (ns +++ "transport_order") root = Some transport_order
   \/ (ET.find_descendant (ns +++ "transport_order") root = None
       /\ ET.find_descendant "transport_order" root = Some transport_order)) ->
  lookup "stops" transport_order = Some stops ->
  let stop_elements :=
    ET.or_findall (ET.findall (ns +++ "stop") stops) (ET.findall "stop" stops) in
  stop_elements <> []
  /\ exists ids, map stop_id_text stop_elements = map Some ids /\ NoDup ids.
Proof.
  unfold StructuralValidator.validate_xml_structure. intros H Hto Hstops. cbv zeta in H.
  destruct (StructureFacts.transport_order_found _ _ H) as (e & He & Hv).
  assert (e = transport_order) as ->
    by (destruct Hto as [E | [E1 E2]], He as [E' | [E1' E2']]; congruence).
  clear H. unfold StructuralValidator.validate_element_structure in Hv.
  unfold lookup in Hstops. rewrite Hstops in Hv. cbv zeta in Hv. cbv zeta.
  destruct (ET.or_findall (ET.findall (ns +++ "stop") stops) (ET.findall "stop" stops))
    as [|stop rest]; [discriminate Hv|].
  split; [discriminate|]. cbn [List.length Nat.eqb] in Hv.
  apply StopFacts.stops_from_valid in Hv as (_ & ids & Hmap & Hnd); [|constructor].
  exists ids. auto.
Qed.

Lemma structure_valid_stop_ids_distinct_witness :
  exists ids,
    map stop_id_text
      (Samples.stops_from Samples.bare 0 ["0"; "1"]) = map Some ids /\ NoDup ids.
Proof.
  destruct (@structure_valid_stop_ids_distinct
              (Samples.bare_document ["0"; "1"] "0000203512" []) _ _
              eq_refl (or_intror (conj eq_refl eq_refl)) eq_refl) as [_ H].
  exact H.
Defined.

Module StopPartFacts.
Import ET StructuralValidator Invariant ValidatorFacts StructureFacts.

Lemma location_valid location n r :
  is_valid (validate_location_structure location n r) = true ->
  exists country,
    has_text_child "company_name" location
    /\ has_text_child "city" location
    /\ lookup "country" location = Some country
    /\ text_empty country = false
    /\ Re.re_match Patterns.country (text_str (text country)) = true.
Proof.
  unfold validate_location_structure. intros H.
  cbv zeta in H. fold (lookup "country" location) in H.
  match type of H with
  | context [fold_left ?f ?l r] => assert (Hv : is_valid (fold_left f l r) = true)
  end.
  { destruct (lookup "country" location) as [c|]; [|exact H].
    destruct (text c) as [t|]; [|exact H].
    destruct (negb (String.eqb t "") && negb (Re.re_match Patterns.country t));
      [discriminate H | exact H]. }
  apply (@fold_valid_all _ _
           (fun name => match lookup name location with
                        | None => false
                        | Some e => negb (text_empty e)
                        end)) in Hv.
  - cbn [forallb] in Hv. rewrite !andb_true_iff in Hv. destruct Hv as (H1 & H2 & H3 & _).
    destruct (lookup "country" location) as [c|] eqn:Ec; [|discriminate H3].
    exists c. apply negb_true_iff in H3.
    repeat split; try assumption.
    + unfold has_text_child. destruct (lookup "company_name" location) as [e|];
        [|discriminate]. exists e. apply negb_true_iff in H1. auto.
    + unfold has_text_child. destruct (lookup "city" location) as [e|];
        [|discriminate]. exists e. apply negb_true_iff in H2. auto.
    + unfold text_empty in H3. destruct (text c) as [t|]; [|discriminate H3].
      rewrite H3 in H. simpl in H. simpl.
      destruct (Re.re_match Patterns.country t); [reflexivity | discriminate H].
  - intros r0 x. advance.
  - intros r0 x Hx. unfold lookup in Hx.
    destruct (or_find (find (ns +++ x) location) (find x location)) as [e|];
      [|reflexivity].
    apply negb_false_iff in Hx. rewrite Hx. reflexivity.
Qed.

Lemma period_bound_valid bound which n r :
  is_valid (validate_period_bound bound which n r) = true ->
  is_valid r = true
  /\ exists e, bound = Some e /\ text_empty e = false
               /\ Patterns.iso_datetime_match (text_str (text e)) = true.
Proof.
  unfold validate_period_bound, validate_datetime_format.
  destruct bound as [e|]; [|discriminate].
  destruct (text_empty e) eqn:Et; [discriminate|].
  destruct (Patterns.iso_datetime_match (text_str (text e))) eqn:Em; [|discriminate].
  simpl. intros H. split; [assumption|]. exists e. auto.
Qed.

Lemma after_id_valid i stop r :
  is_valid (after_id i stop r) = true -> complete_stop stop.
Proof.
  unfold after_id, complete_stop. intros H.
  destruct (lookup "date_time_period" stop) as [period|]; [|discriminate H].
  unfold validate_date_time_period in H. cbv zeta in H.
  apply period_bound_valid in H as (H & end_ & Hend & Hte & Hme).
  apply period_bound_valid in H as (H & start & Hstart & Hts & Hms).
  destruct (lookup "location" stop) as [location|]; [|discriminate H].
  pose proof (valid_before (location_structure_advances _ _ _) H) as Hi.
  apply location_valid in H as (country & H1 & H2 & H3 & H4 & H5).
  split; [|split].
  - destruct (lookup "index" stop); [discriminate | simpl in Hi; discriminate Hi].
  - exists location, country. repeat split; assumption.
  - exists period, start, end_. repeat split; assumption.
Qed.

Lemma stops_from_complete : forall l i ids r,
  is_valid (validate_stops_from i l ids r) = true -> Forall complete_stop l.
Proof.
  induction l as [|stop l IH]; intros i ids r H; simpl in H; [constructor|].
  pose proof (@StopFacts.stop_valid_id i stop ids r) as Hs.
  destruct (validate_stop i stop ids r) as [ids' r'] eqn:E. cbn [fst snd] in Hs.
  pose proof (valid_before (stops_from_advances l (S i) ids' r') H) as Hv.
  destruct (Hs Hv) as (_ & Ha & _).
  constructor; [exact (after_id_valid _ _ _ Ha) | exact (IH _ _ _ H)].
Qed.

End StopPartFacts.

(** X7.  In a document the structural pass accepts, every stop of the
    [stops] element it finds has an index, a location with a company
    name, a city and a country code accepted by the country pattern, and
    a period whose start and end are accepted by the date pattern. *)
Theorem structure_valid_stops_complete (root transport_order stops : ET.Element) :
  is_valid (StructuralValidator.validate_xml_structure (ET.Parsed root)) = true ->
  (ET.find_descendant (ns +++ "transport_order") root = Some transport_order
   \/ (ET.find_descendant (ns +++ "transport_order") root = None
       /\ ET.find_descendant "transport_order" root = Some transport_order)) ->
  lookup "stops" transport_order = Some stops ->
  Forall complete_stop
    (ET.or_findall (ET.findall (ns +++ "stop") stops) (ET.findall "stop" stops)).
Proof.
  unfold StructuralValidator.validate_xml_structure. intros H Hto Hstops. cbv zeta in H.
  destruct (StructureFacts.transport_order_found _ _ H) as (e & He & Hv).
  assert (e = transport_order) as ->
    by (destruct Hto as [E | [E1 E2]], He as [E' | [E1' E2']]; congruence).
  clear H. unfold StructuralValidator.validate_element_structure in Hv.
  unfold lookup in Hstops. rewrite Hstops in Hv. cbv zeta in Hv.
  destruct (ET.or_findall (ET.findall (ns +++ "stop") stops) (ET.findall "stop" stops))
    as [|stop rest]; [constructor|].
  cbn [List.length Nat.eqb] in Hv.
  exact (StopPartFacts.stops_from_complete _ _ _ _ Hv).
Qed.

Lemma structure_valid_stops_complete_witness :
  Forall complete_stop (Samples.stops_from Samples.bare 0 ["0"; "1"]).
Proof.
  exact (@structure_valid_stops_complete
           (Samples.bare_document ["0"; "1"] "0000203512" []) _ _
           eq_refl (or_intror (conj eq_refl eq_refl)) eq_refl).
Defined.

Module AcceptedStops.
Import ET StructuralValidator.

(** The stops of an accepted document went through the loop of
    [_validate_stops]. *)
Lemma accepted_stops (root transport_order stops : Element) :
  is_valid (validate_xml_structure (Parsed root)) = true ->
  (find_descendant (ns +++ "transport_order") root = Some transport_order
   \/ (find_descendant (ns +++ "transport_order") root = None
       /\ find_descendant "transport_order" root = Some transport_order)) ->
  lookup "stops" transport_order = Some stops ->
  exists r,
    is_valid (validate_stops_from 0
                (or_findall (findall (ns +++ "stop") stops) (findall "stop" stops)) [] r)
    = true.
Proof.
  unfold validate_xml_structure. intros H Hto Hstops. cbv zeta in H.
  destruct (StructureFacts.transport_order_found _ _ H) as (e & He & Hv).
  assert (e = transport_order) as ->
    by (destruct Hto as [E | [E1 E2]], He as [E' | [E1' E2']]; congruence).
  clear H. unfold validate_element_structure in Hv.
  unfold lookup in Hstops. rewrite Hstops in Hv. cbv zeta in Hv.
  destruct (or_findall (findall (ns +++ "stop") stops) (findall "stop" stops))
    as [|stop rest]; [discriminate Hv|].
  cbn [List.length Nat.eqb] in Hv. eexists. exact Hv.
Qed.

End AcceptedStops.

(** X8.  A stop whose only [id] child carries the namespaced tag and has
    no children of its own is taken to have no identifier: the lookup
    [find(ns + "id") or find("id")] skips an element without children.  A
    document with such a stop among the stops the structural pass visits
    is rejected by it. *)
Theorem namespaced_leaf_stop_id_rejected (root transport_order stops stop : ET.Element) :
  (ET.find_descendant (ns +++ "transport_order") root = Some transport_order
   \/ (ET.find_descendant (ns +++ "transport_order") root = None
       /\ ET.find_descendant "transport_order" root = Some transport_order)) ->
  lookup "stops" transport_order = Some stops ->
  In stop (ET.or_findall (ET.findall (ns +++ "stop") stops) (ET.findall "stop" stops)) ->
  ET.find "id" stop = None ->
  (forall e, ET.find (ns +++ "id") stop = Some e -> ET.children e = []) ->
  is_valid (StructuralValidator.validate_xml_structure (ET.Parsed root)) = false.
Proof.
  intros Hto Hstops Hin Hbare Hleaf.
  destruct (is_valid (StructuralValidator.validate_xml_structure (ET.Parsed root))) eqn:Hv;
    [exfalso|reflexivity].
  destruct (AcceptedStops.accepted_stops _ Hv Hto Hstops) as (r & Hr).
  apply StopFacts.stops_from_valid in Hr as (_ & ids & Hmap & _); [|constructor].
  assert (Hnone : stop_id_text stop = None).
  { unfold stop_id_text, ET.or_find. rewrite Hbare.
    destruct (ET.find (ns +++ "id") stop) as [e|] eqn:E; [|reflexivity].
    unfold ET.truthy. now rewrite (Hleaf e eq_refl). }
  apply (in_map stop_id_text) in Hin. rewrite Hmap, Hnone in Hin.
  apply in_map_iff in Hin as (x & Hx & _). discriminate Hx.
Qed.

Lemma namespaced_leaf_stop_id_rejected_witness :
  is_valid (StructuralValidator.validate_xml_structure
              (ET.Parsed (Samples.namespaced_document ["0"; "1"] "0000203512" []))) = false.
Proof.
  apply (@namespaced_leaf_stop_id_rejected
           (Samples.namespaced_document ["0"; "1"] "0000203512" []) _ _
           (Samples.stop Samples.qualified "S0" "0")
           (or_introl eq_refl) eq_refl).
  - left. reflexivity.
  - reflexivity.
  - intros e H. vm_compute in H. injection H as <-. reflexivity.
Defined.

(** *** The cleanup only deletes *)

Module DeletionFacts.
Import Re XMLDOMBuilder Placeholders.

Lemma subsequence_refl : forall s, Subsequence s s.
Proof. induction s; constructor; assumption. Qed.

Lemma subsequence_trans : forall v w, Subsequence v w -> forall u, Subsequence u v ->
  Subsequence u w.
Proof.
  induction 1 as [|a v w _ IH|a v w _ IH]; intros u Hu.
  - assumption.
  - inversion Hu; subst; constructor; auto.
  - constructor. auto.
Qed.

Lemma subsequence_length u s : Subsequence u s -> (String.length u <= String.length s)%nat.
Proof. induction 1; simpl; lia. Qed.

Lemma sub_from_subsequence r : forall s prev k, Subsequence (sub_from r prev s k) s.
Proof.
  induction s as [|a s IH]; intros prev k; cbn [sub_from]; [constructor|].
  destruct k as [|k]; [|constructor; apply IH].
  destruct (match_here r prev "" (String a s)) as [[|n]|]; constructor; apply IH.
Qed.

Lemma re_sub_empty_subsequence r s : Subsequence (re_sub_empty r s) s.
Proof. apply sub_from_subsequence. Qed.

End DeletionFacts.

(** X9.  The cleanup of unreplaced placeholders only deletes: its output
    is the input with some characters removed, in the same order, so it is
    never longer than the input. *)
Theorem remove_empty_placeholders_only_deletes (xml_string : string) :
  Placeholders.Subsequence (XMLDOMBuilder.remove_empty_placeholders xml_string) xml_string
  /\ (String.length (XMLDOMBuilder.remove_empty_placeholders xml_string)
      <= String.length xml_string)%nat.
Proof.
  assert (H : Placeholders.Subsequence
                (XMLDOMBuilder.remove_empty_placeholders xml_string) xml_string).
  { unfold XMLDOMBuilder.remove_empty_placeholders.
    eapply DeletionFacts.subsequence_trans; [|apply DeletionFacts.re_sub_empty_subsequence].
    eapply DeletionFacts.subsequence_trans; [|apply DeletionFacts.re_sub_empty_subsequence].
    eapply DeletionFacts.subsequence_trans; [|apply DeletionFacts.re_sub_empty_subsequence].
    apply DeletionFacts.re_sub_empty_subsequence. }
  split; [assumption | now apply DeletionFacts.subsequence_length].
Qed.

(** X10.  The cleanup is idempotent: a second run changes nothing. *)
Theorem remove_empty_placeholders_idempotent (xml_string : string) :
  XMLDOMBuilder.remove_empty_placeholders
    (XMLDOMBuilder.remove_empty_placeholders xml_string)
  = XMLDOMBuilder.remove_empty_placeholders xml_string.
Proof.
  apply CleanupFacts.remove_without_pair.
  unfold XMLDOMBuilder.remove_empty_placeholders, Re.re_sub_empty.
  apply CleanupFacts.sub_token_no_pair.
Qed.

(** *** Text replacement *)

Module ReplaceFacts.
Import Placeholders.

Lemma prefix_head c old a s : String.prefix (String c old) (String a s) = true -> a = c.
Proof. simpl. destruct (ascii_dec c a); [auto | discriminate]. Qed.

Lemma prefix_self : forall old rest, String.prefix old (old +++ rest) = true.
Proof.
  induction old as [|c old IH]; intros rest; [now destruct rest|].
  simpl. destruct (ascii_dec c c); [apply IH | contradiction].
Qed.

(** A text without the first character of [old] holds no occurrence. *)
Lemma replace_from_absent c old new : forall s,
  contains_char c s = false -> replace_from (String c old) new s 0 = s.
Proof.
  induction s as [|a s IH]; intros H; [reflexivity|].
  rewrite CleanupFacts.contains_cons in H. apply orb_false_iff in H as [Ha Hs].
  cbn [replace_from].
  destruct (String.prefix (String c old) (String a s)) eqn:E.
  - apply prefix_head in E. subst a. now rewrite Ascii.eqb_refl in Ha.
  - now rewrite IH.
Qed.

Lemma replace_from_skip old new : forall w rest,
  replace_from old new (w +++ rest) (String.length w) = replace_from old new rest 0.
Proof.
  induction w as [|a w IH]; intros rest; [reflexivity|].
  cbn [append String.length replace_from]. apply IH.
Qed.

(** Up to the first occurrence the text is kept, and the occurrence is
    replaced. *)
Lemma replace_from_first c old new rest : forall pre,
  contains_char c pre = false ->
  replace_from (String c old) new (pre +++ String c (old +++ rest)) 0
  = pre +++ new +++ replace_from (String c old) new rest 0.
Proof.
  induction pre as [|a pre IH]; intros H.
  - cbn [append]. cbn [replace_from].
    change (String c (old +++ rest)) with (String c old +++ rest).
    rewrite prefix_self.
    replace (String.length (String c old) - 1) with (String.length old)
      by (cbn [String.length]; lia).
    now rewrite replace_from_skip.
  - rewrite CleanupFacts.contains_cons in H. apply orb_false_iff in H as [Ha Hs].
    cbn [append]. cbn [replace_from].
    destruct (String.prefix (String c old) (String a (pre +++ String c (old +++ rest))))
      eqn:E.
    + apply prefix_head in E. subst a. now rewrite Ascii.eqb_refl in Ha.
    + now rewrite IH.
Qed.

Lemma replacements_absent : forall replacements template,
  contains_char "{" template = false ->
  replace_placeholders template replacements = template.
Proof.
  unfold replace_placeholders.
  induction replacements as [|[placeholder value] l IH]; intros template H; [reflexivity|].
  cbn [fold_left]. cbn [append str_replace].
  rewrite (@replace_from_absent _ _ _ _ H). now apply IH.
Qed.

(** *** Escaping *)

Lemma flat_map_append f : forall u v,
  flat_map_string f (u +++ v) = flat_map_string f u +++ flat_map_string f v.
Proof.
  induction u as [|a u IH]; intros v; simpl; [reflexivity|].
  now rewrite IH, append_assoc.
Qed.

(** Replacing a single character is a character-wise substitution. *)
Lemma replace_char c new : forall s,
  str_replace (String c "") new s
  = flat_map_string (fun a => if Ascii.eqb a c then new else String a "") s.
Proof.
  unfold str_replace. induction s as [|a s IH]; [reflexivity|].
  cbn [replace_from flat_map_string String.prefix String.length Nat.sub].
  destruct (ascii_dec c a) as [E|E].
  - subst a. rewrite Ascii.eqb_refl. destruct s; now rewrite IH.
  - destruct (Ascii.eqb_spec a c) as [E'|_]; [now symmetry in E'|].
    now rewrite IH.
Qed.

Lemma escape_comment_flat : forall comment,
  escape_comment comment = flat_map_string escape_char comment.
Proof.
  unfold escape_comment. intros comment. rewrite !replace_char.
  induction comment as [|a s IH]; [reflexivity|].
  cbn [flat_map_string]. rewrite !flat_map_append, IH. f_equal.
  unfold escape_char.
  destruct (Ascii.eqb a "&") eqn:E1; [reflexivity|].
  cbn [flat_map_string]. rewrite append_empty_r.
  destruct (Ascii.eqb a "<") eqn:E2; [reflexivity|].
  cbn [flat_map_string]. rewrite append_empty_r.
  destruct (Ascii.eqb a ">") eqn:E3; reflexivity.
Qed.

Lemma escape_char_clean d c :
  d = "<"%char \/ d = ">"%char -> contains_char d (escape_char c) = false.
Proof.
  unfold escape_char. intros Hd.
  destruct (Ascii.eqb c "&") eqn:E1; [destruct Hd; subst d; reflexivity|].
  destruct (Ascii.eqb c "<") eqn:E2; [destruct Hd; subst d; reflexivity|].
  destruct (Ascii.eqb c ">") eqn:E3; [destruct Hd; subst d; reflexivity|].
  rewrite CleanupFacts.contains_cons. rewrite Ascii.eqb_sym.
  destruct Hd; subst d; [rewrite E2 | rewrite E3]; reflexivity.
Qed.

End ReplaceFacts.

(** X11.  [replace_placeholders] returns a template without an opening
    brace unchanged, whatever the replacements; and one replacement turns
    the first occurrence of its token [{name}] into the value, keeping
    the text before it, when that text holds no opening brace. *)
Theorem replace_placeholders_first_token (name value pre post : string)
    (replacements : list (string * string)) :
  contains_char "{" pre = false ->
  Placeholders.replace_placeholders pre replacements = pre
  /\ Placeholders.replace_placeholders (pre +++ "{" +++ name +++ "}" +++ post)
       [(name, value)]
     = pre +++ value +++ Placeholders.replace_placeholders post [(name, value)].
Proof.
  intros H. split; [now apply ReplaceFacts.replacements_absent|].
  unfold Placeholders.replace_placeholders. cbn [fold_left].
  cbn [append Placeholders.str_replace].
  pose proof (@ReplaceFacts.replace_from_first "{" (name +++ "}") value post pre H) as E.
  cbn [append] in E. rewrite (append_assoc name "}" post) in E. exact E.
Qed.

Lemma replace_placeholders_first_token_witness :
  Placeholders.replace_placeholders "<number>{number}</number>" [("number", "1404338")]
  = "<number>1404338</number>".
Proof.
  exact (proj2 (@replace_placeholders_first_token "number" "1404338" "<number>"
                  "</number>" [] eq_refl)).
Defined.

(** X12.  The escaping of a comment by the three successive [replace]
    calls acts on each character on its own: [&], [<] and [>] become
    [&amp;], [&lt;] and [&gt;], the ampersands of the entities are not
    escaped again, every other character is kept; the result holds
    neither [<] nor [>]. *)
Theorem escape_comment_characterwise (comment : string) :
  Placeholders.escape_comment comment
  = Placeholders.flat_map_string Placeholders.escape_char comment
  /\ contains_char "<" (Placeholders.escape_comment comment) = false
  /\ contains_char ">" (Placeholders.escape_comment comment) = false.
Proof.
  rewrite ReplaceFacts.escape_comment_flat. split; [reflexivity|].
  induction comment as [|a s [IH1 IH2]]; [split; reflexivity|].
  cbn [Placeholders.flat_map_string]. rewrite !CleanupFacts.contains_append, IH1, IH2.
  rewrite !ReplaceFacts.escape_char_clean; auto.
Qed.

(** *** The business rules as a whole *)

Module RulesFacts.

Lemma insert_rule_in x r : forall l, In x (insert_rule r l) -> x = r \/ In x l.
Proof.
  induction l as [|y l IH]; simpl.
  - intros [<-|[]]. auto.
  - destruct (priority r <? priority y)%Z; simpl; intros [H|H]; auto.
    destruct (IH H); auto.
Qed.

Lemma sorted_rules_in x l : In x (sorted_rules l) -> In x l.
Proof.
  unfold sorted_rules.
  assert (G : forall l acc,
             In x (fold_left (fun acc r => insert_rule r acc) l acc) -> In x acc \/ In x l).
  { clear l. induction l as [|r l IH]; intros acc H; simpl in *; [auto|].
    apply IH in H as [H|H]; [|auto].
    apply insert_rule_in in H as [->|H]; auto. }
  intros H. apply G in H as [[]|H]. exact H.
Qed.

Lemma map_first_pattern_other key target user_input : key <> target ->
  forall patterns result,
  dict_get key (map_first_pattern patterns target user_input result) = dict_get key result.
Proof.
  intros Hne. induction patterns as [|p patterns IH]; intros result; simpl; [reflexivity|].
  destruct (present_truthy p user_input); [now apply DictFacts.get_set_other | apply IH].
Qed.

Lemma single_rule_other key rule user_input result :
  target_field rule <> Some key -> action_field rule <> Some key ->
  dict_get key (apply_single_rule rule user_input result) = dict_get key result.
Proof.
  intros Ht Ha. unfold apply_single_rule.
  destruct (rule_id rule) as [id|]; [|reflexivity].
  destruct (String.eqb id "carrier_id_mapping_rule").
  - unfold apply_field_mapping_rule.
    destruct (target_field rule) as [target|]; [|reflexivity].
    destruct (String.eqb target ""); [reflexivity|].
    destruct (present_truthy target result); [reflexivity|].
    apply map_first_pattern_other. congruence.
  - destruct (String.eqb id "carrier_creditor_status_rule"); [|reflexivity].
    unfold apply_status_rule.
    destruct (condition_field rule) as [cf|]; [|reflexivity].
    destruct (condition_operator rule) as [op|]; [|reflexivity].
    destruct (action_field rule) as [af|]; [|reflexivity].
    destruct (action_value rule) as [av|]; [|reflexivity].
    destruct (_ && _); [|reflexivity].
    destruct (String.eqb op "has_value"); [|reflexivity].
    destruct (present_truthy cf result); [|reflexivity].
    apply DictFacts.get_set_other. congruence.
Qed.

End RulesFacts.

(** X13.  The business rules write only the fields they name: a key that
    is neither the target field nor the action field of any rule has the
    same entry in the result as in the collected data. *)
Theorem business_rules_keep_other_fields (business_rules : list BusinessRule)
    (transport_type : string) (user_input collected_data : dict) (key : string) :
  (forall rule, In rule business_rules ->
     target_field rule <> Some key /\ action_field rule <> Some key) ->
  dict_get key (apply_business_rules business_rules transport_type user_input collected_data)
  = dict_get key collected_data.
Proof.
  intros H. unfold apply_business_rules.
  assert (Hs : forall rule, In rule (sorted_rules business_rules) ->
                 target_field rule <> Some key /\ action_field rule <> Some key)
    by (intros rule Hin; apply H, RulesFacts.sorted_rules_in, Hin).
  revert Hs. generalize (sorted_rules business_rules). intros l. revert collected_data.
  induction l as [|rule l IH]; intros collected_data Hs; [reflexivity|].
  cbn [fold_left]. rewrite IH by (intros r Hr; apply Hs; now right).
  destruct (negb (mem_string transport_type (applies_to rule))); [reflexivity|].
  destruct (Hs rule (or_introl eq_refl)). now apply RulesFacts.single_rule_other.
Qed.

Lemma business_rules_keep_other_fields_witness :
  dict_get "number"
    (apply_business_rules
       [Samples.carrier_creditor_status_rule; Samples.carrier_id_mapping_rule]
       "simple_road" [("carrier_id", VStr "0000203512")] [("number", VStr "0081310198")])
  = Some (VStr "0081310198").
Proof.
  apply (@business_rules_keep_other_fields
           [Samples.carrier_creditor_status_rule; Samples.carrier_id_mapping_rule]
           "simple_road" [("carrier_id", VStr "0000203512")]
           [("number", VStr "0081310198")] "number").
  intros rule [<-|[<-|[]]]; split; discriminate.
Defined.

(** X14.  The rules run by ascending priority, not in the order of the
    file: with a mapping rule of lower priority number than the status
    rule on its target, a carrier given under an alternative name is first
    stored under the target field and then triggers the status action,
    whichever of the two rules the file lists first. *)
Theorem mapping_rule_feeds_status_rule (mapping status : BusinessRule)
    (business_rules : list BusinessRule) (transport_type : string)
    (user_input collected_data : dict) (target action : string)
    (skipped rest : list string) (pattern : string) (v action_v : value) :
  business_rules = [mapping; status] \/ business_rules = [status; mapping] ->
  rule_id mapping = Some "carrier_id_mapping_rule" ->
  rule_id status = Some "carrier_creditor_status_rule" ->
  mem_string transport_type (applies_to mapping) = true ->
  mem_string transport_type (applies_to status) = true ->
  (priority mapping < priority status)%Z ->
  target_field mapping = Some target -> target <> "" ->
  field_patterns mapping = skipped ++ pattern :: rest ->
  Forall (fun p => present_truthy p user_input = false) skipped ->
  dict_get pattern user_input = Some v -> truthy v = true ->
  present_truthy target collected_data = false ->
  condition_field status = Some target ->
  condition_operator status = Some "has_value" ->
  action_field status = Some action -> action <> "" ->
  action_value status = Some action_v -> truthy action_v = true ->
  apply_business_rules business_rules transport_type user_input collected_data
  = dict_set action action_v (dict_set target v collected_data).
Proof.
  intros Hrules Hm Hs Am As Hp Ht Hte Hf Hsk Hg Hv Hc Cf Co Af Afe Av Avt.
  assert (Hsorted : sorted_rules business_rules = [mapping; status]).
  { destruct Hrules as [-> | ->]; unfold sorted_rules; cbn [fold_left insert_rule].
    - destruct (Z.ltb_spec (priority status) (priority mapping)); [lia | reflexivity].
    - destruct (Z.ltb_spec (priority mapping) (priority status)); [reflexivity | lia]. }
  unfold apply_business_rules. rewrite Hsorted. cbn [fold_left]. rewrite Am, As.
  cbn [negb]. unfold apply_single_rule. rewrite Hm, Hs. cbn [String.eqb Ascii.eqb Bool.eqb].
  assert (Hmap : apply_field_mapping_rule mapping user_input collected_data
                 = dict_set target v collected_data).
  { unfold apply_field_mapping_rule. rewrite Ht.
    destruct (String.eqb_spec target ""); [contradiction|].
    rewrite Hc, Hf. now apply map_first_pattern_found. }
  rewrite Hmap. unfold apply_status_rule. rewrite Cf, Co, Af, Av, Avt.
  destruct (String.eqb_spec target ""); [contradiction|].
  destruct (String.eqb_spec action ""); [contradiction|].
  cbn [negb andb String.eqb Ascii.eqb Bool.eqb].
  unfold present_truthy. now rewrite DictFacts.get_set_same, Hv.
Qed.

Lemma mapping_rule_feeds_status_rule_witness :
  apply_business_rules
    [Samples.carrier_creditor_status_rule; Samples.carrier_id_mapping_rule]
    "simple_road" [("carrier_id", VStr "0000203512")] [("status", VStr "N")]
  = [("status", VStr "NTO"); ("carrier_creditor_number", VStr "0000203512")].
Proof.
  apply (@mapping_rule_feeds_status_rule Samples.carrier_id_mapping_rule
           Samples.carrier_creditor_status_rule
           [Samples.carrier_creditor_status_rule; Samples.carrier_id_mapping_rule]
           "simple_road" [("carrier_id", VStr "0000203512")] [("status", VStr "N")]
           "carrier_creditor_number" "status" [] ["carrier"; "carrier_number"]
           "carrier_id" (VStr "0000203512") (VStr "NTO"));
    try reflexivity; try discriminate; try lia; auto.
Defined.

(** *** What a valid result of the transport-type rules guarantees *)

Module TypeRuleFacts.
Import ET BusinessValidator Invariant ValidatorFacts StructureFacts.

Lemma mem_string_true x l : mem_string x l = true -> In x l.
Proof.
  unfold mem_string. intros H. apply existsb_exists in H as (y & Hy & E).
  apply String.eqb_eq in E. now subst.
Qed.

Lemma mem_string_in x l : In x l -> mem_string x l = true.
Proof.
  intros H. apply existsb_exists. exists x. split; [assumption | apply String.eqb_refl].
Qed.

(** The stages of [_validate_transport_specific_rules]. *)
Lemma specific_stages transport_order transport_type rules r :
  let r1 :=
    fold_left
      (fun result element_name =>
         match or_find (find (ns +++ element_name) transport_order)
                       (find element_name transport_order) with
         | None =>
             set_invalid
               (append_error (transport_type +++ ": Required element '" +++ element_name
                                +++ "' is missing") result)
         | Some _ => result
         end)
      (required_elements rules) r in
  let r2 := validate_stop_counts transport_order transport_type rules r1 in
  let r3 :=
    if String.eqb transport_type "ocean_visibility"
    then validate_ocean_fixed_values transport_order rules r2
    else r2 in
  let r4 := validate_parameter_restrictions transport_order transport_type rules r3 in
  is_valid (validate_transport_specific_rules transport_order transport_type rules r) = true ->
  is_valid r1 = true /\ is_valid r2 = true /\ is_valid r3 = true /\ is_valid r4 = true.
Proof.
  intros r1 r2 r3 r4 H.
  assert (H4 : is_valid r4 = true).
  { unfold validate_transport_specific_rules in H. cbv zeta in H. fold r1 r2 r3 r4 in H.
    destruct (String.eqb transport_type "complex_road"); [|exact H].
    exact (valid_before (complex_road_rules_advances _ _ _) H). }
  assert (H3 : is_valid r3 = true)
    by exact (valid_before (parameter_restrictions_advances _ _ _ _) H4).
  assert (H2 : is_valid r2 = true).
  { subst r3. destruct (String.eqb transport_type "ocean_visibility"); [|exact H3].
    exact (valid_before (ocean_fixed_values_advances _ _ _) H3). }
  assert (H1 : is_valid r1 = true)
    by exact (valid_before (stop_counts_advances _ _ _ _) H2).
  auto.
Qed.

Lemma required_elements_found transport_order transport_type l r :
  is_valid
    (fold_left
       (fun result element_name =>
          match or_find (find (ns +++ element_name) transport_order)
                        (find element_name transport_order) with
          | None =>
              set_invalid
                (append_error (transport_type +++ ": Required element '" +++ element_name
                                 +++ "' is missing") result)
          | Some _ => result
          end) l r) = true ->
  Forall (fun name => lookup name transport_order <> None) l.
Proof.
  intros H.
  apply (@fold_valid_all _ _
           (fun name => match lookup name transport_order with
                        | Some _ => true | None => false end)) in H.
  - apply Forall_forall. intros name Hin.
    rewrite forallb_forall in H. specialize (H name Hin).
    destruct (lookup name transport_order); [discriminate | discriminate H].
  - intros r0 x. advance.
  - intros r0 x Hx. unfold lookup in Hx.
    destruct (or_find (find (ns +++ x) transport_order) (find x transport_order));
      [discriminate Hx | reflexivity].
Qed.

Lemma stop_counts_valid transport_order transport_type rules r stops :
  is_valid (validate_stop_counts transport_order transport_type rules r) = true ->
  find "stops" transport_order = Some stops ->
  (forall m, minimum_stops rules = Some m -> m <= List.length (findall "stop" stops))%nat
  /\ (forall m, maximum_stops rules = Some m -> List.length (findall "stop" stops) <= m)%nat.
Proof.
  unfold validate_stop_counts. intros H Hs. rewrite Hs in H. cbv zeta in H.
  split; intros m Hm; rewrite Hm in H.
  - destruct (Nat.ltb_spec (List.length (findall "stop" stops)) m) as [Hlt|]; [|assumption].
    exfalso. destruct (maximum_stops rules) as [mx|]; [|discriminate H].
    destruct (mx <? _)%nat; discriminate H.
  - destruct (Nat.ltb_spec m (List.length (findall "stop" stops))) as [Hlt|]; [|assumption].
    discriminate H.
Qed.

Lemma forbidden_loop_valid transport_type forbidden l r :
  is_valid
    (fold_left
       (fun result param =>
          match get "qualifier" param with
          | Some qualifier =>
              if mem_string qualifier forbidden
              then set_invalid
                     (append_error (transport_type +++ ": Forbidden parameter '" +++ qualifier
                                      +++ "' is not allowed") result)
              else result
          | None => result
          end) l r) = true ->
  forall param q, In param l -> get "qualifier" param = Some q -> ~ In q forbidden.
Proof.
  intros H param q Hin Hq Hforb.
  apply (@fold_valid_all _ _
           (fun param => match get "qualifier" param with
                         | Some q => negb (mem_string q forbidden)
                         | None => true
                         end)) in H.
  - rewrite forallb_forall in H. specialize (H param Hin). rewrite Hq in H.
    now rewrite (mem_string_in _ _ Hforb) in H.
  - intros r0 x. advance.
  - intros r0 x Hx. destruct (get "qualifier" x) as [q0|]; [|discriminate Hx].
    apply negb_false_iff in Hx. now rewrite Hx.
Qed.

Lemma mandatory_loop_valid mandatory_fixed l r :
  is_valid
    (fold_left
       (fun result param =>
          match get "qualifier" param with
          | Some qualifier =>
              match assoc_get qualifier mandatory_fixed with
              | Some expected_value =>
                  let differs :=
                    match find "value" param with
                    | None => true
                    | Some value_elem => negb (text_is (text value_elem) expected_value)
                    end in
                  if differs
                  then set_invalid
                         (append_error ("Parameter '" +++ qualifier +++ "' must have value '"
                                          +++ expected_value +++ "'") result)
                  else result
              | None => result
              end
          | None => result
          end) l r) = true ->
  forall param q expected, In param l -> get "qualifier" param = Some q ->
    assoc_get q mandatory_fixed = Some expected ->
    exists value_elem, find "value" param = Some value_elem
                       /\ text value_elem = Some expected.
Proof.
  intros H param q expected Hin Hq He.
  apply (@fold_valid_all _ _
           (fun param =>
              match get "qualifier" param with
              | Some q =>
                  match assoc_get q mandatory_fixed with
                  | Some expected =>
                      match find "value" param with
                      | None => false
                      | Some value_elem => text_is (text value_elem) expected
                      end
                  | None => true
                  end
              | None => true
              end)) in H.
  - rewrite forallb_forall in H. specialize (H param Hin). rewrite Hq, He in H.
    destruct (find "value" param) as [v|]; [|discriminate H].
    exists v. split; [reflexivity|]. unfold text_is in H.
    destruct (text v) as [t|]; [|discriminate H]. apply String.eqb_eq in H. now subst.
  - intros r0 x. cbv zeta. advance.
  - intros r0 x Hx. cbv zeta. destruct (get "qualifier" x) as [q0|]; [|discriminate Hx].
    destruct (assoc_get q0 mandatory_fixed) as [e0|]; [|discriminate Hx].
    destruct (find "value" x) as [v|]; [|reflexivity]. now rewrite Hx.
Qed.

(** The stages of [_validate_parameter_restrictions]. *)
Lemma restriction_stages transport_order transport_type rules r :
  let r1 :=
    match find "parameters" transport_order with
    | Some parameters =>
        fold_left
          (fun result param =>
             match get "qualifier" param with
             | Some qualifier =>
                 if mem_string qualifier (forbidden_qualifiers rules)
                 then set_invalid
                        (append_error (transport_type +++ ": Forbidden parameter '" +++ qualifier
                                         +++ "' is not allowed") result)
                 else result
             | None => result
             end)
          (findall "parameter" parameters) r
    | None => r
    end in
  let r2 :=
    if String.eqb transport_type "ocean_visibility"
    then validate_required_parameters transport_order (required_parameters rules) r1
    else r1 in
  is_valid (validate_parameter_restrictions transport_order transport_type rules r) = true ->
  is_valid r1 = true /\ is_valid r2 = true
  /\ is_valid (validate_mandatory_fixed_parameters transport_order
                 (mandatory_fixed_parameters rules) r2) = true.
Proof.
  intros r1 r2 H. unfold validate_parameter_restrictions in H. cbv zeta in H.
  fold r1 r2 in H.
  assert (H2 : is_valid r2 = true)
    by exact (valid_before (mandatory_fixed_advances _ _ _) H).
  assert (H1 : is_valid r1 = true).
  { subst r2. destruct (String.eqb transport_type "ocean_visibility"); [|exact H2].
    exact (valid_before (required_parameters_advances _ _ _) H2). }
  auto.
Qed.

Lemma required_parameters_valid transport_order required_params r :
  is_valid (validate_required_parameters transport_order required_params r) = true ->
  required_params <> [] ->
  exists parameters,
    find "parameters" transport_order = Some parameters
    /\ Forall (fun q => exists param, In param (findall "parameter" parameters)
                                      /\ get "qualifier" param = Some q)
              required_params.
Proof.
  unfold validate_required_parameters. intros H Hne.
  destruct (find "parameters" transport_order) as [parameters|].
  - exists parameters. split; [reflexivity|].
    apply (@fold_valid_all _ _
             (fun q => mem_opt q (map (get "qualifier") (findall "parameter" parameters))))
      in H.
    + apply Forall_forall. intros q Hq. rewrite forallb_forall in H. specialize (H q Hq).
      unfold mem_opt in H. apply existsb_exists in H as (o & Ho & E).
      apply in_map_iff in Ho as (param & Hparam & Hin).
      destruct o as [y|]; [|discriminate E]. apply String.eqb_eq in E. subst y.
      exists param. auto.
    + intros r0 x. advance.
    + intros r0 x Hx. now rewrite Hx.
  - destruct required_params; [contradiction | discriminate H].
Qed.

Lemma ocean_fixed_values_valid transport_order rules r :
  is_valid (validate_ocean_fixed_values transport_order rules r) = true ->
  Forall (fun entry => exists element, find (fst entry) transport_order = Some element
                                       /\ text element = Some (snd entry))
         (fixed_values rules).
Proof.
  unfold validate_ocean_fixed_values. intros H.
  apply (@fold_valid_all _ _
           (fun entry : string * string =>
              match find (fst entry) transport_order with
              | None => false
              | Some element => text_is (text element) (snd entry)
              end)) in H.
  - apply Forall_forall. intros [f v] Hin. rewrite forallb_forall in H.
    specialize (H _ Hin). cbn [fst snd] in *.
    destruct (find f transport_order) as [e|]; [|discriminate H].
    exists e. split; [reflexivity|]. unfold text_is in H.
    destruct (text e) as [t|]; [|discriminate H]. apply String.eqb_eq in H. now subst.
  - intros r0 [f v]. advance.
  - intros r0 [f v] Hx. cbn [fst snd] in Hx.
    destruct (find f transport_order) as [e|]; [|reflexivity]. now rewrite Hx.
Qed.

End TypeRuleFacts.

(** X15.  A document the transport-type rules accept, for a type the
    configuration has rules for: every required element of the rules is
    found below [transport_order]; when [stops] is found by its bare tag,
    the number of its [stop] children lies within the minimum and the
    maximum of the rules; no parameter carries a forbidden qualifier; and
    every parameter whose qualifier has a mandatory fixed value carries
    that value. *)
Theorem transport_type_rules_valid_guarantees
    (transport_rules : list (string * BusinessValidator.TypeRules))
    (root transport_order : ET.Element) (transport_type : string)
    (rules : BusinessValidator.TypeRules) :
  ET.find_descendant (ns +++ "transport_order") root = Some transport_order ->
  ET.assoc_get transport_type transport_rules = Some rules ->
  is_valid (BusinessValidator.validate_transport_type_rules transport_rules
              (ET.Parsed root) transport_type) = true ->
  Forall (fun name => lookup name transport_order <> None)
         (BusinessValidator.required_elements rules)
  /\ (forall stops, ET.find "stops" transport_order = Some stops ->
        (forall m, BusinessValidator.minimum_stops rules = Some m ->
                   m <= List.length (ET.findall "stop" stops))%nat
        /\ (forall m, BusinessValidator.maximum_stops rules = Some m ->
                      List.length (ET.findall "stop" stops) <= m)%nat)
  /\ (forall parameters param q,
        ET.find "parameters" transport_order = Some parameters ->
        In param (ET.findall "parameter" parameters) ->
        ET.get "qualifier" param = Some q ->
        ~ In q (BusinessValidator.forbidden_qualifiers rules)
        /\ forall expected,
             ET.assoc_get q (BusinessValidator.mandatory_fixed_parameters rules)
             = Some expected ->
             exists value_elem, ET.find "value" param = Some value_elem
                                /\ ET.text value_elem = Some expected).
Proof.
  intros Hto Hrules H. unfold BusinessValidator.validate_transport_type_rules in H.
  rewrite Hto, Hrules in H.
  destruct (TypeRuleFacts.specific_stages _ _ _ _ H) as (H1 & H2 & _ & H4).
  split; [exact (TypeRuleFacts.required_elements_found _ _ _ _ H1)|].
  split; [intros stops Hs; exact (TypeRuleFacts.stop_counts_valid _ _ _ _ H2 Hs)|].
  intros parameters param q Hp Hin Hq.
  destruct (TypeRuleFacts.restriction_stages _ _ _ _ H4) as (F1 & _ & F3).
  rewrite Hp in F1. split.
  - exact (TypeRuleFacts.forbidden_loop_valid _ _ _ _ F1 param Hin Hq).
  - intros expected He. unfold BusinessValidator.validate_mandatory_fixed_parameters in F3.
    rewrite Hp in F3.
    exact (TypeRuleFacts.mandatory_loop_valid _ _ _ F3 param Hin Hq He).
Qed.

Lemma transport_type_rules_valid_guarantees_witness :
  exists transport_order,
    ET.find_descendant (ns +++ "transport_order")
      (Samples.prefixed_document ["0"; "1"] "0000203512" Samples.creditor_parameters)
    = Some transport_order
    /\ Forall (fun name => lookup name transport_order <> None) ["number"; "stops"].
Proof.
  eexists. split; [reflexivity|].
  exact (proj1 (@transport_type_rules_valid_guarantees Samples.type_rules
                  (Samples.prefixed_document ["0"; "1"] "0000203512"
                     Samples.creditor_parameters)
                  _ "simple_road" Samples.simple_road_rules eq_refl eq_refl eq_refl)).
Defined.

(** X16.  A document the transport-type rules accept as ocean
    visibility: every fixed value of the rules is the text of the element
    of that name, and, when the rules require parameters, the parameters
    section exists and holds a parameter for every required qualifier. *)
Theorem ocean_type_rules_valid_guarantees
    (transport_rules : list (string * BusinessValidator.TypeRules))
    (root transport_order : ET.Element) (rules : BusinessValidator.TypeRules) :
  ET.find_descendant (ns +++ "transport_order") root = Some transport_order ->
  ET.assoc_get "ocean_visibility" transport_rules = Some rules ->
  is_valid (BusinessValidator.validate_transport_type_rules transport_rules
              (ET.Parsed root) "ocean_visibility") = true ->
  Forall (fun entry => exists element,
            ET.find (fst entry) transport_order = Some element
            /\ ET.text element = Some (snd entry))
         (BusinessValidator.fixed_values rules)
  /\ (BusinessValidator.required_parameters rules <> [] ->
      exists parameters,
        ET.find "parameters" transport_order = Some parameters
        /\ Forall (fun q => exists param,
                     In param (ET.findall "parameter" parameters)
                     /\ ET.get "qualifier" param = Some q)
                  (BusinessValidator.required_parameters rules)).
Proof.
  intros Hto Hrules H. unfold BusinessValidator.validate_transport_type_rules in H.
  rewrite Hto, Hrules in H.
  destruct (TypeRuleFacts.specific_stages _ _ _ _ H) as (_ & _ & H3 & H4).
  cbn [String.eqb Ascii.eqb Bool.eqb] in H3.
  split; [exact (@TypeRuleFacts.ocean_fixed_values_valid _ _ _ H3)|].
  intros Hne.
  destruct (TypeRuleFacts.restriction_stages _ _ _ _ H4) as (_ & F2 & _).
  cbn [String.eqb Ascii.eqb Bool.eqb] in F2.
  exact (@TypeRuleFacts.required_parameters_valid _ _ _ F2 Hne).
Qed.

Lemma ocean_type_rules_valid_guarantees_witness :
  exists transport_order,
    ET.find_descendant (ns +++ "transport_order")
      (Samples.prefixed_document ["0"; "1"] "0000203512" [("ocean.scac.no", "MAEU")])
    = Some transport_order
    /\ Forall (fun entry => exists element,
                 ET.find (fst entry) transport_order = Some element
                 /\ ET.text element = Some (snd entry))
              [("status", "D")].
Proof.
  eexists. split; [reflexivity|].
  exact (proj1 (@ocean_type_rules_valid_guarantees Samples.type_rules
                  (Samples.prefixed_document ["0"; "1"] "0000203512"
                     [("ocean.scac.no", "MAEU")])
                  _ Samples.ocean_rules eq_refl eq_refl eq_refl)).
Defined.

(** *** Ocean completeness *)

Module OceanCompletenessFacts.
Import ET BusinessValidator Invariant ValidatorFacts StructureFacts.

Lemma ocean_parameter_valid r param :
  is_valid (validate_ocean_parameter param r) = true ->
  (get "qualifier" param = Some "visibility.ocean.product" ->
   exists v, find "value" param = Some v /\ text v = Some "true")
  /\ (get "qualifier" param = Some "ocean.scac.no" ->
      forall v, find "value" param = Some v -> text_empty v = false ->
      Re.re_match Patterns.scac (text_str (text v)) = true).
Proof.
  unfold validate_ocean_parameter. intros H. cbv zeta in H. split.
  - intros Hq. rewrite Hq in H. cbn [String.eqb Ascii.eqb Bool.eqb] in H.
    destruct (find "value" param) as [v|]; [|discriminate H].
    exists v. split; [reflexivity|]. unfold text_is in H.
    destruct (text v) as [t|]; [|discriminate H].
    destruct (String.eqb_spec t "true"); [now subst | discriminate H].
  - intros Hq v Hv Ht. rewrite Hq, Hv, Ht in H.
    cbn [String.eqb Ascii.eqb Bool.eqb negb andb] in H.
    destruct (Re.re_match Patterns.scac (text_str (text v))); [reflexivity | discriminate H].
Qed.

Lemma ocean_parameters_valid : forall l r,
  is_valid (fold_left (fun result param => validate_ocean_parameter param result) l r) = true ->
  is_valid r = true
  /\ forall param, In param l ->
       (get "qualifier" param = Some "visibility.ocean.product" ->
        exists v, find "value" param = Some v /\ text v = Some "true")
       /\ (get "qualifier" param = Some "ocean.scac.no" ->
           forall v, find "value" param = Some v -> text_empty v = false ->
           Re.re_match Patterns.scac (text_str (text v)) = true).
Proof.
  induction l as [|param l IH]; intros r H; cbn [fold_left] in H.
  - split; [assumption | intros param []].
  - apply IH in H as [Hv Hl].
    split; [exact (valid_before (ocean_parameter_advances _ _) Hv)|].
    intros p [<-|Hin]; [exact (@ocean_parameter_valid _ _ Hv) | now apply Hl].
Qed.

End OceanCompletenessFacts.

(** X17.  A document whose scheduling unit is [Ocean Visibility] and
    which the completeness pass accepts has a parameters section with a
    parameter for each of the four ocean qualifiers; every
    [visibility.ocean.product] parameter has the value [true], and every
    [ocean.scac.no] parameter with a non-empty value is accepted by the
    SCAC pattern. *)
Theorem ocean_completeness_valid_guarantees
    (root transport_order scheduling_unit : ET.Element) :
  ET.find_descendant (ns +++ "transport_order") root = Some transport_order ->
  ET.find "scheduling_unit" transport_order = Some scheduling_unit ->
  ET.text scheduling_unit = Some "Ocean Visibility" ->
  is_valid (BusinessValidator.validate_ocean_completeness (ET.Parsed root)) = true ->
  exists parameters,
    ET.find "parameters" transport_order = Some parameters
    /\ Forall (fun q => exists param,
                 In param (ET.findall "parameter" parameters)
                 /\ ET.get "qualifier" param = Some q)
              ["visibility.ocean.product"; "ocean.scac.no"; "ocean.bl.no";
               "ocean.container.no"]
    /\ forall param, In param (ET.findall "parameter" parameters) ->
         (ET.get "qualifier" param = Some "visibility.ocean.product" ->
          exists v, ET.find "value" param = Some v /\ ET.text v = Some "true")
         /\ (ET.get "qualifier" param = Some "ocean.scac.no" ->
             forall v, ET.find "value" param = Some v -> ET.text_empty v = false ->
             Re.re_match Patterns.scac (text_str (ET.text v)) = true).
Proof.
  intros Hto Hsu Ht H. unfold BusinessValidator.validate_ocean_completeness in H.
  rewrite Hto, Hsu in H. cbv zeta in H. unfold text_is in H. rewrite Ht in H.
  cbn [String.eqb Ascii.eqb Bool.eqb negb] in H.
  destruct (ET.find "parameters" transport_order) as [parameters|]; [|discriminate H].
  exists parameters. split; [reflexivity|].
  apply OceanCompletenessFacts.ocean_parameters_valid in H as [Hv Hl].
  split; [|exact Hl].
  apply (@ValidatorFacts.fold_valid_all _ _
           (fun q => BusinessValidator.mem_opt q
                       (map (ET.get "qualifier") (ET.findall "parameter" parameters))))
    in Hv.
  - apply Forall_forall. intros q Hq. rewrite forallb_forall in Hv. specialize (Hv q Hq).
    unfold BusinessValidator.mem_opt in Hv. apply existsb_exists in Hv as (o & Ho & E).
    apply in_map_iff in Ho as (param & Hparam & Hin).
    destruct o as [y|]; [|discriminate E]. apply String.eqb_eq in E. subst y.
    exists param. auto.
  - intros r0 x. destruct (negb _); [apply Invariant.advances_error | apply Invariant.advances_refl].
  - intros r0 x Hx. now rewrite Hx.
Qed.

Lemma ocean_completeness_valid_guarantees_witness :
  exists parameters,
    ET.find "parameters" Samples.ocean_order = Some parameters
    /\ Forall (fun q => exists param,
                 In param (ET.findall "parameter" parameters)
                 /\ ET.get "qualifier" param = Some q)
              ["visibility.ocean.product"; "ocean.scac.no"; "ocean.bl.no";
               "ocean.container.no"].
Proof.
  destruct (@ocean_completeness_valid_guarantees Samples.ocean_document Samples.ocean_order
              _ eq_refl eq_refl eq_refl eq_refl) as (parameters & Hp & Hq & _).
  exists parameters. split; assumption.
Defined.

(** *** Prompts and collection *)

Module PromptFacts.
Import ParameterCollector.

Lemma has_get key d : dict_has key d = true -> exists v, dict_get key d = Some v.
Proof. unfold dict_has. destruct (dict_get key d) as [v|]; [eauto | discriminate]. Qed.

Lemma missing_prompts_nil provided_data : forall fields,
  missing_field_prompts fields provided_data = [] ->
  forall field, In field fields -> dict_has (name field) provided_data = true.
Proof.
  unfold missing_field_prompts.
  induction fields as [|f fields IH]; intros H field Hin; [destruct Hin|].
  cbn [flat_map] in H. apply app_eq_nil in H as [Hf Hrest].
  destruct Hin as [<-|Hin]; [|now apply IH].
  destruct (dict_has (name f) provided_data); [reflexivity | discriminate Hf].
Qed.

Lemma prompts_nil_missing provided_data : forall fields,
  (forall field, In field fields -> dict_has (name field) provided_data = true) ->
  missing_field_prompts fields provided_data = [].
Proof.
  unfold missing_field_prompts.
  induction fields as [|f fields IH]; intros H; [reflexivity|].
  cbn [flat_map]. rewrite (H f (or_introl eq_refl)). cbn [negb app].
  apply IH. intros field Hin. apply H. now right.
Qed.

Lemma transport_fields_return transport_type user_input : forall fields result,
  (forall field, In field fields -> dict_has (name field) user_input = true) ->
  exists r,
    for_each
      (fun field result =>
         match dict_get (name field) user_input with
         | Some v => Returned (dict_set (name field) v result)
         | None =>
             match default field with
             | Some v => Returned (dict_set (name field) v result)
             | None =>
                 Raised (ValueError ("Required field '" +++ name field
                                       +++ "' not provided for " +++ transport_type))
             end
         end) fields result = Returned r.
Proof.
  induction fields as [|f fields IH]; intros result H; [now exists result|].
  cbn [for_each]. destruct (has_get _ _ (H f (or_introl eq_refl))) as (v & ->).
  cbn [bind]. apply IH. intros field Hin. apply H. now right.
Qed.

Lemma order_fields_return user_input : forall fields result,
  (forall field, In field fields -> dict_has (name field) user_input = true) ->
  exists r,
    for_each
      (fun field result =>
         match dict_get (name field) user_input with
         | Some v => Returned (dict_set (name field) v result)
         | None =>
             Raised (ValueError ("Required order field '" +++ name field
                                   +++ "' not provided"))
         end) fields result = Returned r.
Proof.
  induction fields as [|f fields IH]; intros result H; [now exists result|].
  cbn [for_each]. destruct (has_get _ _ (H f (or_introl eq_refl))) as (v & ->).
  cbn [bind]. apply IH. intros field Hin. apply H. now right.
Qed.

(** A required order field that is absent makes the collection raise. *)
Lemma order_fields_raise user_input : forall fields result,
  (exists field, In field fields /\ dict_has (name field) user_input = false) ->
  exists msg,
    for_each
      (fun field result =>
         match dict_get (name field) user_input with
         | Some v => Returned (dict_set (name field) v result)
         | None =>
             Raised (ValueError ("Required order field '" +++ name field
                                   +++ "' not provided"))
         end) fields result = Raised (ValueError msg).
Proof.
  induction fields as [|f fields IH]; intros result (field & Hin & Hf); [destruct Hin|].
  cbn [for_each]. unfold dict_has in Hf.
  destruct (dict_get (name f) user_input) as [v|] eqn:E.
  - cbn [bind]. apply IH. exists field. split; [|assumption].
    destruct Hin as [<-|Hin]; [|assumption]. now rewrite E in Hf.
  - cbn [bind]. eauto.
Qed.

End PromptFacts.

(** X18.  No prompt for a missing field is generated exactly when the
    input holds every required transport field and every required order
    field (and, for ocean visibility, every required ocean parameter); and
    then the collection of the basic transport information and of the
    order details returns, without the [ValueError] for a required field. *)
Theorem no_missing_prompt_iff_required_provided
    (get_transport_parameters : string -> ParameterCollector.TransportParams)
    (get_order_parameters : string -> ParameterCollector.OrderParams)
    (get_fixed_values : string -> dict) (business_rules : list BusinessRule)
    (transport_type : string) (user_input : dict) :
  let provided :=
    (forall field,
       In field (ParameterCollector.required_fields (get_transport_parameters transport_type))
       -> dict_has (ParameterCollector.name field) user_input = true)
    /\ (forall field,
          In field (ParameterCollector.order_required_fields
                      (get_order_parameters transport_type))
          -> dict_has (ParameterCollector.name field) user_input = true)
    /\ (transport_type = "ocean_visibility" ->
        forall param,
          In param (ParameterCollector.ocean_parameters
                      (get_transport_parameters "ocean_visibility")) ->
          ParameterCollector.param_required param = true ->
          dict_has (ParameterCollector.param_name param) user_input = true) in
  (ParameterCollector.generate_missing_field_prompts get_transport_parameters
     get_order_parameters transport_type user_input = [] <-> provided)
  /\ (provided ->
      (exists info,
         ParameterCollector.collect_basic_transport_info get_transport_parameters
           get_fixed_values business_rules transport_type user_input = Returned info)
      /\ (exists details,
            ParameterCollector.collect_order_details get_order_parameters transport_type
              user_input = Returned details))
  /\ ((exists field,
         In field (ParameterCollector.order_required_fields
                     (get_order_parameters transport_type))
         /\ dict_has (ParameterCollector.name field) user_input = false) ->
      exists msg,
        ParameterCollector.collect_order_details get_order_parameters transport_type
          user_input = Raised (ValueError msg)).
Proof.
  intros provided. split; [split|split].
  - unfold ParameterCollector.generate_missing_field_prompts. intros H.
    destruct (String.eqb_spec transport_type "ocean_visibility") as [E|E].
    + apply app_eq_nil in H as [H Ho]. apply app_eq_nil in H as [Ht Hd].
      split; [exact (PromptFacts.missing_prompts_nil _ _ Ht)|].
      split; [exact (PromptFacts.missing_prompts_nil _ _ Hd)|].
      intros _ param Hin Hreq.
      revert Ho Hin.
      generalize (ParameterCollector.ocean_parameters
                    (get_transport_parameters "ocean_visibility")).
      induction l as [|p l IH]; intros Ho Hin; [destruct Hin|].
      cbn [flat_map] in Ho. apply app_eq_nil in Ho as [Hp Hl].
      destruct Hin as [->|Hin]; [|now apply IH].
      rewrite Hreq in Hp. cbn [andb] in Hp.
      destruct (dict_has (ParameterCollector.param_name param) user_input);
        [reflexivity | discriminate Hp].
    + apply app_eq_nil in H as [Ht Hd].
      split; [exact (PromptFacts.missing_prompts_nil _ _ Ht)|].
      split; [exact (PromptFacts.missing_prompts_nil _ _ Hd)|].
      intros E'. contradiction.
  - intros (Ht & Hd & Ho). unfold ParameterCollector.generate_missing_field_prompts.
    rewrite (PromptFacts.prompts_nil_missing _ _ Ht), (PromptFacts.prompts_nil_missing _ _ Hd).
    cbn [app].
    destruct (String.eqb_spec transport_type "ocean_visibility") as [E|E]; [|reflexivity].
    specialize (Ho E). revert Ho.
    generalize (ParameterCollector.ocean_parameters
                  (get_transport_parameters "ocean_visibility")).
    induction l as [|p l IH]; intros Ho; [reflexivity|].
    cbn [flat_map]. rewrite IH by (intros q Hq; apply Ho; now right).
    destruct (ParameterCollector.param_required p) eqn:Hreq; [|reflexivity].
    now rewrite (Ho p (or_introl eq_refl) Hreq).
  - intros (Ht & Hd & _). split.
    + unfold ParameterCollector.collect_basic_transport_info. cbv zeta.
      destruct (PromptFacts.transport_fields_return transport_type user_input _
                  (dict_update (get_fixed_values transport_type) []) Ht) as (r & ->).
      cbn [bind]. eauto.
    + unfold ParameterCollector.collect_order_details. cbv zeta.
      destruct (PromptFacts.order_fields_return user_input _
                  (dict_update
                     (ParameterCollector.order_fixed_values
                        (get_order_parameters transport_type)) []) Hd) as (r & ->).
      cbn [bind]. eauto.
  - intros Hmissing. unfold ParameterCollector.collect_order_details. cbv zeta.
    destruct (PromptFacts.order_fields_raise user_input _
                (dict_update
                   (ParameterCollector.order_fixed_values
                      (get_order_parameters transport_type)) []) Hmissing) as (msg & ->).
    cbn [bind]. eauto.
Qed.

Lemma no_missing_prompt_iff_required_provided_witness :
  exists info,
    ParameterCollector.collect_basic_transport_info Samples.transport_parameters
      Samples.no_fixed_values [] "complex_road"
      (("order_number", VStr "0081310198") :: Samples.complex_input "0000203512")
    = Returned info.
Proof.
  refine (proj1 (proj1 (proj2 (@no_missing_prompt_iff_required_provided
                                 Samples.transport_parameters Samples.order_parameters
                                 Samples.no_fixed_values [] "complex_road"
                                 (("order_number", VStr "0081310198")
                                    :: Samples.complex_input "0000203512"))) _)).
  split; [|split].
  - intros field [<-|[]]. reflexivity.
  - intros field [<-|[]]. reflexivity.
  - intros E. discriminate E.
Defined.

(** *** Locations and periods of the input *)

Module LocationFacts.
Import ParameterCollector.

Ltac field_cases d f :=
  let v := fresh "v" in
  let E := fresh "E" in
  let T := fresh "T" in
  destruct (dict_get f d) as [v|] eqn:E; [destruct (truthy v) eqn:T|].

Ltac run :=
  cbn [bind for_each fold_left negb dict_set dict_get ET.assoc_get String.eqb Ascii.eqb
       Bool.eqb as_str fst snd] in *.

Ltac known :=
  unfold dict_get in *; run;
  repeat match goal with
         | H : ET.assoc_get _ _ = _ |- _ => rewrite H
         | H : truthy _ = _ |- _ => rewrite H
         end.

End LocationFacts.

(** X19.  When [_process_location] returns for a dictionary, the three
    required fields are present with a true value and are copied, each
    optional field is copied exactly when it is present with a true value,
    nothing else is copied, and the country is a string the country
    pattern accepts. *)
Theorem process_location_returns_checked (location_data processed : dict) :
  ParameterCollector.process_location (VDict location_data) = Returned processed ->
  (forall field, In field ["company_name"; "city"; "country"] ->
     present_truthy field location_data = true
     /\ dict_get field processed = dict_get field location_data)
  /\ (forall field, In field ["street"; "zip"; "state"; "comment"] ->
        dict_get field processed
        = if present_truthy field location_data then dict_get field location_data else None)
  /\ (forall kv, In kv processed ->
        In (fst kv) ["company_name"; "city"; "country"; "street"; "zip"; "state"; "comment"])
  /\ exists country,
       dict_get "country" location_data = Some (VStr country)
       /\ Re.re_match Patterns.country country = true.
Proof.
  unfold ParameterCollector.process_location, present_truthy, dict_get_default.
  cbn [ParameterCollector.as_mapping]. intros H. LocationFacts.run.
  LocationFacts.field_cases location_data "company_name"; LocationFacts.run;
    try discriminate H.
  LocationFacts.field_cases location_data "city"; LocationFacts.run; try discriminate H.
  LocationFacts.field_cases location_data "country"; LocationFacts.run; try discriminate H.
  LocationFacts.field_cases location_data "street"; LocationFacts.run;
    (LocationFacts.field_cases location_data "zip"; LocationFacts.run;
     (LocationFacts.field_cases location_data "state"; LocationFacts.run;
      (LocationFacts.field_cases location_data "comment"; LocationFacts.run;
       (destruct v1; cbn [ParameterCollector.as_str bind] in H; try discriminate H;
        destruct (Re.re_match Patterns.country s) eqn:M; cbn [negb] in H;
        [|discriminate H];
        inversion H; subst processed; clear H;
        (split; [intros field [<-|[<-|[<-|[]]]]; LocationFacts.known; split; reflexivity|]);
        (split; [intros field [<-|[<-|[<-|[<-|[]]]]]; LocationFacts.known; reflexivity|]);
        (split; [intros kv Hin; cbn [In] in Hin;
                 repeat (destruct Hin as [<-|Hin]; [cbn [fst In]; tauto|]);
                 destruct Hin|]);
        exists s; LocationFacts.known; auto)))).
Qed.

Lemma process_location_returns_checked_witness :
  exists country,
    dict_get "country"
      [("company_name", VStr "WOK Sp. z o.o."); ("city", VStr "Brodnica");
       ("country", VStr "PL"); ("comment", VStr "ZF: 12:00"); ("state", VStr "")]
    = Some (VStr country)
    /\ Re.re_match Patterns.country country = true.
Proof.
  exact (proj2 (proj2 (proj2 (@process_location_returns_checked
           [("company_name", VStr "WOK Sp. z o.o."); ("city", VStr "Brodnica");
            ("country", VStr "PL"); ("comment", VStr "ZF: 12:00"); ("state", VStr "")]
           _ eq_refl)))).
Defined.

(** *** Custom parameters and their two levels *)

Module ParameterFacts.
Import ParameterCollector ComplexRoadParameters.

(** What the loop of [collect_custom_parameters] appends for one
    dictionary with a qualifier. *)
Lemma custom_loop : forall ds acc,
  exists out,
    for_each
      (fun param processed =>
         let* param := as_dict param in
         if negb (present_truthy "qualifier" param) then Returned processed
         else
           let processed_param :=
             [("qualifier", dict_get_default "qualifier" VNone param);
              ("value", dict_get_default "value" (VStr "") param)] in
           let processed_param :=
             match dict_get "shipper_visibility" param with
             | Some v => dict_set "shipper_visibility" v processed_param
             | None => processed_param
             end in
           let processed_param :=
             match dict_get "export_to_carrier" param with
             | Some v => dict_set "export_to_carrier" v processed_param
             | None => processed_param
             end in
           Returned (processed ++ [VDict processed_param]))
      (map VDict ds) acc = Returned (acc ++ out)
    /\ map parameter_qualifier out
       = map (dict_get "qualifier") (filter (present_truthy "qualifier") ds)
    /\ Forall (fun v => exists d, v = VDict d /\ present_truthy "qualifier" d = true
                                  /\ dict_has "value" d = true) out.
Proof.
  match goal with
  | |- forall ds acc, exists out, for_each ?f _ _ = _ /\ _ => set (body := f)
  end.
  induction ds as [|d ds IH]; intros acc.
  - exists []. rewrite app_nil_r. repeat split; constructor.
  - cbn [map for_each filter]. unfold body at 1. cbn [as_dict bind].
    destruct (present_truthy "qualifier" d) eqn:Hq; cbn [negb].
    + cbv zeta. cbn [bind].
      match goal with
      | |- context [for_each _ _ (acc ++ [?p])] => destruct (IH (acc ++ [p])) as (out & E & Hm & Hf);
                                                    exists (p :: out)
      end.
      rewrite E, <- app_assoc. split; [reflexivity|]. split.
      * cbn [map]. rewrite Hm. f_equal.
        unfold present_truthy in Hq. unfold dict_get_default.
        destruct (dict_get "qualifier" d) as [q|] eqn:Eq; [|discriminate Hq].
        destruct (dict_get "shipper_visibility" d), (dict_get "export_to_carrier" d);
          reflexivity.
      * constructor; [|assumption]. eexists. split; [reflexivity|].
        unfold present_truthy in *. unfold dict_get_default, dict_has.
        destruct (dict_get "qualifier" d) as [q|] eqn:Eq; [|discriminate Hq].
        destruct (dict_get "shipper_visibility" d), (dict_get "export_to_carrier" d);
          cbn; rewrite Hq; auto.
    + apply IH.
Qed.

(** Whatever the input, the collected parameters are dictionaries. *)
Lemma custom_loop_dicts : forall l acc out,
  for_each
    (fun param processed =>
       let* param := as_dict param in
       if negb (present_truthy "qualifier" param) then Returned processed
       else
         let processed_param :=
           [("qualifier", dict_get_default "qualifier" VNone param);
            ("value", dict_get_default "value" (VStr "") param)] in
         let processed_param :=
           match dict_get "shipper_visibility" param with
           | Some v => dict_set "shipper_visibility" v processed_param
           | None => processed_param
           end in
         let processed_param :=
           match dict_get "export_to_carrier" param with
           | Some v => dict_set "export_to_carrier" v processed_param
           | None => processed_param
           end in
         Returned (processed ++ [VDict processed_param]))
    l acc = Returned out ->
  Forall (fun v => exists d, v = VDict d) acc ->
  Forall (fun v => exists d, v = VDict d) out.
Proof.
  match goal with
  | |- forall l acc out, for_each ?f _ _ = _ -> _ => set (body := f)
  end.
  induction l as [|x l IH]; intros acc out H Hacc; cbn [for_each] in H.
  - now inversion H; subst.
  - unfold body at 1 in H.
    destruct x; cbn [as_dict bind] in H; try discriminate H.
    destruct (negb (present_truthy "qualifier" d)); [now apply (IH acc)|].
    cbv zeta in H. cbn [bind] in H. apply IH in H; [assumption|].
    apply Forall_app. split; [assumption|]. constructor; [eauto | constructor].
Qed.

Lemma extract_dicts qualifiers : forall l acc,
  Forall (fun v => exists d, v = VDict d) l ->
  exists out,
    for_each
      (fun param kept =>
         let* d := as_dict param in
         if qualifier_in qualifiers d then Returned (kept ++ [param]) else Returned kept)
      l acc = Returned (acc ++ out)
    /\ forall p, In p out ->
         In p l /\ exists d, p = VDict d /\ qualifier_in qualifiers d = true.
Proof.
  induction l as [|x l IH]; intros acc Hl.
  - exists []. rewrite app_nil_r. split; [reflexivity | intros p []].
  - inversion Hl as [|? ? (d & ->) Hl']; subst. cbn [for_each as_dict bind].
    destruct (qualifier_in qualifiers d) eqn:Hq; cbn [bind].
    + destruct (IH (acc ++ [VDict d]) Hl') as (out & E & Hout).
      exists (VDict d :: out). rewrite E, <- app_assoc. split; [reflexivity|].
      intros p [<-|Hp]; [split; [now left | eauto]|].
      destruct (Hout p Hp) as [Hin Hd]. split; [now right | assumption].
    + destruct (IH acc Hl') as (out & E & Hout). exists out. split; [assumption|].
      intros p Hp. destruct (Hout p Hp) as [Hin Hd]. split; [now right | assumption].
Qed.

Lemma levels_disjoint d :
  qualifier_in order_level_qualifiers d = true ->
  qualifier_in transport_level_qualifiers d = false.
Proof.
  unfold qualifier_in. destruct (dict_get "qualifier" d) as [[| | |q| |]|]; try discriminate.
  intros H. apply TypeRuleFacts.mem_string_true in H.
  unfold order_level_qualifiers in H. cbn [In] in H.
  repeat (destruct H as [<-|H]; [reflexivity|]). destruct H.
Qed.

End ParameterFacts.

(** X20.  [collect_custom_parameters] keeps exactly the parameters with a
    true qualifier, in their order: for a list of dictionaries it returns,
    the qualifiers of the result are those of the kept inputs, and every
    collected parameter is a dictionary with a true qualifier and a value. *)
Theorem custom_parameters_keep_qualified (user_input : dict) (ds : list dict) :
  dict_get "parameters" user_input = Some (VList (map VDict ds)) ->
  exists collected,
    ParameterCollector.collect_custom_parameters user_input = Returned collected
    /\ map parameter_qualifier collected
       = map (dict_get "qualifier") (filter (present_truthy "qualifier") ds)
    /\ Forall (fun v => exists d, v = VDict d /\ present_truthy "qualifier" d = true
                                  /\ dict_has "value" d = true) collected.
Proof.
  intros H. unfold ParameterCollector.collect_custom_parameters, dict_get_default.
  rewrite H. cbn [iter bind].
  destruct (ParameterFacts.custom_loop ds []) as (out & E & Hm & Hf).
  exists out. split; [exact E | split; assumption].
Qed.

Lemma custom_parameters_keep_qualified_witness :
  exists collected,
    ParameterCollector.collect_custom_parameters
      [("parameters",
        VList [VDict [("qualifier", VStr "custom.important.info"); ("value", VStr "x")];
               VDict [("qualifier", VStr ""); ("value", VStr "dropped")];
               VDict [("qualifier", VStr "route")]])]
    = Returned collected
    /\ map parameter_qualifier collected
       = [Some (VStr "custom.important.info"); Some (VStr "route")].
Proof.
  destruct (@custom_parameters_keep_qualified
              [("parameters",
                VList [VDict [("qualifier", VStr "custom.important.info");
                              ("value", VStr "x")];
                       VDict [("qualifier", VStr ""); ("value", VStr "dropped")];
                       VDict [("qualifier", VStr "route")]])]
              [[("qualifier", VStr "custom.important.info"); ("value", VStr "x")];
               [("qualifier", VStr ""); ("value", VStr "dropped")];
               [("qualifier", VStr "route")]] eq_refl) as (collected & E & Hm & _).
  exists collected. split; [exact E | exact Hm].
Defined.

(** X21.  The parameters [collect_custom_parameters] returns can always
    be split into the two levels of a Complex Road order: both
    extractions return, each keeps only collected parameters whose
    qualifier is in its list, and no parameter is placed at both levels. *)
Theorem collected_parameters_split_in_levels (user_input : dict) (collected : list value) :
  ParameterCollector.collect_custom_parameters user_input = Returned collected ->
  exists order_parameters transport_parameters,
    ComplexRoadParameters.extract_order_parameters collected = Returned order_parameters
    /\ ComplexRoadParameters.extract_transport_parameters collected
       = Returned transport_parameters
    /\ (forall p, In p order_parameters ->
          In p collected
          /\ exists d, p = VDict d
               /\ ComplexRoadParameters.qualifier_in
                    ComplexRoadParameters.order_level_qualifiers d = true)
    /\ (forall p, In p transport_parameters ->
          In p collected
          /\ exists d, p = VDict d
               /\ ComplexRoadParameters.qualifier_in
                    ComplexRoadParameters.transport_level_qualifiers d = true)
    /\ (forall p, In p order_parameters -> ~ In p transport_parameters).
Proof.
  intros H. unfold ParameterCollector.collect_custom_parameters in H.
  apply CollectFacts.bind_returned in H as (l & _ & H).
  apply ParameterFacts.custom_loop_dicts in H; [|constructor].
  destruct (@ParameterFacts.extract_dicts ComplexRoadParameters.order_level_qualifiers
              collected [] H) as (o & Eo & Ho).
  destruct (@ParameterFacts.extract_dicts ComplexRoadParameters.transport_level_qualifiers
              collected [] H) as (t & Et & Ht).
  exists o, t. repeat split; try assumption; try (now apply Ho); try (now apply Ht).
  intros p Hp Hp'. destruct (Ho p Hp) as (_ & d & -> & Hd).
  destruct (Ht _ Hp') as (_ & d' & E & Hd'). injection E as <-.
  rewrite (ParameterFacts.levels_disjoint _ Hd) in Hd'. discriminate.
Qed.

Lemma collected_parameters_split_in_levels_witness :
  exists order_parameters,
    ComplexRoadParameters.extract_order_parameters
      [VDict [("qualifier", VStr "custom.important.info"); ("value", VStr "x")];
       VDict [("qualifier", VStr "route"); ("value", VStr "")]]
    = Returned order_parameters.
Proof.
  destruct (@collected_parameters_split_in_levels
              [("parameters",
                VList [VDict [("qualifier", VStr "custom.important.info");
                              ("value", VStr "x")];
                       VDict [("qualifier", VStr ""); ("value", VStr "dropped")];
                       VDict [("qualifier", VStr "route")]])]
              _ eq_refl) as (o & t & Eo & _).
  exists o. exact Eo.
Defined.

(** *** The stops of the input *)

Module StopInputFacts.
Import ParameterCollector.

Lemma process_stop_returned i x processed :
  process_stop i x = Returned processed ->
  exists d location period,
    x = VDict d
    /\ process_location (dict_get_default "location" (VDict []) d) = Returned location
    /\ process_date_time_period (dict_get_default "date_time_period" (VDict []) d)
       = Returned period
    /\ processed
       = VDict [("id", dict_get_default "id" (VStr ("stop_" +++ nat_to_string (i + 1))) d);
                ("index", dict_get_default "index" (VInt (Z.of_nat i)) d);
                ("location", VDict location);
                ("date_time_period", VDict period)].
Proof.
  unfold process_stop. intros H.
  apply CollectFacts.bind_returned in H as (d & Hd & H).
  destruct x; try discriminate Hd. injection Hd as ->. cbv zeta in H.
  apply CollectFacts.bind_returned in H as (location & Hl & H).
  apply CollectFacts.bind_returned in H as (period & Hp & H).
  injection H as <-. exists d, location, period. auto.
Qed.

Lemma stops_loop : forall l i acc out,
  for_each_from
    (fun i stop_data processed_stops =>
       let* processed_stop := process_stop i stop_data in
       Returned (processed_stops ++ [processed_stop]))
    i l acc = Returned out ->
  exists new,
    out = acc ++ new
    /\ List.length new = List.length l
    /\ forall j x, nth_error l j = Some x ->
         exists processed, nth_error new j = Some processed
                           /\ process_stop (i + j) x = Returned processed.
Proof.
  induction l as [|x l IH]; intros i acc out H; cbn [for_each_from] in H.
  - injection H as <-. exists []. rewrite app_nil_r. repeat split.
    intros j y Hj. destruct j; discriminate Hj.
  - apply CollectFacts.bind_returned in H as (st & Hst & H).
    apply CollectFacts.bind_returned in Hst as (processed & Hp & Hst).
    injection Hst as <-.
    apply IH in H as (new & -> & Hlen & Hnth).
    exists (processed :: new). rewrite <- app_assoc. split; [reflexivity|].
    split; [cbn [List.length]; now rewrite Hlen|].
    intros [|j] y Hj; cbn [nth_error] in *.
    + injection Hj as <-. exists processed. now rewrite Nat.add_0_r.
    + destruct (Hnth j y Hj) as (q & Hq & Hproc). exists q. split; [assumption|].
      now rewrite Nat.add_succ_r.
Qed.

End StopInputFacts.

(** X22.  When [collect_stops] returns for a list of stops, it returns
    as many stops in the same order; the stop at position [i] is a
    dictionary, keeps its [id] and [index] or gets the defaults
    [stop_<i+1>] and [i], and its location and period are those the two
    checking functions return for it. *)
Theorem collect_stops_positional (user_input : dict) (l collected : list value) :
  dict_get "stops" user_input = Some (VList l) ->
  ParameterCollector.collect_stops user_input = Returned collected ->
  List.length collected = List.length l
  /\ forall i x, nth_error l i = Some x ->
       exists d location period,
         x = VDict d
         /\ ParameterCollector.process_location
              (dict_get_default "location" (VDict []) d) = Returned location
         /\ ParameterCollector.process_date_time_period
              (dict_get_default "date_time_period" (VDict []) d) = Returned period
         /\ nth_error collected i
            = Some (VDict [("id", dict_get_default "id"
                                    (VStr ("stop_" +++ nat_to_string (i + 1))) d);
                           ("index", dict_get_default "index" (VInt (Z.of_nat i)) d);
                           ("location", VDict location);
                           ("date_time_period", VDict period)]).
Proof.
  intros Hs H. unfold ParameterCollector.collect_stops, dict_get_default in H.
  rewrite Hs in H. cbn [iter bind] in H.
  apply StopInputFacts.stops_loop in H as (new & -> & Hlen & Hnth).
  split; [exact Hlen|]. intros i x Hi.
  destruct (Hnth i x Hi) as (processed & Hp & Hproc).
  apply StopInputFacts.process_stop_returned in Hproc as (d & location & period & -> & Hl & Hpe & ->).
  exists d, location, period. cbn [app]. auto.
Qed.

Lemma collect_stops_positional_witness :
  exists collected,
    ParameterCollector.collect_stops
      [("stops",
        VList [VDict [("location", Samples.location "Papierfabrik Palm" "Woerth" "DE");
                      ("date_time_period",
                       Samples.period "2025-09-25T00:00:00+02:00"
                         "2025-09-25T23:59:00+02:00")];
               Samples.input_stop "2" 1])]
    = Returned collected
    /\ List.length collected = 2%nat.
Proof.
  eexists. split; [reflexivity|].
  exact (proj1 (@collect_stops_positional
                  [("stops",
                    VList [VDict [("location",
                                   Samples.location "Papierfabrik Palm" "Woerth" "DE");
                                  ("date_time_period",
                                   Samples.period "2025-09-25T00:00:00+02:00"
                                     "2025-09-25T23:59:00+02:00")];
                           Samples.input_stop "2" 1])]
                  _ _ eq_refl eq_refl)).
Defined.

(** X23.  When [_process_date_time_period] returns for a dictionary,
    [start] and [end] are strings the date-time pattern accepts and are
    copied, and [timezone] is copied exactly when it is present. *)
Theorem process_date_time_period_returns_checked (period_data processed : dict) :
  ParameterCollector.process_date_time_period (VDict period_data) = Returned processed ->
  (forall field, In field ["start"; "end"] ->
     exists s, dict_get field period_data = Some (VStr s)
               /\ Patterns.iso_datetime_match s = true
               /\ dict_get field processed = Some (VStr s))
  /\ dict_get "timezone" processed = dict_get "timezone" period_data
  /\ (forall kv, In kv processed -> In (fst kv) ["start"; "end"; "timezone"]).
Proof.
  unfold ParameterCollector.process_date_time_period,
    ParameterCollector.validate_iso_datetime.
  cbn [ParameterCollector.as_mapping bind for_each]. intros H.
  destruct (dict_get "start" period_data) as [[| | |s| |]|] eqn:Es;
    cbn [ParameterCollector.as_str bind] in H; try discriminate H.
  destruct (Patterns.iso_datetime_match s) eqn:Ms; cbn [negb bind] in H;
    [|discriminate H].
  destruct (dict_get "end" period_data) as [[| | |e| |]|] eqn:Ee;
    cbn [ParameterCollector.as_str bind] in H; try discriminate H.
  destruct (Patterns.iso_datetime_match e) eqn:Me; cbn [negb bind] in H;
    [|discriminate H].
  destruct (dict_get "timezone" period_data) as [tz|] eqn:Et;
    injection H as <-;
    (split; [intros field [<-|[<-|[]]]; [exists s | exists e]; rewrite ?Es, ?Ee; auto|]);
    (split; [reflexivity|]);
    intros kv Hin; cbn in Hin; repeat (destruct Hin as [<-|Hin]; [cbn; tauto|]);
    destruct Hin.
Qed.

Lemma process_date_time_period_returns_checked_witness :
  exists processed,
    ParameterCollector.process_date_time_period
      (VDict [("start", VStr "2025-09-25T00:00:00+02:00");
              ("end", VStr "2025-09-25T23:59:00+02:00");
              ("timezone", VStr "Europe/Berlin")]) = Returned processed
    /\ dict_get "timezone" processed = Some (VStr "Europe/Berlin").
Proof.
  eexists. split; [reflexivity|].
  exact (proj1 (proj2 (@process_date_time_period_returns_checked
           [("start", VStr "2025-09-25T00:00:00+02:00");
            ("end", VStr "2025-09-25T23:59:00+02:00");
            ("timezone", VStr "Europe/Berlin")] _ eq_refl))).
Defined.

(** *** The input checks of the Ocean Visibility generator *)

Module OceanInputFacts.
Import ParameterCollector OceanVisibilityGenerator.

Lemma warn_loop_valid : forall l r r',
  for_each warn_non_ocean_parameter l r = Returned r' -> is_valid r' = is_valid r.
Proof.
  induction l as [|x l IH]; intros r r' H; cbn [for_each] in H.
  - now injection H as <-.
  - apply CollectFacts.bind_returned in H as (r1 & H1 & H).
    rewrite (IH _ _ H). unfold warn_non_ocean_parameter in H1.
    apply CollectFacts.bind_returned in H1 as (d & _ & H1).
    destruct (dict_get_default "qualifier" (VStr "") d); try discriminate H1.
    destruct (_ && _); now injection H1 as <-.
Qed.

Lemma warn_forbidden_valid user_input r :
  is_valid (warn_forbidden_elements user_input r) = is_valid r.
Proof.
  unfold warn_forbidden_elements. cbn [fold_left].
  repeat match goal with |- context [if ?b then _ else _] => destruct b end; reflexivity.
Qed.

Lemma scac_code_valid user_input r r' :
  validate_scac_code user_input r = Returned r' -> is_valid r' = true ->
  is_valid r = true
  /\ forall s, dict_get "ocean.scac.no" user_input = Some (VStr s) -> s <> "" ->
       String.length s = 4%nat
       /\ (isalpha (digits_to_A s) = true \/ Re.re_match Patterns.scac s = true).
Proof.
  unfold validate_scac_code, dict_get_default. intros H Hv.
  destruct (dict_get "ocean.scac.no" user_input) as [scac|] eqn:E.
  - destruct (truthy scac) eqn:T.
    + apply CollectFacts.bind_returned in H as (n & Hn & H).
      destruct (Nat.eqb_spec n 4) as [->|Hne]; cbn [negb] in H;
        [|injection H as <-; discriminate Hv].
      destruct scac; try discriminate H. cbn [len] in Hn. injection Hn as Hn.
      destruct (isalpha (digits_to_A s)) eqn:A; cbn [negb] in H.
      * injection H as <-. split; [assumption|]. intros s' Hs' _. injection Hs' as <-. auto.
      * destruct (Re.re_match Patterns.scac s) eqn:M; cbn [negb] in H;
          injection H as <-; [|discriminate Hv].
        split; [assumption|]. intros s' Hs' _. injection Hs' as <-. auto.
    + injection H as <-. split; [assumption|]. intros s Hs Hne. injection Hs as ->.
      cbn [truthy] in T. apply negb_false_iff, String.eqb_eq in T. contradiction.
  - cbn [truthy String.eqb negb] in H. injection H as <-.
    split; [assumption | intros s Hs; discriminate Hs].
Qed.

Lemma required_ocean_parameters_valid user_input r :
  is_valid (check_required_ocean_parameters user_input r) = true ->
  is_valid r = true
  /\ forall q, In q required_ocean_parameters -> dict_has q user_input = true.
Proof.
  unfold check_required_ocean_parameters, required_ocean_parameters. cbn [fold_left].
  intros H.
  destruct (dict_has "ocean.scac.no" user_input) eqn:H1,
           (dict_has "ocean.bl.no" user_input) eqn:H2,
           (dict_has "ocean.container.no" user_input) eqn:H3;
    cbn [negb] in H; try discriminate H.
  split; [assumption|]. intros q [<-|[<-|[<-|[]]]]; assumption.
Qed.

Lemma stops_or_locations_valid user_input r r' :
  check_stops_or_locations user_input r = Returned r' -> is_valid r' = true ->
  is_valid r = true
  /\ exists n,
       len (dict_get_default "stops" (VList []) user_input) = Returned n
       /\ (n = 2%nat
           \/ (n = 0%nat /\ dict_has "departure_location" user_input = true
                         /\ dict_has "arrival_location" user_input = true)).
Proof.
  unfold check_stops_or_locations. intros H Hv.
  apply CollectFacts.bind_returned in H as (n & Hn & H). cbv zeta in H.
  destruct n as [|n].
  - change (0 =? 0)%nat with true in H. change (0 <? 0)%nat with false in H.
    destruct (dict_has "departure_location" user_input),
             (dict_has "arrival_location" user_input);
      cbn [andb negb] in H; injection H as <-; try discriminate Hv.
    split; [assumption|]. exists 0%nat. auto.
  - change (S n =? 0)%nat with false in H. change (0 <? S n)%nat with true in H.
    cbn [andb] in H.
    destruct (Nat.eqb_spec (S n) 2) as [E|E]; cbn [negb] in H; injection H as <-;
      [|discriminate Hv].
    split; [assumption|]. exists (S n). auto.
Qed.

End OceanInputFacts.

(** X24.  An input the specific validation of the Ocean Visibility
    generator accepts holds the three required ocean parameters; it has
    exactly two stops, or no stop and both the departure and the arrival
    location; and a non-empty SCAC string has four characters and is made
    of letters and digits only or is accepted by the SCAC pattern. *)
Theorem ocean_input_accepted_guarantees (user_input : dict) (r r' : ValidationResult) :
  OceanVisibilityGenerator.perform_specific_validation user_input r = Returned r' ->
  is_valid r' = true ->
  is_valid r = true
  /\ (forall q, In q OceanVisibilityGenerator.required_ocean_parameters ->
        dict_has q user_input = true)
  /\ (exists n,
        len (dict_get_default "stops" (VList []) user_input) = Returned n
        /\ (n = 2%nat
            \/ (n = 0%nat /\ dict_has "departure_location" user_input = true
                          /\ dict_has "arrival_location" user_input = true)))
  /\ (forall s, dict_get "ocean.scac.no" user_input = Some (VStr s) -> s <> "" ->
        String.length s = 4%nat
        /\ (isalpha (digits_to_A s) = true \/ Re.re_match Patterns.scac s = true)).
Proof.
  unfold OceanVisibilityGenerator.perform_specific_validation. intros H Hv.
  apply CollectFacts.bind_returned in H as (r1 & H1 & H). cbv zeta in H.
  apply CollectFacts.bind_returned in H as (r3 & H3 & H). cbv zeta in H.
  apply CollectFacts.bind_returned in H as (parameters & _ & H).
  apply OceanInputFacts.warn_loop_valid in H.
  rewrite OceanInputFacts.warn_forbidden_valid in H. rewrite H in Hv.
  destruct (OceanInputFacts.scac_code_valid _ _ H3 Hv) as [Hv2 Hscac].
  destruct (OceanInputFacts.required_ocean_parameters_valid _ _ Hv2) as [Hv1 Hreq].
  destruct (OceanInputFacts.stops_or_locations_valid _ _ H1 Hv1) as [Hv0 Hstops].
  auto.
Qed.

Lemma ocean_input_accepted_guarantees_witness :
  dict_has "ocean.bl.no" (Samples.ocean_input []) = true.
Proof.
  apply (proj1 (proj2 (@ocean_input_accepted_guarantees (Samples.ocean_input [])
                         new_result _ eq_refl eq_refl))).
  right. left. reflexivity.
Defined.

Module ScacFacts.
Import ParameterCollector.

Lemma ocean_loop_refuses user_input s :
  dict_get "ocean.scac.no" user_input = Some (VStr s) ->
  Re.re_match Patterns.scac s = false ->
  forall params result,
  Forall (fun p => param_required p = true -> dict_has (param_name p) user_input = true)
         params ->
  (exists p, In p params /\ param_name p = "ocean.scac.no") ->
  for_each
    (fun param result =>
       if param_required param && negb (dict_has (param_name param) user_input)
       then Raised (ValueError ("Required ocean parameter '" +++ param_name param
                                  +++ "' not provided"))
       else
         match dict_get (param_name param) user_input with
         | Some value =>
             if String.eqb (param_name param) "ocean.scac.no"
             then
               let* scac := as_str value in
               if negb (Re.re_match Patterns.scac scac)
               then Raised (ValueError ("SCAC code must be 4 alphanumeric characters: "
                                          +++ scac))
               else Returned (dict_set (param_name param) value result)
             else Returned (dict_set (param_name param) value result)
         | None =>
             if String.eqb (param_name param) "ocean.booking.no"
             then Returned (dict_set (param_name param) (VStr "") result)
             else Returned result
         end)
    params result
  = Raised (ValueError ("SCAC code must be 4 alphanumeric characters: " +++ s)).
Proof.
  intros Hs Hm.
  induction params as [|p params IH]; intros result Hreq (q & Hin & Hq);
    [destruct Hin|].
  inversion Hreq as [|? ? Hp Hreq']; subst. cbn [for_each].
  assert (Hok : param_required p && negb (dict_has (param_name p) user_input) = false).
  { destruct (param_required p); [|reflexivity]. now rewrite Hp. }
  rewrite Hok.
  destruct (String.eqb_spec (param_name p) "ocean.scac.no") as [E|E].
  - rewrite E, Hs. cbn [as_str bind]. now rewrite Hm.
  - assert (Hrest : exists q, In q params /\ param_name q = "ocean.scac.no").
    { exists q. split; [|assumption]. destruct Hin as [<-|Hin]; [contradiction | assumption]. }
    destruct (dict_get (param_name p) user_input);
      [|destruct (String.eqb (param_name p) "ocean.booking.no")];
      cbn [bind]; now apply IH.
Qed.

End ScacFacts.

(** X25.  The two SCAC checks of the Ocean Visibility generator
    disagree: a four-character SCAC made of letters only that the SCAC
    pattern refuses (for instance lower-case letters) passes the input
    validation without an error, and the collection of the ocean
    parameters then raises the [ValueError] on its format, when the
    configuration declares the parameter and the required ones are given. *)
Theorem scac_passes_validation_fails_collection
    (get_transport_parameters : string -> ParameterCollector.TransportParams)
    (user_input : dict) (s : string) (r : ValidationResult) :
  dict_get "ocean.scac.no" user_input = Some (VStr s) ->
  String.length s = 4%nat ->
  isalpha (digits_to_A s) = true ->
  Re.re_match Patterns.scac s = false ->
  Forall (fun p => ParameterCollector.param_required p = true ->
                   dict_has (ParameterCollector.param_name p) user_input = true)
         (ParameterCollector.ocean_parameters (get_transport_parameters "ocean_visibility")) ->
  (exists p,
     In p (ParameterCollector.ocean_parameters (get_transport_parameters "ocean_visibility"))
     /\ ParameterCollector.param_name p = "ocean.scac.no") ->
  OceanVisibilityGenerator.validate_scac_code user_input r = Returned r
  /\ ParameterCollector.collect_ocean_parameters get_transport_parameters user_input
     = Raised (ValueError ("SCAC code must be 4 alphanumeric characters: " +++ s)).
Proof.
  intros Hs Hlen Ha Hm Hreq Hdecl. split.
  - unfold OceanVisibilityGenerator.validate_scac_code, dict_get_default. rewrite Hs.
    assert (T : truthy (VStr s) = true) by (destruct s; [discriminate Hlen | reflexivity]).
    rewrite T. cbn [len bind]. rewrite Hlen. cbn [Nat.eqb negb]. now rewrite Ha.
  - unfold ParameterCollector.collect_ocean_parameters. cbv zeta.
    now apply (@ScacFacts.ocean_loop_refuses user_input s Hs Hm).
Qed.

Lemma scac_passes_validation_fails_collection_witness :
  OceanVisibilityGenerator.validate_scac_code
    (("ocean.scac.no", VStr "maeu") :: Samples.ocean_input ["ocean.scac.no"]) new_result
  = Returned new_result
  /\ ParameterCollector.collect_ocean_parameters Samples.transport_parameters
       (("ocean.scac.no", VStr "maeu") :: Samples.ocean_input ["ocean.scac.no"])
     = Raised (ValueError "SCAC code must be 4 alphanumeric characters: maeu").
Proof.
  apply (@scac_passes_validation_fails_collection Samples.transport_parameters
           (("ocean.scac.no", VStr "maeu") :: Samples.ocean_input ["ocean.scac.no"])
           "maeu" new_result eq_refl eq_refl eq_refl eq_refl).
  - repeat constructor.
  - eexists. split; [left; reflexivity | reflexivity].
Defined.

(** *** A generated Ocean Visibility order *)

Module OceanOrderFacts.
Import ParameterCollector BaseGenerator OceanVisibilityGenerator.

Lemma length_chars : forall s, List.length (chars s) = String.length s.
Proof. induction s as [|c s IH]; simpl; [reflexivity | now rewrite IH]. Qed.

Lemma len_iter v n l : len v = Returned n -> iter v = Returned l -> List.length l = n.
Proof.
  destruct v; cbn [len iter]; intros Hn Hl; try discriminate Hn;
    injection Hn as <-; injection Hl as <-.
  - apply length_chars.
  - reflexivity.
  - apply length_map.
Qed.

(** The entries the fixed values and the order number leave alone. *)
Lemma prepared_get key user_input :
  key <> "scheduling_unit" -> key <> "carrier_creditor_number" -> key <> "status" ->
  key <> "order_number" ->
  let m0 := dict_update fixed_values user_input in
  let m1 := if negb (dict_has "order_number" m0)
            then dict_set "order_number" (dict_get_default "number" (VStr "") m0) m0
            else m0 in
  dict_get key m1 = dict_get key user_input.
Proof.
  intros N1 N2 N3 N4 m0 m1.
  assert (H0 : dict_get key m0 = dict_get key user_input).
  { apply CollectFacts.get_update_other. unfold fixed_values.
    repeat constructor; cbn [fst]; congruence. }
  unfold m1. destruct (negb (dict_has "order_number" m0)); [|assumption].
  now rewrite DictFacts.get_set_other.
Qed.

(** After the validation accepted the input, the input handed to the
    collection holds two stops. *)
Lemma modified_stops_two user_input m n :
  modified_input user_input = Returned m ->
  len (dict_get_default "stops" (VList []) user_input) = Returned n ->
  (n = 2%nat
   \/ (n = 0%nat /\ dict_has "departure_location" user_input = true
                 /\ dict_has "arrival_location" user_input = true)) ->
  exists v, dict_get "stops" m = Some v
            /\ forall l, iter v = Returned l -> List.length l = 2%nat.
Proof.
  unfold modified_input. intros H Hn Hcase.
  apply CollectFacts.bind_returned in H as (rebuild & Hr & H).
  pose proof (@prepared_get "stops" user_input) as Hs.
  pose proof (@prepared_get "departure_location" user_input) as Hd.
  pose proof (@prepared_get "arrival_location" user_input) as Ha.
  cbv zeta in Hs, Hd, Ha.
  specialize (Hs ltac:(discriminate) ltac:(discriminate) ltac:(discriminate)
                 ltac:(discriminate)).
  specialize (Hd ltac:(discriminate) ltac:(discriminate) ltac:(discriminate)
                 ltac:(discriminate)).
  specialize (Ha ltac:(discriminate) ltac:(discriminate) ltac:(discriminate)
                 ltac:(discriminate)).
  set (m1 := if negb (dict_has "order_number" (dict_update fixed_values user_input))
             then _ else _) in *.
  apply (f_equal (fun o => match o with Returned x => x | Raised _ => m end)) in H.
  subst m.
  rewrite !DictFacts.get_set_other by discriminate.
  unfold dict_get_default in Hn. rewrite Hs in Hr.
  destruct Hcase as [-> | (-> & Hdep & Harr)].
  - destruct (dict_get "stops" user_input) as [v|] eqn:E; [|discriminate Hn].
    rewrite Hn in Hr. cbn [bind Nat.eqb negb] in Hr. injection Hr as <-.
    cbn [andb]. rewrite Hs. exists v. split; [reflexivity|].
    intros l Hl. exact (len_iter _ Hn Hl).
  - assert (Hreb : rebuild = true).
    { destruct (dict_get "stops" user_input) as [v|]; [|now injection Hr as <-].
      rewrite Hn in Hr. cbn [bind Nat.eqb negb] in Hr. now injection Hr as <-. }
    subst rebuild. unfold dict_has in *. rewrite Hd, Ha.
    destruct (dict_get "departure_location" user_input); [|discriminate Hdep].
    destruct (dict_get "arrival_location" user_input); [|discriminate Harr].
    cbn [andb]. rewrite DictFacts.get_set_same. eexists. split; [reflexivity|].
    unfold build_ocean_stops. cbv zeta. cbn [iter]. intros l Hl. now injection Hl as <-.
Qed.

(** The specific validation does not make an invalid result valid. *)
Lemma perform_valid user_input r r' :
  perform_specific_validation user_input r = Returned r' -> is_valid r' = true ->
  is_valid r = true
  /\ (forall q, In q required_ocean_parameters -> dict_has q user_input = true)
  /\ exists n,
       len (dict_get_default "stops" (VList []) user_input) = Returned n
       /\ (n = 2%nat
           \/ (n = 0%nat /\ dict_has "departure_location" user_input = true
                         /\ dict_has "arrival_location" user_input = true)).
Proof.
  unfold perform_specific_validation. intros H Hv.
  apply CollectFacts.bind_returned in H as (r1 & H1 & H). cbv zeta in H.
  apply CollectFacts.bind_returned in H as (r3 & H3 & H). cbv zeta in H.
  apply CollectFacts.bind_returned in H as (parameters & _ & H).
  apply OceanInputFacts.warn_loop_valid in H.
  rewrite OceanInputFacts.warn_forbidden_valid in H. rewrite H in Hv.
  destruct (OceanInputFacts.scac_code_valid _ _ H3 Hv) as [Hv2 _].
  destruct (OceanInputFacts.required_ocean_parameters_valid _ _ Hv2) as [Hv1 Hreq].
  destruct (OceanInputFacts.stops_or_locations_valid _ _ H1 Hv1) as [Hv0 Hstops].
  auto.
Qed.

End OceanOrderFacts.

(** X26.  Whenever the Ocean Visibility generator reports success, no
    prompt for a missing required field was generated, the input holds the
    three required ocean parameters, the collected parameters are those of
    [collect_all_parameters], and exactly two stops were collected. *)
Theorem ocean_success_guarantees
    (get_transport_parameters : string -> ParameterCollector.TransportParams)
    (get_order_parameters : string -> ParameterCollector.OrderParams)
    (get_fixed_values : string -> dict) (business_rules : list BusinessRule)
    (render : ParameterCollector.Collected -> dict -> outcome string)
    (str_of_exn : exn -> string)
    (user_input : dict) (xml_content : string) (collected : ParameterCollector.Collected) :
  OceanVisibilityGenerator.generate_xml get_transport_parameters get_order_parameters
    get_fixed_values business_rules render str_of_exn user_input
  = Returned (BaseGenerator.Success xml_content collected) ->
  ParameterCollector.generate_missing_field_prompts get_transport_parameters
    get_order_parameters "ocean_visibility" user_input = []
  /\ (forall q, In q OceanVisibilityGenerator.required_ocean_parameters ->
        dict_has q user_input = true)
  /\ OceanVisibilityGenerator.collect_all_parameters get_transport_parameters
       get_order_parameters get_fixed_values business_rules user_input = Returned collected
  /\ List.length (ParameterCollector.stops collected) = 2%nat.
Proof.
  unfold OceanVisibilityGenerator.generate_xml. intros H.
  apply CollectFacts.bind_returned in H as (validation & Hval & H).
  destruct (is_valid (BaseGenerator.checks validation)) eqn:Hv; cbn [negb] in H;
    [|discriminate H].
  cbv zeta in H.
  destruct (OceanVisibilityGenerator.collect_all_parameters get_transport_parameters
              get_order_parameters get_fixed_values business_rules user_input)
    as [c|] eqn:Hc; cbn [bind] in H; [|discriminate H].
  destruct (ParameterCollector.collect_ocean_parameters get_transport_parameters user_input)
    as [o|]; cbn [bind] in H; [|discriminate H].
  destruct (render c o) as [xml|]; cbn [bind] in H; [|discriminate H].
  injection H as <- <-.
  unfold BaseGenerator.validate_input in Hval. cbv zeta in Hval.
  fold OceanVisibilityGenerator.transport_type in Hval |- *.
  destruct (OceanVisibilityGenerator.perform_specific_validation user_input
              match ParameterCollector.generate_missing_field_prompts
                      get_transport_parameters get_order_parameters
                      OceanVisibilityGenerator.transport_type user_input with
              | [] => new_result
              | _ :: _ => set_invalid new_result
              end) as [r'|[]] eqn:Hp; try discriminate Hval;
    injection Hval as <-; cbn [BaseGenerator.checks] in Hv; [|discriminate Hv].
  destruct (OceanOrderFacts.perform_valid _ _ Hp Hv) as (Hr & Hreq & n & Hn & Hcase).
  assert (Hprompts : ParameterCollector.generate_missing_field_prompts
                       get_transport_parameters get_order_parameters
                       OceanVisibilityGenerator.transport_type user_input = []).
  { destruct (ParameterCollector.generate_missing_field_prompts _ _ _ _);
      [reflexivity | discriminate Hr]. }
  split; [exact Hprompts|]. split; [exact Hreq|]. split; [reflexivity|].
  unfold OceanVisibilityGenerator.collect_all_parameters,
    BaseGenerator.collect_all_parameters in Hc.
  apply CollectFacts.bind_returned in Hc as (m & Hm & Hc).
  apply CollectFacts.bind_returned in Hc as (info & _ & Hc).
  apply CollectFacts.bind_returned in Hc as (details & _ & Hc).
  apply CollectFacts.bind_returned in Hc as (stops & Hs & Hc).
  apply CollectFacts.bind_returned in Hc as (custom & _ & Hc).
  injection Hc as <-. cbn [ParameterCollector.stops].
  destruct (OceanOrderFacts.modified_stops_two _ Hm Hn Hcase) as (v & Hget & Hlen).
  unfold ParameterCollector.collect_stops, dict_get_default in Hs. rewrite Hget in Hs.
  apply CollectFacts.bind_returned in Hs as (l & Hl & Hs).
  apply StopInputFacts.stops_loop in Hs as (new & -> & Hnew & _).
  cbn [app]. rewrite Hnew. exact (Hlen l Hl).
Qed.

Lemma ocean_success_guarantees_witness :
  exists xml_content collected,
    OceanVisibilityGenerator.generate_xml Samples.transport_parameters
      Samples.order_parameters Samples.no_fixed_values []
      (fun _ _ => Returned "<transport_orders/>") (fun _ => "")
      (("order_number", VStr "4500831479-20") :: Samples.ocean_input [])
    = Returned (BaseGenerator.Success xml_content collected)
    /\ List.length (ParameterCollector.stops collected) = 2%nat.
Proof.
  eexists. eexists. split; [vm_compute; reflexivity|].
  exact (proj2 (proj2 (proj2
           (@ocean_success_guarantees Samples.transport_parameters
              Samples.order_parameters Samples.no_fixed_values []
              (fun _ _ => Returned "<transport_orders/>") (fun _ => "")
              (("order_number", VStr "4500831479-20") :: Samples.ocean_input [])
              _ _ eq_refl)))).
Defined.

(** *** Order items: validation and collection *)

Module OrderItemFacts.
Import ParameterCollector ComplexRoadGenerator OrderItems.

Lemma returned_eq {A} (a b : A) : Returned a = Returned b -> a = b.
Proof. now intros [= ->]. Qed.

Lemma quantity_loop_dicts index : forall l r r',
  for_each
    (fun qty validation_result =>
       let* qty := as_dict qty in
       if negb (present_truthy "qualifier" qty)
       then Returned
              (set_invalid
                 (append_error ("Order item " +++ nat_to_string (index + 1)
                                  +++ ": Quantity qualifier is required")
                               validation_result))
       else Returned validation_result)
    l r = Returned r' ->
  Forall is_dict l /\ (is_valid r' = true -> is_valid r = true).
Proof.
  induction l as [|x l IH]; intros r r' H; cbn [for_each] in H.
  - injection H as <-. auto.
  - apply CollectFacts.bind_returned in H as (r1 & H1 & H).
    apply CollectFacts.bind_returned in H1 as (d & Hd & H1).
    destruct x; try discriminate Hd. cbn [as_dict] in Hd. injection Hd as Hd. subst.
    destruct (IH _ _ H) as [Hl Hv]. split; [constructor; [now eexists | assumption]|].
    intros Hv'. specialize (Hv Hv').
    destruct (negb (present_truthy "qualifier" _)); injection H1 as <-;
      [discriminate Hv | assumption].
Qed.

Lemma qualifier_loop_dicts : forall l (acc out : list (option value)),
  for_each (fun p acc => let* p := as_dict p in Returned (acc ++ [dict_get "qualifier" p]))
           l acc = Returned out ->
  Forall is_dict l.
Proof.
  induction l as [|x l IH]; intros acc out H; cbn [for_each] in H; [constructor|].
  apply CollectFacts.bind_returned in H as (acc1 & H1 & H).
  apply CollectFacts.bind_returned in H1 as (d & Hd & _).
  destruct x; try discriminate Hd.
  constructor; [now eexists | exact (IH _ _ H)].
Qed.

Lemma recommended_keep_valid index qualifiers : forall l r,
  is_valid
    (fold_left
       (fun validation_result required_qualifier =>
          if negb (existsb (fun q => eq_str q required_qualifier) qualifiers)
          then append_warning ("Order item " +++ nat_to_string (index + 1)
                                 +++ ": Recommended parameter '" +++ required_qualifier
                                 +++ "' is missing") validation_result
          else validation_result) l r)
  = is_valid r.
Proof.
  induction l as [|x l IH]; intros r; cbn [fold_left]; [reflexivity|].
  rewrite IH. now destruct (negb _).
Qed.

(** What an accepted item is made of. *)
Lemma accepted_item item index r r' :
  validate_order_item (VDict item) index r = Returned r' -> is_valid r' = true ->
  is_valid r = true
  /\ (forall field, In field ["number"; "short_description"; "material_number"] ->
        present_truthy field item = true)
  /\ (truthy (dict_get_default "quantities" (VList []) item) = true ->
      exists l, iter (dict_get_default "quantities" (VList []) item) = Returned l
                /\ Forall is_dict l)
  /\ exists l, iter (dict_get_default "parameters" (VList []) item) = Returned l
               /\ Forall is_dict l.
Proof.
  unfold validate_order_item. cbn [as_mapping bind]. cbv zeta. intros H Hv.
  apply CollectFacts.bind_returned in H as (r2 & H2 & H).
  apply CollectFacts.bind_returned in H as (params & Hparams & H).
  apply CollectFacts.bind_returned in H as (qualifiers & Hq & H).
  apply returned_eq in H. subst r'. rewrite recommended_keep_valid in Hv.
  apply qualifier_loop_dicts in Hq.
  assert (Hr1 : is_valid
                  (fold_left
                     (fun validation_result field =>
                        if negb (present_truthy field item)
                        then set_invalid
                               (append_error ("Order item " +++ nat_to_string (index + 1)
                                                +++ ": Required field '" +++ field
                                                +++ "' is missing") validation_result)
                        else validation_result)
                     ["number"; "short_description"; "material_number"] r) = true
                /\ (truthy (dict_get_default "quantities" (VList []) item) = true ->
                    exists l, iter (dict_get_default "quantities" (VList []) item)
                              = Returned l /\ Forall is_dict l)).
  { destruct (truthy (dict_get_default "quantities" (VList []) item)); cbn [negb] in H2.
    - apply CollectFacts.bind_returned in H2 as (l & Hl & H2).
      apply quantity_loop_dicts in H2 as [Hd Hback]. split; [now apply Hback | eauto].
    - injection H2 as <-. split; [exact Hv | discriminate]. }
  destruct Hr1 as [Hr1 Hquant]. cbn [fold_left] in Hr1.
  destruct (present_truthy "number" item) eqn:F1,
           (present_truthy "short_description" item) eqn:F2,
           (present_truthy "material_number" item) eqn:F3;
    cbn [negb] in Hr1; try discriminate Hr1.
  split; [assumption|].
  split; [intros field [<-|[<-|[<-|[]]]]; assumption|].
  split; [assumption | eauto].
Qed.

Section Collection.

Variable float_zero : value.

Lemma quantities_return : forall l acc,
  Forall is_dict l ->
  exists out,
    for_each
      (fun qty processed =>
         let* qty := as_dict qty in
         Returned (processed ++
                   [VDict [("qualifier", dict_get_default "qualifier" (VStr "") qty);
                           ("value", dict_get_default "value" float_zero qty);
                           ("unit", dict_get_default "unit" (VStr "") qty)]]))
      l acc = Returned (acc ++ out)
    /\ List.length out = List.length l.
Proof.
  induction l as [|x l IH]; intros acc Hl.
  - exists []. now rewrite app_nil_r.
  - inversion Hl as [|? ? (d & ->) Hl']; subst. cbn [for_each as_dict bind].
    match goal with
    | |- context [for_each _ _ (acc ++ [?p])] =>
        destruct (IH (acc ++ [p]) Hl') as (out & E & Hlen); exists (p :: out)
    end.
    rewrite E, <- app_assoc. split; [reflexivity | cbn [List.length]; now rewrite Hlen].
Qed.

Lemma item_parameters_return : forall l acc,
  Forall is_dict l ->
  exists out,
    for_each
      (fun param processed =>
         let* param := as_dict param in
         let processed_param :=
           [("qualifier", dict_get_default "qualifier" (VStr "") param);
            ("value", dict_get_default "value" (VStr "") param)] in
         let processed_param :=
           match dict_get "shipper_visibility" param with
           | Some v => dict_set "shipper_visibility" v processed_param
           | None => processed_param
           end in
         let processed_param :=
           match dict_get "export_to_carrier" param with
           | Some v => dict_set "export_to_carrier" v processed_param
           | None => processed_param
           end in
         Returned (processed ++ [VDict processed_param]))
      l acc = Returned out.
Proof.
  match goal with
  | |- forall l acc, _ -> exists out, for_each ?f _ _ = _ => set (body := f)
  end.
  induction l as [|x l IH]; intros acc Hl; [now exists acc|].
  inversion Hl as [|? ? (d & ->) Hl']; subst. cbn [for_each]. unfold body at 1.
  cbn [as_dict bind]. cbv zeta. cbn [bind]. now apply IH.
Qed.

Lemma process_quantities_returns l :
  Forall is_dict l ->
  exists out, process_quantities float_zero (VList l) = Returned out
              /\ List.length out = List.length l.
Proof. intros H. exact (quantities_return [] H). Qed.

Lemma process_item_parameters_returns v l :
  iter v = Returned l -> Forall is_dict l ->
  exists out, process_item_parameters v = Returned out.
Proof.
  intros Hv H. unfold process_item_parameters. rewrite Hv.
  exact (item_parameters_return [] H).
Qed.

End Collection.

End OrderItemFacts.

(** X27.  An order item that the input validation of the Complex Road
    generator accepts is collected: when its quantities are absent or a
    list, [collect_order_items] processes it without the [ValueError] for
    a missing required item field, keeps its number, description and
    material number, and returns as many quantities as it was given. *)
Theorem accepted_order_item_is_collected (float_zero : value) (item : dict) (index : nat)
    (r r' : ValidationResult) (quantities : list value) :
  ComplexRoadGenerator.validate_order_item (VDict item) index r = Returned r' ->
  is_valid r' = true ->
  dict_get_default "quantities" (VList []) item = VList quantities ->
  exists processed_quantities processed_parameters,
    OrderItems.process_item float_zero (VDict item)
    = Returned
        (VDict [("number", dict_get_default "number" (VStr "") item);
                ("short_description", dict_get_default "short_description" (VStr "") item);
                ("material_number", dict_get_default "material_number" (VStr "") item);
                ("quantities", VList processed_quantities);
                ("parameters", VList processed_parameters)])
    /\ List.length processed_quantities = List.length quantities
    /\ (forall field, In field ["number"; "short_description"; "material_number"] ->
          present_truthy field item = true).
Proof.
  intros H Hv Hq.
  destruct (OrderItemFacts.accepted_item _ _ _ H Hv) as (_ & Hreq & Hquant & params & Hp & Hpd).
  assert (Hqd : Forall is_dict quantities).
  { rewrite Hq in Hquant. destruct quantities as [|q qs]; [constructor|].
    destruct (Hquant eq_refl) as (l & Hl & Hd). cbn [iter] in Hl. now injection Hl as <-. }
  destruct (OrderItemFacts.process_quantities_returns float_zero Hqd) as (pq & Epq & Hlen).
  destruct (OrderItemFacts.process_item_parameters_returns _ Hp Hpd) as (pp & Epp).
  exists pq, pp. split; [|split; assumption].
  unfold OrderItems.process_item. cbn [as_dict bind].
  rewrite Hq, Epq. cbn [bind]. rewrite Epp. cbn [bind].
  pose proof (Hreq "number" ltac:(cbn; tauto)) as F1.
  pose proof (Hreq "short_description" ltac:(cbn; tauto)) as F2.
  pose proof (Hreq "material_number" ltac:(cbn; tauto)) as F3.
  unfold present_truthy in F1, F2, F3. unfold OrderItems.required_item_fields.
  cbn [for_each]. unfold dict_get_default.
  cbn [dict_get ET.assoc_get String.eqb Ascii.eqb Bool.eqb].
  fold (dict_get "number" item). fold (dict_get "short_description" item).
  fold (dict_get "material_number" item).
  destruct (dict_get "number" item) as [v1|]; [|discriminate F1].
  destruct (dict_get "short_description" item) as [v2|]; [|discriminate F2].
  destruct (dict_get "material_number" item) as [v3|]; [|discriminate F3].
  rewrite F1, F2, F3. reflexivity.
Qed.

Lemma accepted_order_item_is_collected_witness :
  exists processed,
    OrderItems.process_item (VInt 0)
      (VDict [("number", VStr "10"); ("short_description", VStr "Paper rolls");
              ("material_number", VStr "4711");
              ("quantities", VList [VDict [("qualifier", VStr "weight");
                                           ("value", VInt 23106)]])])
    = Returned processed.
Proof.
  destruct (@accepted_order_item_is_collected (VInt 0)
              [("number", VStr "10"); ("short_description", VStr "Paper rolls");
               ("material_number", VStr "4711");
               ("quantities", VList [VDict [("qualifier", VStr "weight");
                                            ("value", VInt 23106)]])]
              0 new_result _ _ eq_refl eq_refl eq_refl) as (pq & pp & E & _).
  eexists. exact E.
Defined.

(** *** The input checks of the Complex Road generator *)

Module ComplexInputFacts.
Import ParameterCollector ComplexRoadGenerator.





End ComplexInputFacts.



(** *** Field formats *)

Module FieldFacts.
Import ET StructuralValidator Invariant ValidatorFacts StructureFacts.

(** A loop ends valid only if every step did. *)
Lemma fold_valid_each {A} (f : ValidationResult -> A -> ValidationResult) (P : A -> Prop) :
  (forall r x, advances r (f r x)) ->
  (forall r x, is_valid (f r x) = true -> P x) ->
  forall l r, is_valid (fold_left f l r) = true -> Forall P l.
Proof.
  intros Hadv HP. induction l as [|x l IH]; intros r H; cbn [fold_left] in H;
    [constructor|].
  constructor; [|exact (IH _ H)].
  apply (HP r). exact (valid_before (advances_fold_left f Hadv l (f r x)) H).
Qed.

Ltac bounds :=
  repeat match goal with
         | H : (_ && _) = false |- _ => apply andb_false_iff in H; destruct H
         | H : negb _ = false |- _ => apply negb_false_iff in H
         | H : negb _ = true |- _ => apply negb_true_iff in H
         | H : (_ =? _)%nat = true |- _ => apply Nat.eqb_eq in H
         | H : (_ <? _)%nat = false |- _ => apply Nat.ltb_ge in H
         end.

Section Fields.

Variable float_accepts : string -> bool.
Variable str_of_list : list string -> string.

Lemma field_valid field_name value rules r :
  is_valid (apply_field_validation float_accepts str_of_list field_name value rules r) = true ->
  (required rules = true -> value <> "")
  /\ (field_type rules = Some "number" -> float_accepts value = true)
  /\ (forall m, min_length rules = Some m -> (m <= String.length value)%nat)
  /\ (forall m, max_length rules = Some m -> m <> 0%nat -> (String.length value <= m)%nat)
  /\ (forall matches, pattern rules = Some matches -> matches value = true)
  /\ (allowed_values rules <> [] -> In value (allowed_values rules)).
Proof.
  unfold apply_field_validation. intros H.
  destruct (required rules && String.eqb value "") eqn:Hreq; [discriminate H|].
  cbv zeta in H.
  destruct (match field_type rules with
            | Some t => String.eqb t "number"
            | None => false
            end && negb (float_accepts value)) eqn:Hnum; [discriminate H|].
  split.
  { intros Hr. rewrite Hr in Hreq. cbn [andb] in Hreq. now apply String.eqb_neq. }
  split.
  { intros Ht. rewrite Ht in Hnum. cbn [String.eqb Ascii.eqb Bool.eqb andb] in Hnum.
    now apply negb_false_iff in Hnum. }
  clear Hreq Hnum.
  destruct (min_length rules) as [mn|] eqn:Emin;
    destruct (max_length rules) as [mx|] eqn:Emax;
    destruct (pattern rules) as [matches|] eqn:Epat;
    destruct (allowed_values rules) as [|a l] eqn:Eall;
    repeat match type of H with
           | context [if ?b then _ else _] => destruct b eqn:?
           end;
    cbn [is_valid set_invalid append_error] in H; try discriminate H;
    (split; [intros m Hm; try discriminate Hm; try (injection Hm as <-); bounds; lia|]);
    (split; [intros m Hm Hne; try discriminate Hm; try (injection Hm as <-); bounds;
             lia|]);
    (split; [intros f Hf; try discriminate Hf; try (injection Hf as <-); bounds;
             assumption|]);
    intros Hne; try contradiction; bounds; now apply TypeRuleFacts.mem_string_true.
Qed.

End Fields.
End FieldFacts.

(** X29.  In a document the field-format pass accepts, every field of
    the configured rules that is found below [transport_order] with a
    non-empty text obeys its rule: a number is accepted by [float], the
    length lies within the bounds (a bound of 0 is not checked), the text
    is accepted by the pattern, and it is one of the allowed values when
    the rule lists any. *)
Theorem field_formats_valid_guarantees
    (transport_order_rules : list (string * StructuralValidator.FieldRule))
    (float_accepts : string -> bool) (str_of_list : list string -> string)
    (root transport_order : ET.Element) :
  ET.find_descendant (ns +++ "transport_order") root = Some transport_order ->
  is_valid (StructuralValidator.validate_field_formats transport_order_rules float_accepts
              str_of_list (ET.Parsed root)) = true ->
  forall field_name rules element,
    In (field_name, rules) transport_order_rules ->
    ET.find field_name transport_order = Some element ->
    ET.text_empty element = false ->
    let value := text_str (ET.text element) in
    (StructuralValidator.field_type rules = Some "number" -> float_accepts value = true)
    /\ (forall m, StructuralValidator.min_length rules = Some m ->
                  (m <= String.length value)%nat)
    /\ (forall m, StructuralValidator.max_length rules = Some m -> m <> 0%nat ->
                  (String.length value <= m)%nat)
    /\ (forall matches, StructuralValidator.pattern rules = Some matches ->
                        matches value = true)
    /\ (StructuralValidator.allowed_values rules <> [] ->
        In value (StructuralValidator.allowed_values rules)).
Proof.
  intros Hto H field_name rules element Hin Hfind Htext value.
  unfold StructuralValidator.validate_field_formats in H. rewrite Hto in H.
  apply (StructureFacts.valid_before (Invariant.parameter_formats_advances _ _)) in H.
  unfold StructuralValidator.validate_transport_order_fields in H.
  apply (@FieldFacts.fold_valid_each _ _
           (fun entry : string * StructuralValidator.FieldRule =>
              forall element,
                ET.find (fst entry) transport_order = Some element ->
                ET.text_empty element = false ->
                exists r, is_valid (StructuralValidator.apply_field_validation
                                      float_accepts str_of_list (fst entry)
                                      (text_str (ET.text element)) (snd entry) r) = true))
    in H.
  - rewrite Forall_forall in H. specialize (H _ Hin element Hfind Htext).
    cbn [fst snd] in H.
    destruct H as (r & H). apply FieldFacts.field_valid in H.
    destruct H as (_ & H2 & H3 & H4 & H5 & H6). auto 10.
  - intros r [f fr]. destruct (ET.find f transport_order) as [e|];
      [|apply Invariant.advances_refl].
    destruct (negb (ET.text_empty e));
      [apply Invariant.apply_field_validation_advances | apply Invariant.advances_refl].
  - intros r [f fr] Hv e He Ht. cbn [fst snd] in *. rewrite He, Ht in Hv.
    cbn [negb] in Hv. now exists r.
Qed.

Lemma field_formats_valid_guarantees_witness :
  In "D" ["N"; "D"; "NTO"].
Proof.
  refine (proj2 (proj2 (proj2 (proj2
            (@field_formats_valid_guarantees
               [("status", StructuralValidator.mkFieldRule true None (Some 1%nat)
                             (Some 3%nat) None None ["N"; "D"; "NTO"])]
               (fun _ => true) (fun _ => "")
               (Samples.prefixed_document ["0"; "1"] "0000203512" []) _
               eq_refl eq_refl "status" _ (ET.leaf "status" "D")
               (or_introl eq_refl) eq_refl eq_refl)))) _).
  discriminate.
Defined.
